(** * price-monitor: a shallow embedding of [src/monitor_plotly.py]

    The program is a linear batch job: fetch prices, append them to a CSV
    log, load the log, add percent-change columns, render a dashboard,
    evaluate alerts and notify.  Each function of the source is embedded
    below under its own name, and the properties of the specification are
    stated over these embeddings.

    Conventions of the embedding.
    - A Python [float] (and a numpy [float64]) is a binary64 number:
      Rocq's primitive [float], with its NaN and infinities.
    - A Python [dict] is an association list in insertion order with
      distinct keys ([dict_set] keeps the position of an existing key).
    - An exception is a value of [exn]; a call either [Returns] or
      [Raises].  Code with effects runs in the monad [M St]: a state of
      type [St] is threaded and an exception aborts the rest.
    - The file system is a finite map from paths to the CSV records of
      the file; the pandas objects live in a heap indexed by locations. *)

From Stdlib Require Import Floats Uint63 ZArith QArith.
From stdpp Require Import gmap strings list fin_maps sorting pretty.

#[local] Open Scope string_scope.
#[local] Open Scope list_scope.

(** ** Exceptions and the effect monad *)

Inductive exn : Set :=
| KeyError (key : string)
| TypeError
| ValueError
| IndexError
| ConnectionError
| HTTPError (status : Z)
| JSONDecodeError
| EmptyDataError
| ParserError
| Unsupported (what : string).
(** [Unsupported] is not an exception of Python: it marks an input outside
    the fragment of pandas that is modelled, on which the real call may
    return as well as raise.  No property below is about it. *)

Inductive outcome (A : Type) : Type :=
| Returns (a : A)
| Raises (e : exn).
Arguments Returns {A} a.
Arguments Raises {A} e.

Definition M (St A : Type) : Type := St → outcome A * St.

Definition ret {St A} (a : A) : M St A := λ s, (Returns a, s).

Definition bind {St A B} (c : M St A) (k : A → M St B) : M St B :=
  λ s, match c s with
       | (Returns a, s') => k a s'
       | (Raises e, s') => (Raises e, s')
       end.

Definition raise {St A} (e : exn) : M St A := λ s, (Raises e, s).

(** [try: c except Exception: h] *)
Definition try_except {St A} (c : M St A) (h : exn → M St A) : M St A :=
  λ s, match c s with
       | (Returns a, s') => (Returns a, s')
       | (Raises e, s') => h e s'
       end.

Declare Scope py_scope.
Delimit Scope py_scope with py.
Notation "x <~ c ;; k" := (bind c (λ x, k))
  (at level 100, c at next level, right associativity) : py_scope.
Notation "c ;;; k" := (bind c (λ _, k))
  (at level 100, right associativity) : py_scope.

(** [for x in xs: body x], the loop carrying no value. *)
Fixpoint for_each {St A} (xs : list A) (body : A → M St unit) : M St unit :=
  match xs with
  | [] => ret tt
  | x :: xs' => bind (body x) (λ _, for_each xs' body)
  end.

(** ** Dictionaries in insertion order *)

Definition dict (V : Type) : Type := list (string * V).

Fixpoint dict_get {V} (d : dict V) (k : string) : option V :=
  match d with
  | [] => None
  | (k', v) :: d' => if decide (k' = k) then Some v else dict_get d' k
  end.

(** [d[k] = v]: an existing key keeps its position, a new key goes last. *)
Fixpoint dict_set {V} (d : dict V) (k : string) (v : V) : dict V :=
  match d with
  | [] => [(k, v)]
  | (k', v') :: d' =>
      if decide (k' = k) then (k, v) :: d' else (k', v') :: dict_set d' k v
  end.

Definition dict_keys {V} (d : dict V) : list string := d.*1.

(** [[d[k] for k in d.keys()]]; the lookup cannot miss. *)
Definition dict_values_by_key {V} (d : dict V) : list V :=
  omap (dict_get d) (dict_keys d).

Definition dict_wf {V} (d : dict V) : Prop := NoDup (dict_keys d).

(** ** Floats *)

(** [x >= y] and [x <= y] of Python floats; both are false on NaN. *)
Definition float_ge (x y : float) : bool := PrimFloat.leb y x.
Definition float_le (x y : float) : bool := PrimFloat.leb x y.

(** ** Configuration *)

(** One entry of [cfg["assets"]]: [color], [upper] and [lower] are
    optional keys of the mapping. *)
Record asset : Type := {
  a_id : string;
  a_name : string;
  a_color : option string;
  a_upper : option float;
  a_lower : option float
}.

(** [cfg["chart"]]: every key is optional.  The windows are naturals, the
    values [rolling] takes: a negative window or one that is no integer,
    on which [rolling] raises [ValueError], is outside this type. *)
Record chart_cfg : Type := {
  theme_bg : option string;
  theme_fg : option string;
  ma_windows : option (list nat)
}.

(** [cfg["telegram"]]: a mapping whose keys are optional. *)
Record telegram_cfg : Type := {
  bot_token : option string;
  chat_id : option string
}.

(** The keys of the configuration the renderer and the notifier read:
    [assets] and [chart] are indexed, and so always there; [telegram] is
    looked up, and may be absent. *)
Record config : Type := {
  cfg_assets : list asset;
  cfg_chart : chart_cfg;
  cfg_telegram : option telegram_cfg
}.

(** ** Alert evaluator: [check_alerts] *)

Inductive alert_kind : Set := Upper | Lower.

(** The content of one alert line: the four values the f-string
    interpolates. *)
Record alert : Type := {
  al_name : string;
  al_kind : alert_kind;
  al_threshold : float;
  al_price : float
}.

(** The two appends of one loop iteration, given the price [p]. *)
Definition upper_alert (a : asset) (p : float) : list alert :=
  match a_upper a with
  | Some u => if float_ge p u then [Build_alert (a_name a) Upper u p] else []
  | None => []
  end.

Definition lower_alert (a : asset) (p : float) : list alert :=
  match a_lower a with
  | Some l => if float_le p l then [Build_alert (a_name a) Lower l p] else []
  | None => []
  end.

Definition check_alerts (prices : dict float) (assets : list asset) : list alert :=
  fold_left
    (λ alerts a,
       match dict_get prices (a_name a) with
       | None => alerts
       | Some p => (alerts ++ upper_alert a p) ++ lower_alert a p
       end)
    assets [].

(** The number formats of Python the program uses: [str(x)] and the
    formats [.2f], [,.2f] after a dollar sign, and [+.2f] before a percent
    sign. *)
Class Formats : Type := {
  str_float : float → string;
  format_2f : float → string;
  format_money : float → string;
  format_signed_pct : float → string
}.

Section AlertText.
Context `{Formats}.

Definition render_alert (al : alert) : string :=
  "ALERTA: " ++ al_name al ++
  match al_kind al with Upper => " ≥ " | Lower => " ≤ " end ++
  str_float (al_threshold al) ++ " → " ++ format_2f (al_price al) ++ " USD".

Definition check_alerts_text (prices : dict float) (assets : list asset)
  : list string :=
  render_alert <$> check_alerts prices assets.
End AlertText.

(** What one asset contributes, in order. *)
Definition asset_alerts (prices : dict float) (a : asset) : list alert :=
  match dict_get prices (a_name a) with
  | None => []
  | Some p => upper_alert a p ++ lower_alert a p
  end.

Definition upper_fires (prices : dict float) (a : asset) : Prop :=
  ∃ p u, dict_get prices (a_name a) = Some p ∧ a_upper a = Some u
         ∧ float_ge p u = true.

Definition lower_fires (prices : dict float) (a : asset) : Prop :=
  ∃ p l, dict_get prices (a_name a) = Some p ∧ a_lower a = Some l
         ∧ float_le p l = true.


(** ** The network boundary *)

(** The JSON object the price API answers with:
    [{ <id>: { <currency>: <number> } }]. *)
Abbreviation price_json := (gmap string (gmap string float)).

Inductive request : Type :=
| Get (url : string) (params : dict string)
| Post (url : string) (json_body : dict string).

(** What the remote end does with a request: the call fails (connection
    error, timeout) or a response comes back, with its status and, when
    the body is a JSON object of prices, that object. *)
Inductive reply : Type :=
| CallFails
| Response (status : Z) (body : option price_json).

(** The network: the requests issued so far, oldest first, and the
    behaviour of the remote end. *)
Record network : Type := {
  net_log : list request;
  net_answer : request → reply
}.

Definition send (rq : request) : M network (Z * option price_json) :=
  λ n, let n' := {| net_log := net_log n ++ [rq]; net_answer := net_answer n |} in
       match net_answer n rq with
       | CallFails => (Raises ConnectionError, n')
       | Response st body => (Returns (st, body), n')
       end.

(** [r.raise_for_status()] *)
Definition raise_for_status {St} (status : Z) : M St unit :=
  if bool_decide (400 ≤ status < 600)%Z then raise (HTTPError status) else ret tt.

(** [r.json()] *)
Definition json_of {St} (body : option price_json) : M St price_json :=
  match body with
  | Some data => ret data
  | None => raise JSONDecodeError
  end.

(** ** Price fetcher: [fetch_prices] *)

(** The loop of [fetch_prices] over the decoded response. *)
Definition collect_prices (assets : list asset) (vs_currency : string)
    (data : price_json) : dict float :=
  fold_left
    (λ prices a,
       let aid := a_id a in
       match data !! aid with
       | Some quotes =>
           match quotes !! vs_currency with
           | Some v => dict_set prices (a_name a) v
           | None => prices
           end
       | None => prices
       end)
    assets [].

Definition fetch_prices (assets : list asset) (url vs_currency : string)
    : M network (dict float) :=
  (let ids := String.concat "," (a_id <$> assets) in
   let params := [("ids", ids); ("vs_currencies", vs_currency)] in
   r <~ send (Get url params) ;;
   raise_for_status r.1 ;;;
   data <~ json_of r.2 ;;
   ret (collect_prices assets vs_currency data))%py.

(** ** Notifier: [notify_telegram] *)

(** [cfg.get("telegram", {}).get(key) or ""] *)
Definition credential (cfg : config) (key : telegram_cfg → option string)
    : string :=
  default "" (cfg_telegram cfg ≫= key).

Definition notify_telegram (text : string) (cfg : config) : M network bool :=
  let token := credential cfg bot_token in
  let chat_id := credential cfg chat_id in
  if bool_decide (token = "") || bool_decide (chat_id = "") then ret false
  else
    try_except
      (send (Post ("https://api.telegram.org/bot" ++ token ++ "/sendMessage")
                  [("chat_id", chat_id); ("text", text)]) ;;;
       ret true)%py
      (λ _, ret false).

(** ** Exceptions without state *)

#[global] Instance outcome_ret : MRet outcome := λ _ a, Returns a.
#[global] Instance outcome_bind : MBind outcome := λ _ _ k o,
  match o with
  | Returns a => k a
  | Raises e => Raises e
  end.

Fixpoint collect {A} (os : list (outcome A)) : outcome (list A) :=
  match os with
  | [] => Returns []
  | o :: os' => a ← o; l ← collect os'; Returns (a :: l)
  end.

(** ** Tables *)

(** An instant, as pandas stores it: a count of time units since the
    epoch. *)
Definition time : Set := Z.

(** A column of a [DataFrame] is typed: instants ([datetime64]) or floats
    ([float64], where NaN is the missing value). *)
Inductive column : Type :=
| TimeCol (ts : list time)
| NumCol (xs : list float).

(** A [DataFrame]: its columns by name, in column order. *)
Abbreviation DataFrame := (dict column).

Definition col_length (c : column) : nat :=
  match c with
  | TimeCol ts => length ts
  | NumCol xs => length xs
  end.

(** [len(df)] *)
Definition nrows (df : DataFrame) : nat :=
  match df with
  | [] => 0
  | (_, c) :: _ => col_length c
  end.

Inductive cell : Type :=
| VTime (t : time)
| VNum (x : float).

Definition col_cell (c : column) (i : nat) : option cell :=
  match c with
  | TimeCol ts => VTime <$> ts !! i
  | NumCol xs => VNum <$> xs !! i
  end.

(** Row [i] of the table, by position. *)
Definition row_at (df : DataFrame) (i : nat) : list (string * cell) :=
  omap (λ nc, (λ v, (nc.1, v)) <$> col_cell nc.2 i) df.

Definition frame_rows (df : DataFrame) : list (list (string * cell)) :=
  row_at df <$> seq 0 (nrows df).

(** Keep the rows at the positions [p], in that order. *)
Definition take_rows (p : list nat) (c : column) : column :=
  match c with
  | TimeCol ts => TimeCol (omap (λ i, ts !! i) p)
  | NumCol xs => NumCol (omap (λ i, xs !! i) p)
  end.

Definition key_le (a b : time * nat) : Prop := (a.1 ≤ b.1)%Z.

#[global] Instance key_le_dec a b : Decision (key_le a b).
Proof. unfold key_le. apply _. Defined.

(** The positions of the rows in ascending order of their instants.
    pandas does not fix the order of rows with equal instants; the merge
    sort used here is one of the orders it may produce. *)
Definition argsort (ts : list time) : list nat :=
  (merge_sort key_le (zip ts (seq 0 (length ts)))).*2.

(** [df.sort_values(by)], for a column of instants. *)
Definition sort_values (df : DataFrame) (by_col : string) : outcome DataFrame :=
  match dict_get df by_col with
  | None => Raises (KeyError by_col)
  | Some (TimeCol ts) => Returns (prod_map id (take_rows (argsort ts)) <$> df)
  | Some (NumCol _) => Raises (Unsupported "sort_values on a float column")
  end.

(** ** History store: [append_history], [load_history] *)

(** A CSV file is the list of its records, each the list of its fields;
    the quoting and the line ends of the [csv] dialect are not modelled. *)
Abbreviation csv_file := (list (list string)).
Abbreviation file_system := (gmap string (list (list string))).

(** [w.writerow(row)] on a file opened for appending: one more record.
    This is what the bytes appended amount to when the file is empty or
    ends with a line end, as every log the program wrote does; on a file
    whose last line has no line end the row would join that line.
    Directories are not modelled: the [mkdir] of [append_history] has no
    counterpart. *)
Definition writerow (f : csv_file) (row : list string) : csv_file := f ++ [row].

(** The text of the cells of a log: what [datetime.isoformat] and the
    [csv] writer produce for an instant and for a float, and what pandas
    reads back from the text of a cell. *)
Class TextCodec : Type := {
  isoformat : time → string;
  repr_float : float → string;
  parse_time : string → option time;
  parse_float : string → option float
}.

Section HistoryStore.
Context `{TextCodec}.

Definition header_row (prices : dict float) : list string :=
  "timestamp" :: dict_keys prices.

Definition data_row (timestamp : time) (prices : dict float) : list string :=
  isoformat timestamp :: (repr_float <$> dict_values_by_key prices).

Definition append_history (fs : file_system) (csv_path : string)
    (timestamp : time) (prices : dict float) : file_system :=
  let file_exists := bool_decide (is_Some (fs !! csv_path)) in
  let f := default [] (fs !! csv_path) in
  let f := if negb file_exists then writerow f (header_row prices) else f in
  let f := writerow f (data_row timestamp prices) in
  <[csv_path := f]> fs.

(** A run of appends, oldest first. *)
Definition append_all (fs : file_system) (csv_path : string)
    (runs : list (time * dict float)) : file_system :=
  fold_left (λ fs r, append_history fs csv_path r.1 r.2) runs fs.

Definition column_cells (rows : csv_file) (j : nat) : list string :=
  (λ r, default "" (r !! j)) <$> rows.

(** An empty cell of a numeric column is the missing value. *)
Definition parse_num_cell (c : string) : option float :=
  if decide (c = "") then Some nan else parse_float c.

Definition parse_column (name : string) (cells : list string) : outcome column :=
  if decide (name = "timestamp") then
    match mapM parse_time cells with
    | Some ts => Returns (TimeCol ts)
    | None => Raises (Unsupported "a timestamp that is missing or not a date")
    end
  else
    match mapM parse_num_cell cells with
    | Some xs => Returns (NumCol xs)
    | None => Raises (Unsupported "a column that is not numeric")
    end.

(** [pd.read_csv(path, parse_dates=["timestamp"])] on the records of the
    file.  Blank records are skipped; the first of the others is the
    header.  The fragment modelled is the one of history logs: columns of
    floats and one column of dates, distinct column names, no record
    longer than the header. *)
Definition read_csv (content : csv_file) : outcome DataFrame :=
  match filter (λ r, r ≠ []) content with
  | [] => Raises EmptyDataError
  | header :: rows =>
      if negb (bool_decide (NoDup header ∧ "" ∉ header)) then
        Raises (Unsupported "column names that pandas renames")
      else if negb (bool_decide ("timestamp" ∈ header)) then
        Raises ValueError
      else if negb (forallb (λ r : list string, Nat.leb (length r) (length header)) rows) then
        Raises (Unsupported "a record longer than the header")
      else
        cols ← collect (imap (λ j name, parse_column name (column_cells rows j))
                             header);
        Returns (zip header cols)
  end.

(** The value of a cell of the column [name], from its text. *)
Definition parse_cell (name text : string) : option cell :=
  if decide (name = "timestamp") then VTime <$> parse_time text
  else VNum <$> parse_num_cell text.

Definition load_history (fs : file_system) (csv_path : string)
    : outcome (option DataFrame) :=
  match fs !! csv_path with
  | None => Returns None
  | Some content =>
      df ← read_csv content;
      df ← sort_values df "timestamp";
      Returns (Some df)
  end.
End HistoryStore.

(** ** Series arithmetic *)

(** The default [fill_method] of [pct_change] depends on the pandas
    release: forward fill before pandas 3, none from pandas 3 on. *)
Inductive fill_method : Set := Pad | NoFill.

Fixpoint ffill_from (last : float) (xs : list float) : list float :=
  match xs with
  | [] => []
  | x :: xs' =>
      if is_nan x then last :: ffill_from last xs' else x :: ffill_from x xs'
  end.

(** [s.ffill()] *)
Definition ffill (xs : list float) : list float := ffill_from nan xs.

(** [s.shift(1)] *)
Definition shift1 (xs : list float) : list float := take (length xs) (nan :: xs).

(** [s.pct_change()], which pandas computes as [data / data.shift(1) - 1]. *)
Definition pct_change (fm : fill_method) (xs : list float) : list float :=
  let data := match fm with Pad => ffill xs | NoFill => xs end in
  zip_with (λ v prev, v / prev - 1)%float data (shift1 data).

Definition series_pct_change (fm : fill_method) (c : column) : outcome (list float) :=
  match c with
  | NumCol xs => Returns (pct_change fm xs)
  | TimeCol _ => Raises TypeError
  end.

(** [s * k] *)
Definition series_mul (xs : list float) (k : float) : list float :=
  (λ x, x * k)%float <$> xs.

Definition fillna_float (value x : float) : float := if is_nan x then value else x.

Definition column_fillna (value : float) (c : column) : column :=
  match c with
  | NumCol xs => NumCol (fillna_float value <$> xs)
  | TimeCol ts => TimeCol ts
  end.

(** [df.fillna(value)] as a value: every column is filled. *)
Definition frame_fillna (value : float) (df : DataFrame) : DataFrame :=
  prod_map id (column_fillna value) <$> df.

(** ** The heap of tables *)

Abbreviation heap := (gmap nat (dict column)).

Definition alloc (df : DataFrame) : M heap nat :=
  λ h, let l := fresh (dom h) in (Returns l, <[l := df]> h).

Definition load (l : nat) : M heap DataFrame :=
  λ h, match h !! l with
       | Some df => (Returns df, h)
       | None => (Raises (Unsupported "a reference to no object"), h)
       end.

Definition store (l : nat) (df : DataFrame) : M heap unit :=
  λ h, (Returns tt, <[l := df]> h).

Definition lift {St A} (o : outcome A) : M St A := λ s, (o, s).

(** [df.copy()] *)
Definition df_copy (l : nat) : M heap nat := (df <~ load l ;; alloc df)%py.

(** [df.columns] *)
Definition df_columns (l : nat) : M heap (list string) :=
  (df <~ load l ;; ret (dict_keys df))%py.

(** [df[col]] *)
Definition df_getitem (l : nat) (col : string) : M heap column :=
  (df <~ load l ;;
   match dict_get df col with
   | Some c => ret c
   | None => raise (KeyError col)
   end)%py.

(** [df[col] = c], in place *)
Definition df_setitem (l : nat) (col : string) (c : column) : M heap unit :=
  (df <~ load l ;; store l (dict_set df col c))%py.

(** [df.fillna(value)]: a new table *)
Definition df_fillna (l : nat) (value : float) : M heap nat :=
  (df <~ load l ;; alloc (frame_fillna value df))%py.

(** ** Enrichment stage: [enrich_with_changes] *)

(** The pandas release the program runs on. *)
Class Pandas : Type := { default_fill : fill_method }.

Section Enrichment.
Context `{Pandas}.

(** The body of the loop, for the table [result] and the name [col]. *)
Definition enrich_body (result : nat) (col : string) : M heap unit :=
  (if decide (col = "timestamp") then ret tt
   else
     s <~ df_getitem result col ;;
     pc <~ lift (series_pct_change default_fill s) ;;
     df_setitem result (col ++ "_pct") (NumCol (series_mul pc 100)))%py.

Definition enrich_with_changes (df : nat) : M heap nat :=
  (result <~ df_copy df ;;
   cols <~ df_columns df ;;
   for_each cols (enrich_body result) ;;;
   df_fillna result 0)%py.

(** The same computation on values: one step of the loop, the loop, and
    the final fill. *)
Definition enrich_step (result : DataFrame) (col : string) : outcome DataFrame :=
  if decide (col = "timestamp") then Returns result
  else
    match dict_get result col with
    | None => Raises (KeyError col)
    | Some s =>
        pc ← series_pct_change default_fill s;
        Returns (dict_set result (col ++ "_pct") (NumCol (series_mul pc 100)))
    end.

Fixpoint enrich_loop (result : DataFrame) (cols : list string) : outcome DataFrame :=
  match cols with
  | [] => Returns result
  | col :: cols' => r ← enrich_step result col; enrich_loop r cols'
  end.

Definition enrich_frame (df : DataFrame) : outcome DataFrame :=
  r ← enrich_loop df (dict_keys df); Returns (frame_fillna 0 r).

(** The percent-change column of a column of prices, before the fill. *)
Definition pct_column (xs : list float) : column :=
  NumCol (series_mul (pct_change default_fill xs) 100).

(** The columns the loop adds for the columns [cs], in order. *)
Definition pct_columns (cs : DataFrame) : DataFrame :=
  flat_map (λ nc, if decide (nc.1 = "timestamp") then []
                  else match nc.2 with
                       | NumCol xs => [((nc.1 ++ "_pct")%string, pct_column xs)]
                       | TimeCol _ => []
                       end) cs.
End Enrichment.

(** No value of the table is missing. *)
Definition no_missing (df : DataFrame) : Prop :=
  ∀ name xs, (name, NumCol xs) ∈ df → Forall (λ x, is_nan x = false) xs.

(** No column bears the name the loop gives to the percent change of
    another column. *)
Definition no_pct_clash (df : DataFrame) : Prop :=
  ∀ name, name ∈ dict_keys df → name ≠ "timestamp" →
          (name ++ "_pct")%string ∉ dict_keys df.

(** The percent change of [v] against [prev], as the code computes it,
    after the fill. *)
Definition pct_value (v prev : float) : float :=
  fillna_float 0 ((v / prev - 1) * 100)%float.

(** ** Dashboard renderer: [build_dashboard] *)

Inductive trace : Type :=
| Scatter (x : column) (y : list float) (name mode : string)
          (width : nat) (dash : option string) (color : option string)
          (secondary_y : bool)
| Bar (x : column) (y : list float) (name : string) (secondary_y : bool).

Record figure : Type := {
  fig_traces : list trace;
  fig_bg : option string;
  fig_fg : option string
}.

Record table : Type := {
  tbl_header : list string;
  tbl_cells : list (list string);
  tbl_bg : string;
  tbl_fg : string
}.

(** The figure with the traces [ts] added after its own. *)
Definition with_traces (fig : figure) (ts : list trace) : figure :=
  {| fig_traces := fig_traces fig ++ ts;
     fig_bg := fig_bg fig; fig_fg := fig_fg fig |}.

(** [fig.add_trace(t)] *)
Definition add_trace (t : trace) : M figure unit :=
  λ fig, (Returns tt, with_traces fig [t]).

(** [fig.update_layout(plot_bgcolor=bg, font=dict(color=fg))].  plotly
    checks the colours it is given, here and in [add_trace], and raises
    [ValueError] on a string that is no colour: the renderer is modelled
    on the configurations whose colours plotly accepts
    ([accepted_config] below), and on these neither call raises. *)
Definition update_layout (bg fg : string) : M figure unit :=
  λ fig, (Returns tt, {| fig_traces := fig_traces fig;
                         fig_bg := Some bg; fig_fg := Some fg |}).

(** [s.endswith(suffix)] *)
Definition endswith (s suffix : string) : bool :=
  let n := String.length s in
  let m := String.length suffix in
  Nat.leb m n && String.eqb (String.substring (n - m) m s) suffix.

Definition is_asset_column (col : string) : bool :=
  negb (bool_decide (col = "timestamp") || endswith col "_pct").

Definition float_of_nat (n : nat) : float := of_uint63 (Uint63.of_Z (Z.of_nat n)).

Definition float_sum (xs : list float) : float := fold_left PrimFloat.add xs 0%float.

(** The values [rolling] computes on: pandas replaces the infinite
    values of the series by NaN before it takes the windows. *)
Definition rolling_values (xs : list float) : list float :=
  (λ x, if is_infinity x then nan else x) <$> xs.

(** [s.rolling(w).mean()]: the mean of the last [w] values, undefined
    (NaN) while fewer than [w] values are there or when one of them is
    missing or infinite.  The mean is taken as the sum over the count. *)
Definition rolling_mean (w : nat) (xs : list float) : list float :=
  let vs := rolling_values xs in
  imap (λ i _,
          let win := take w (drop (i + 1 - w) vs) in
          if Nat.eqb w 0 || Nat.ltb (i + 1) w || existsb is_nan win then nan
          else (float_sum win / float_of_nat w)%float)
       xs.

(** [df[cols].mean(axis=1)]: the mean of the values of the row that are
    not missing, NaN when there is none. *)
Definition row_mean (cols : list (list float)) (i : nat) : float :=
  let vs := filter (λ x, is_nan x = false) (omap (λ xs : list float, xs !! i) cols) in
  match vs with
  | [] => nan
  | _ => (float_sum vs / float_of_nat (length vs))%float
  end.

(** A point of a trace is drawn when its value is defined. *)
Definition visible_points (ys : list float) : list float :=
  filter (λ y, is_nan y = false) ys.

(** The moving-average traces of a figure: the dotted ones. *)
Definition is_ma_trace (t : trace) : bool :=
  match t with
  | Scatter _ _ _ _ _ (Some "dot") _ _ => true
  | _ => false
  end.

Definition trace_y (t : trace) : list float :=
  match t with
  | Scatter _ y _ _ _ _ _ _ => y
  | Bar _ y _ _ => y
  end.

Definition ma_traces (fig : figure) : list trace := filter is_ma_trace (fig_traces fig).

Section Dashboard.
Context `{Formats}.

Definition frame_col {St} (df : DataFrame) (col : string) : M St column :=
  match dict_get df col with
  | Some c => ret c
  | None => raise (KeyError col)
  end.

(** A column the renderer does arithmetic on. *)
Definition numeric {St} (c : column) : M St (list float) :=
  match c with
  | NumCol xs => ret xs
  | TimeCol _ => raise (Unsupported "a column of dates used as a price")
  end.

(** [colors = {a["name"]: a.get("color") for a in cfg["assets"]}] *)
Definition color_map (assets : list asset) : dict (option string) :=
  fold_left (λ colors a, dict_set colors (a_name a) (a_color a)) assets [].

(** The line of the prices of a column. *)
Definition price_trace (df : DataFrame) (colors : dict (option string))
    (x : column) (y : list float) (col : string) : trace :=
  Scatter x y col
    (if Nat.leb (nrows df) 3 then "lines+markers" else "lines")
    2 None (mjoin (dict_get colors col)) false.

(** The line of the moving average of a column over [w] rows. *)
Definition ma_trace (x : column) (y : list float) (col : string) (w : nat)
    : trace :=
  Scatter x (rolling_mean w y) (col ++ " MA" ++ pretty w) "lines"
    1 (Some "dot") None false.

(** The traces of one asset column: its price line, then one moving
    average per window. *)
Definition add_asset_traces (df : DataFrame) (colors : dict (option string))
    (windows : list nat) (col : string) : M figure unit :=
  (if negb (is_asset_column col) then ret tt
   else
     x <~ frame_col df "timestamp" ;;
     c <~ frame_col df col ;;
     y <~ numeric c ;;
     add_trace (price_trace df colors x y col) ;;;
     for_each windows (λ w,
       x <~ frame_col df "timestamp" ;;
       add_trace (ma_trace x y col w)))%py.

Fixpoint numeric_columns {St} (df : DataFrame) (cols : list string)
    : M St (list (list float)) :=
  match cols with
  | [] => ret []
  | col :: cols' =>
      (c <~ frame_col df col ;;
       xs <~ numeric c ;;
       rest <~ numeric_columns df cols' ;;
       ret (xs :: rest))%py
  end.

(** The bar of the mean percent change. *)
Definition add_change_bar (df : DataFrame) : M figure unit :=
  let vol_cols := filter (λ c, endswith c "_pct" = true) (dict_keys df) in
  match vol_cols with
  | [] => ret tt
  | _ =>
      (cols <~ numeric_columns df vol_cols ;;
       let vol := fillna_float 0 <$> (row_mean cols <$> seq 0 (nrows df)) in
       x <~ frame_col df "timestamp" ;;
       add_trace (Bar x vol "Δ% promedio" true))%py
  end.

(** [last_row[col]] of [last_row = df.iloc[-1]], for a float column. *)
Definition last_value {St} (df : DataFrame) (col : string) : M St float :=
  (c <~ frame_col df col ;;
   xs <~ numeric c ;;
   match last xs with
   | Some v => ret v
   | None => raise IndexError
   end)%py.

(** One line of the table of latest values. *)
Definition latest_line {St} (df : DataFrame) (col : string) : M St (list string) :=
  (price <~ last_value df col ;;
   pct <~ match dict_get df (col ++ "_pct") with
          | Some _ => last_value df (col ++ "_pct")
          | None => ret 0%float
          end ;;
   ret [col; format_money price; format_signed_pct pct])%py.

Fixpoint latest_lines {St} (df : DataFrame) (cols : list string)
    : M St (list (list string)) :=
  match cols with
  | [] => ret []
  | col :: cols' =>
      if negb (is_asset_column col) then latest_lines df cols'
      else
        (line <~ latest_line df col ;;
         rest <~ latest_lines df cols' ;;
         ret (line :: rest))%py
  end.

(** The transposition of [latest] that [zip] makes, for lines of three
    fields. *)
Definition transpose3 (lines : list (list string)) : list (list string) :=
  match lines with
  | [] => []
  | _ => (λ j, omap (λ line : list string, line !! j) lines) <$> [0; 1; 2]
  end.

Definition build_dashboard (df : DataFrame) (cfg : config)
    : M figure table :=
  (let colors := color_map (cfg_assets cfg) in
   let bg := default "#0f1220" (theme_bg (cfg_chart cfg)) in
   let fg := default "#e8ecf5" (theme_fg (cfg_chart cfg)) in
   let ma_windows := default [5; 20] (ma_windows (cfg_chart cfg)) in
   for_each (dict_keys df) (add_asset_traces df colors ma_windows) ;;;
   add_change_bar df ;;;
   update_layout bg fg ;;;
   (if Nat.eqb (nrows df) 0 then raise IndexError else ret tt) ;;;
   latest <~ latest_lines df (dict_keys df) ;;
   ret {| tbl_header := ["Activo"; "Último precio"; "Δ% vs. anterior"];
          tbl_cells := transpose3 latest;
          tbl_bg := bg; tbl_fg := fg |})%py.

(** [make_subplots(...)], the empty figure the renderer starts from. *)
Definition make_subplots : figure :=
  {| fig_traces := []; fig_bg := None; fig_fg := None |}.

(** The traces the first loop adds for one column of the table. *)
Definition asset_traces (df : DataFrame) (colors : dict (option string))
    (windows : list nat) (x : column) (nc : string * column) : list trace :=
  if negb (is_asset_column nc.1) then []
  else match nc.2 with
       | NumCol y => price_trace df colors x y nc.1 :: (ma_trace x y nc.1 <$> windows)
       | TimeCol _ => []
       end.
End Dashboard.

(** The colour strings plotly accepts. *)
Class PlotlyColors : Type := { plotly_color : string → bool }.

(** A configuration whose colours plotly accepts: the colours of the
    assets and the two colours of the theme, where they are given. *)
Definition accepted_config `{PlotlyColors} (cfg : config) : Prop :=
  (∀ a c, a ∈ cfg_assets cfg → a_color a = Some c → plotly_color c = true)
  ∧ (∀ c, theme_bg (cfg_chart cfg) = Some c → plotly_color c = true)
  ∧ (∀ c, theme_fg (cfg_chart cfg) = Some c → plotly_color c = true).

(** The windows of a configuration, with the default of the renderer. *)
Definition windows_of (cfg : config) : list nat :=
  default [5; 20] (ma_windows (cfg_chart cfg)).

(** ** Well-formed tables *)

(** Every column has [n] values, as in any [DataFrame] of [n] rows. *)
Definition wf_frame (n : nat) (df : DataFrame) : Prop :=
  Forall (λ nc, col_length nc.2 = n) df.

(** A history table of [n] rows: distinct column names, a [timestamp]
    column of instants, every other column a column of floats. *)
Definition history_table (n : nat) (df : DataFrame) : Prop :=
  dict_wf df ∧ wf_frame n df
  ∧ (∃ ts, dict_get df "timestamp" = Some (TimeCol ts))
  ∧ (∀ name c, (name, c) ∈ df → name ≠ "timestamp" → ∃ xs, c = NumCol xs).

(** ** Quotes of a response *)

(** The value the response holds for an asset: present when the
    identifier is a key of the response and the currency a key under it. *)
Definition quote (vs_currency : string) (data : price_json) (a : asset)
    : option float :=
  data !! a_id a ≫= λ quotes, quotes !! vs_currency.

(** The quote of the last asset named [n] that has one. *)
Definition last_quote (assets : list asset) (vs_currency : string)
    (data : price_json) (n : string) : option float :=
  last (omap (λ a, if decide (a_name a = n) then quote vs_currency data a else None)
             assets).

(** The request [fetch_prices] issues. *)
Definition price_request (assets : list asset) (url vs_currency : string) : request :=
  Get url [("ids", String.concat "," (a_id <$> assets));
           ("vs_currencies", vs_currency)].

(** The network after one more request. *)
Definition logged (rq : request) (n : network) : network :=
  {| net_log := net_log n ++ [rq]; net_answer := net_answer n |}.

(** The request [notify_telegram] posts. *)
Definition telegram_request (text token chat : string) : request :=
  Post ("https://api.telegram.org/bot" ++ token ++ "/sendMessage")
       [("chat_id", chat); ("text", text)].

(** Whether a call comes back: any response counts, whatever its status. *)
Definition answered (r : reply) : bool :=
  match r with
  | CallFails => false
  | Response _ _ => true
  end.

(** ** The percent change in exact arithmetic *)

(** The value the code computes, [v / prev - 1] times 100, and the value
    the specification writes, [100 * (v - prev) / prev], over the
    rationals. *)
Definition pct_exact (v prev : Q) : Q := ((v / prev - 1) * 100)%Q.
Definition pct_spec (v prev : Q) : Q := (100 * (v - prev) / prev)%Q.

(** ** Sample data for the examples *)

(** A codec on three instants and three prices, enough to run the
    history store on a concrete log. *)
Definition sample_codec : TextCodec := {|
  isoformat t :=
    if bool_decide (t = 0%Z) then "1970-01-01T00:00:00"
    else if bool_decide (t = 60%Z) then "1970-01-01T00:01:00"
    else "1970-01-01T00:02:00";
  repr_float x :=
    if PrimFloat.eqb x 50000 then "50000.0"
    else if PrimFloat.eqb x 51000 then "51000.0"
    else "nan";
  parse_time s :=
    if bool_decide (s = "1970-01-01T00:00:00") then Some 0%Z
    else if bool_decide (s = "1970-01-01T00:01:00") then Some 60%Z
    else if bool_decide (s = "1970-01-01T00:02:00") then Some 120%Z
    else None;
  parse_float s :=
    if bool_decide (s = "50000.0") then Some 50000%float
    else if bool_decide (s = "51000.0") then Some 51000%float
    else if bool_decide (s = "nan") then Some nan
    else None
|}.

(** A log written out of order: the later row first. *)
Definition sample_log : csv_file :=
  [ ["timestamp"; "BTC"];
    ["1970-01-01T00:01:00"; "51000.0"];
    ["1970-01-01T00:00:00"; "50000.0"] ].

Definition sample_fs : file_system := {[ "data/history.csv" := sample_log ]}.

Definition sample_table : DataFrame :=
  [ ("timestamp", TimeCol [60; 0]%Z); ("BTC", NumCol [51000; 50000]%float) ].

Definition sample_assets : list asset :=
  [ {| a_id := "bitcoin"; a_name := "BTC"; a_color := Some "#f7931a";
       a_upper := Some 60000%float; a_lower := None |};
    {| a_id := "ethereum"; a_name := "ETH"; a_color := None;
       a_upper := None; a_lower := Some 1000%float |} ].

(** A response that quotes bitcoin only. *)
Definition sample_response : price_json :=
  {[ "bitcoin" := {[ "usd" := 61000%float ]} ]}.

Definition sample_network : network :=
  {| net_log := []; net_answer := λ _, Response 200 (Some sample_response) |}.

Definition telegram_cfg_sample : config :=
  {| cfg_assets := sample_assets;
     cfg_chart := {| theme_bg := None; theme_fg := None; ma_windows := None |};
     cfg_telegram := Some {| bot_token := Some "123:abc"; chat_id := Some "42" |} |}.

(** A network on which every call fails. *)
Definition dead_network : network :=
  {| net_log := []; net_answer := λ _, CallFails |}.

(** The two defaults of [pct_change]. *)
Definition pandas2 : Pandas := {| default_fill := Pad |}.
Definition pandas3 : Pandas := {| default_fill := NoFill |}.

(** A history whose first price is zero. *)
Definition zero_start_table : DataFrame :=
  [ ("timestamp", TimeCol [0; 60; 120]%Z); ("BTC", NumCol [0; 1; 2]%float) ].

(** A history in which an asset is named as the percent change of
    another. *)
Definition clash_table : DataFrame :=
  [ ("timestamp", TimeCol [0; 60]%Z);
    ("BTC", NumCol [1; 2]%float);
    ("BTC_pct", NumCol [5; 5]%float) ].

(** A history with a missing price. *)
Definition gap_table : DataFrame :=
  [ ("timestamp", TimeCol [0; 60]%Z); ("BTC", NumCol [1; nan]%float) ].

(** A table of one row after enrichment, and a configuration that asks
    for a moving average over one row. *)
Definition single_row_table : DataFrame :=
  [ ("timestamp", TimeCol [0]%Z);
    ("BTC", NumCol [50000]%float);
    ("BTC_pct", NumCol [0]%float) ].

Definition window_one_cfg : config :=
  {| cfg_assets := sample_assets;
     cfg_chart := {| theme_bg := None; theme_fg := None; ma_windows := Some [1] |};
     cfg_telegram := None |}.

Definition default_cfg : config :=
  {| cfg_assets := sample_assets;
     cfg_chart := {| theme_bg := None; theme_fg := None; ma_windows := None |};
     cfg_telegram := None |}.

Definition sample_formats : Formats :=
  {| str_float := λ _, "x"; format_2f := λ _, "x.xx";
     format_money := λ _, "$x.xx"; format_signed_pct := λ _, "+x.xx%" |}.

(** The first asset of the sample configuration. *)
Definition sample_btc : asset :=
  {| a_id := "bitcoin"; a_name := "BTC"; a_color := Some "#f7931a";
     a_upper := Some 60000%float; a_lower := None |}.

(** ** The figure and the table of the renderer, read back *)

Definition trace_x (t : trace) : column :=
  match t with
  | Scatter x _ _ _ _ _ _ _ => x
  | Bar x _ _ _ => x
  end.

Definition is_bar (t : trace) : bool :=
  match t with
  | Bar _ _ _ _ => true
  | Scatter _ _ _ _ _ _ _ _ => false
  end.

(** The last value of a float column of the table, 0 when there is none. *)
Definition last_of (df : DataFrame) (col : string) : float :=
  match dict_get df col with
  | Some (NumCol xs) => default 0%float (last xs)
  | _ => 0%float
  end.

Section LatestLine.
Context `{Formats}.

(** The line of the table of latest values for the column [col]. *)
Definition latest_line_of (df : DataFrame) (col : string) : list string :=
  [col;
   format_money (last_of df col);
   format_signed_pct (match dict_get df (col ++ "_pct") with
                      | Some _ => last_of df (col ++ "_pct")
                      | None => 0%float
                      end)].
End LatestLine.

(** A table with no row. *)
Definition empty_table : DataFrame :=
  [ ("timestamp", TimeCol []); ("BTC", NumCol []) ].

(** ** Runs of the monitor, as rows *)

(** The row a run leaves in the table: its instant, then its values. *)
Definition run_row (r : time * dict float) : list (string * cell) :=
  ("timestamp", VTime r.1) :: (prod_map id VNum <$> r.2).

Section ReadableRun.
Context `{TextCodec}.

(** A run whose mapping has the keys [ks] and whose texts read back as
    the values written. *)
Definition readable_run (ks : list string) (r : time * dict float) : Prop :=
  dict_keys r.2 = ks
  ∧ parse_time (isoformat r.1) = Some r.1
  ∧ Forall (λ v, parse_num_cell (repr_float v) = Some v) r.2.*2.

(** A log of the program's own: the path holds no file, or what a run
    of appends to a path with no file has left there.  On such a log
    every record ends with its line end, and the records of the model
    are the lines of the file. *)
Definition own_log (fs : file_system) (path : string)
    (runs : list (time * dict float)) : Prop :=
  ∃ fs0, fs0 !! path = None ∧ fs !! path = append_all fs0 path runs !! path.
End ReadableRun.

(** Hex colours, for the sample configurations. *)
Definition sample_colors : PlotlyColors :=
  {| plotly_color := λ c, String.prefix "#" c |}.

(** Two runs of the sample assets, the later one written first. *)
Definition sample_runs : list (time * dict float) :=
  [ (60%Z, [("BTC", 51000%float); ("ETH", 50000%float)]);
    (0%Z, [("BTC", 50000%float); ("ETH", 51000%float)]) ].

(** ** The page: [write_dashboard_html] *)

(** [include_plotlyjs]: the library loaded from the CDN, or left out. *)
Inductive plotlyjs : Set := Cdn | NoPlotlyJs.

(** [plotly.io.to_html(fig, include_plotlyjs=..., full_html=False)], for
    the figure and for the table. *)
Class PlotlyIO : Type := {
  figure_to_html : figure → plotlyjs → string;
  table_to_html : table → plotlyjs → string
}.

(** The double quote. *)
Definition dq : string := String (Ascii.ascii_of_nat 34) EmptyString.

(** The three literal parts of the f-string of [write_dashboard_html],
    around the two interpolations. *)
Definition page_head : string :=
  ("
<!doctype html>
<html lang=" ++ dq ++ "es" ++ dq ++ ">
<head>
<meta charset=" ++ dq ++ "utf-8" ++ dq ++ ">
<meta name=" ++ dq ++ "viewport" ++ dq ++ " content=" ++ dq ++ "width=device-width,initial-scale=1" ++ dq ++ ">
<title>Dashboard de precios</title>
<style>
  body{margin:0;background:#0f1220;color:#e8ecf5;font-family:system-ui,-apple-system,Segoe UI,Roboto,Arial,sans-serif}
  .wrap{max-width:1100px;margin:24px auto;padding:0 16px}
  .card{background:#15192b;border:1px solid #26304a;border-radius:14px;padding:14px;box-shadow:0 10px 24px rgba(0,0,0,.25)}
  h1{font-size:1.4rem;margin:0 0 12px}
  footer{opacity:.7;margin:18px 0}
</style>
</head>
<body>
  <div class=" ++ dq ++ "wrap" ++ dq ++ ">
    <h1>Dashboard de precios</h1>
    <div class=" ++ dq ++ "card" ++ dq ++ ">
      ")%string.

Definition page_middle : string :=
  ("
    </div>
    <div class=" ++ dq ++ "card" ++ dq ++ " style=" ++ dq ++ "margin-top:14px" ++ dq ++ ">
      ")%string.

Definition page_foot : string :=
  ("
    </div>
    <footer>Generado automáticamente por GitHub Actions.</footer>
  </div>
</body>
</html>
")%string.

(** ** The orchestrator: [main] *)

(** The configuration [main] reads: the keys of the stages, the source
    and the output paths, which are indexed, and the truth value of
    [cfg.get("alerts", {}).get("enabled", False)]. *)
Record run_config : Type := {
  run_cfg : config;
  source_url : string;
  source_vs : string;
  history_csv : string;
  dashboard_html : string;
  alerts_enabled : bool
}.

(** What a run acts on: the network, the logs and the pages of the file
    system, the tables of the process, and the standard output, oldest
    line first.  Logs and pages are kept apart: a configuration that names
    one path for both is outside this model of the files. *)
Record world : Type := {
  w_net : network;
  w_files : file_system;
  w_pages : gmap string string;
  w_heap : heap;
  w_stdout : list string
}.

Definition set_net (n : network) (w : world) : world :=
  {| w_net := n; w_files := w_files w; w_pages := w_pages w;
     w_heap := w_heap w; w_stdout := w_stdout w |}.

Definition set_files (fs : file_system) (w : world) : world :=
  {| w_net := w_net w; w_files := fs; w_pages := w_pages w;
     w_heap := w_heap w; w_stdout := w_stdout w |}.

Definition set_pages (ps : gmap string string) (w : world) : world :=
  {| w_net := w_net w; w_files := w_files w; w_pages := ps;
     w_heap := w_heap w; w_stdout := w_stdout w |}.

Definition set_heap (h : heap) (w : world) : world :=
  {| w_net := w_net w; w_files := w_files w; w_pages := w_pages w;
     w_heap := h; w_stdout := w_stdout w |}.

Definition set_stdout (out : list string) (w : world) : world :=
  {| w_net := w_net w; w_files := w_files w; w_pages := w_pages w;
     w_heap := w_heap w; w_stdout := out |}.

(** A computation on the network, or on the tables, run in the world. *)
Definition on_net {A} (c : M network A) : M world A :=
  λ w, let r := c (w_net w) in (r.1, set_net r.2 w).

Definition on_heap {A} (c : M heap A) : M world A :=
  λ w, let r := c (w_heap w) in (r.1, set_heap r.2 w).

(** [print(s)] *)
Definition print (s : string) : M world unit :=
  λ w, (Returns tt, set_stdout (w_stdout w ++ [s]) w).

(** [Path(path).write_text(body)] *)
Definition write_text (path body : string) : M world unit :=
  λ w, (Returns tt, set_pages (<[path := body]> (w_pages w)) w).

(** [df.empty]: no column or no row. *)
Definition df_empty (df : DataFrame) : bool :=
  Nat.eqb (length df) 0 || Nat.eqb (nrows df) 0.

(** The truth value of [cfg.get("telegram")]: the entry is there and is
    not the empty mapping. *)
Definition telegram_configured (cfg : config) : bool :=
  match cfg_telegram cfg with
  | Some tg => bool_decide (is_Some (bot_token tg) ∨ is_Some (chat_id tg))
  | None => false
  end.

Section Orchestrator.
Context `{TextCodec} `{Formats} `{Pandas} `{PlotlyIO}.

(** The directory of the page is not modelled, as for the log. *)
Definition write_dashboard_html (fig : figure) (tbl : table) (out_html : string)
    : M world unit :=
  let body :=
    (page_head ++ figure_to_html fig Cdn ++ page_middle
     ++ table_to_html tbl NoPlotlyJs ++ page_foot)%string in
  write_text out_html body.

(** The call [build_dashboard(df, cfg)], which makes its own figure and
    returns it with the table. *)
Definition call_build_dashboard (df : DataFrame) (cfg : config)
    : M world (figure * table) :=
  match build_dashboard df cfg make_subplots with
  | (Returns tbl, fig) => ret (fig, tbl)
  | (Raises e, _) => raise e
  end.

(** The line that sums the run up. *)
Definition summary_line (now : time) (prices : dict float) : string :=
  ("[" ++ isoformat now ++ "Z] "
   ++ String.concat ", " ((λ kv, kv.1 ++ ": $" ++ str_float kv.2) <$> prices))%string.

(** What [main] does when there are alerts to send. *)
Definition send_alerts (rc : run_config) (alerts : list string) : M world unit :=
  (if alerts_enabled rc && bool_decide (alerts ≠ []) then
     let msg := String.concat " | " alerts in
     print msg ;;;
     if telegram_configured (run_cfg rc) then
       on_net (notify_telegram msg (run_cfg rc)) ;;; ret tt
     else ret tt
   else ret tt)%py.

(** The last lines of [main]: the summary and the list of alerts. *)
Definition report (now : time) (prices : dict float) (alerts : list string)
    : M world unit :=
  (print (summary_line now prices) ;;;
   if bool_decide (alerts ≠ []) then
     print "ALERTAS:" ;;;
     for_each alerts (λ a, print (" - " ++ a)%string)
   else ret tt)%py.

(** [main], from the configuration it has loaded and the instant
    [utcnow] gives. *)
Definition main (rc : run_config) (now : time) : M world unit :=
  (let cfg := run_cfg rc in
   let assets := cfg_assets cfg in
   let url := source_url rc in
   let vs := source_vs rc in
   let csv_path := history_csv rc in
   let out_html := dashboard_html rc in
   prices <~ on_net (fetch_prices assets url vs) ;;
   (λ w, (Returns tt, set_files (append_history (w_files w) csv_path now prices) w)) ;;;
   df <~ (λ w, (load_history (w_files w) csv_path, w)) ;;
   match df with
   | None => print "No hay histórico aún; vuelve a ejecutar."
   | Some df =>
       if df_empty df then print "No hay histórico aún; vuelve a ejecutar."
       else
         df <~ on_heap (alloc df) ;;
         df <~ on_heap (enrich_with_changes df) ;;
         out <~ on_heap (load df) ;;
         ft <~ call_build_dashboard out cfg ;;
         write_dashboard_html ft.1 ft.2 out_html ;;;
         let alerts := check_alerts_text prices assets in
         send_alerts rc alerts ;;;
         report now prices alerts
   end)%py.
End Orchestrator.

(** ** What a run prints and posts *)

Section RunEffects.
Context `{TextCodec} `{Formats}.

(** The message [main] prints and sends for its alerts. *)
Definition alert_message (alerts : list string) : string :=
  String.concat " | " alerts.

(** Whether [main] announces its alerts, and whether the announcement
    reaches Telegram. *)
Definition alerts_announced (rc : run_config) (alerts : list string) : bool :=
  alerts_enabled rc && bool_decide (alerts ≠ []).

Definition alerts_posted (rc : run_config) (alerts : list string) : bool :=
  alerts_announced rc alerts
  && negb (bool_decide (credential (run_cfg rc) bot_token = ""))
  && negb (bool_decide (credential (run_cfg rc) chat_id = "")).

(** The request that carries the alerts. *)
Definition alert_request (rc : run_config) (alerts : list string) : request :=
  telegram_request (alert_message alerts)
    (credential (run_cfg rc) bot_token) (credential (run_cfg rc) chat_id).

(** The lines of the report: the summary, then the alerts under their
    heading when there are some. *)
Definition report_lines (now : time) (prices : dict float)
    (alerts : list string) : list string :=
  summary_line now prices
  :: (if bool_decide (alerts ≠ []) then
        "ALERTAS:" :: ((λ a, " - " ++ a)%string <$> alerts)
      else []).

(** The lines of a run that reaches its end. *)
Definition run_lines (rc : run_config) (now : time) (prices : dict float)
    (alerts : list string) : list string :=
  (if alerts_announced rc alerts then [alert_message alerts] else [])
  ++ report_lines now prices alerts.
End RunEffects.

(** The page of a figure and a table. *)
Definition page_of `{PlotlyIO} (fig : figure) (tbl : table) : string :=
  (page_head ++ figure_to_html fig Cdn ++ page_middle
   ++ table_to_html tbl NoPlotlyJs ++ page_foot)%string.

(** ** A sample run *)

Definition sample_plotly : PlotlyIO :=
  {| figure_to_html := λ _ _, "<div>figure</div>";
     table_to_html := λ _ _, "<div>table</div>" |}.

Definition sample_run_config : run_config :=
  {| run_cfg := telegram_cfg_sample;
     source_url := "https://api.coingecko.com/api/v3/simple/price";
     source_vs := "usd";
     history_csv := "data/history.csv";
     dashboard_html := "public/index.html";
     alerts_enabled := true |}.

(** A world with no file, whose network answers every call. *)
Definition sample_world : world :=
  {| w_net := sample_network; w_files := ∅; w_pages := ∅; w_heap := ∅;
     w_stdout := [] |}.

(** The same world with a network on which every call fails. *)
Definition offline_world : world :=
  {| w_net := dead_network; w_files := ∅; w_pages := ∅; w_heap := ∅;
     w_stdout := [] |}.

(** A world whose log exists and is empty. *)
Definition empty_log_world : world :=
  {| w_net := sample_network; w_files := {[ "data/history.csv" := [] ]};
     w_pages := ∅; w_heap := ∅; w_stdout := [] |}.
(** * Properties *)

(** ** Alert evaluator *)

Lemma check_alerts_fold prices assets acc :
  fold_left
    (λ alerts a,
       match dict_get prices (a_name a) with
       | None => alerts
       | Some p => (alerts ++ upper_alert a p) ++ lower_alert a p
       end)
    assets acc
  = acc ++ concat (asset_alerts prices <$> assets).
Proof.
  revert acc. induction assets as [|a assets IH]; intros acc; simpl.
  - by rewrite app_nil_r.
  - rewrite IH. unfold asset_alerts at 2.
    destruct (dict_get prices (a_name a)) as [p|]; simpl.
    + by rewrite <- !app_assoc.
    + done.
Qed.

Lemma check_alerts_concat prices assets :
  check_alerts prices assets = concat (asset_alerts prices <$> assets).
Proof. unfold check_alerts. by rewrite check_alerts_fold. Qed.

Lemma elem_of_upper_alert a p al :
  al ∈ upper_alert a p ↔
  ∃ u, a_upper a = Some u ∧ float_ge p u = true
       ∧ al = Build_alert (a_name a) Upper u p.
Proof.
  unfold upper_alert. destruct (a_upper a) as [u|].
  - destruct (float_ge p u) eqn:E.
    + rewrite list_elem_of_singleton. split.
      * intros ->. eauto.
      * intros (u' & [= <-] & _ & ->). done.
    + split; [by intros ?%elem_of_nil|].
      intros (u' & [= <-] & ? & _). congruence.
  - split; [by intros ?%elem_of_nil|]. intros (? & ? & _). done.
Qed.

Lemma elem_of_lower_alert a p al :
  al ∈ lower_alert a p ↔
  ∃ l, a_lower a = Some l ∧ float_le p l = true
       ∧ al = Build_alert (a_name a) Lower l p.
Proof.
  unfold lower_alert. destruct (a_lower a) as [l|].
  - destruct (float_le p l) eqn:E.
    + rewrite list_elem_of_singleton. split.
      * intros ->. eauto.
      * intros (l' & [= <-] & _ & ->). done.
    + split; [by intros ?%elem_of_nil|].
      intros (l' & [= <-] & ? & _). congruence.
  - split; [by intros ?%elem_of_nil|]. intros (? & ? & _). done.
Qed.

Lemma asset_alerts_length prices a :
  length (asset_alerts prices a) = 2 ↔ upper_fires prices a ∧ lower_fires prices a.
Proof.
  unfold asset_alerts, upper_fires, lower_fires, upper_alert, lower_alert.
  destruct (dict_get prices (a_name a)) as [p|]; simpl.
  - destruct (a_upper a) as [u|], (a_lower a) as [l|];
      try destruct (float_ge p u) eqn:Eu; try destruct (float_le p l) eqn:El;
      simpl; split; try lia; try (intros _; split; eauto 6);
      intros [(?&?&?&?&?) (?&?&?&?&?)]; simplify_eq; congruence.
  - split; [lia|]. intros [(?&?&?&_) _]. done.
Qed.

Lemma asset_alerts_nil prices a :
  asset_alerts prices a = [] ↔ ¬ upper_fires prices a ∧ ¬ lower_fires prices a.
Proof.
  unfold asset_alerts, upper_fires, lower_fires, upper_alert, lower_alert.
  destruct (dict_get prices (a_name a)) as [p|]; simpl.
  - destruct (a_upper a) as [u|], (a_lower a) as [l|];
      try destruct (float_ge p u) eqn:Eu; try destruct (float_le p l) eqn:El;
      simpl; split; try done;
      try (intros [H1 H2]; exfalso; first [apply H1; by eauto 6 | apply H2; by eauto 6]);
      intros _; split; intros (?&?&?&?&?); simplify_eq; congruence.
  - split; [|done]. intros _. split; intros (?&?&?&_); done.
Qed.

(** C2: [check_alerts] returns an alert for an asset exactly when the
    asset's name has a price and either an [upper] threshold is configured
    with [price >= upper] (an upper alert) or a [lower] threshold is
    configured with [price <= lower] (a lower alert).  The alerts come in
    the order of the assets; an asset contributes both alerts exactly when
    both comparisons hold, and none exactly when neither does. *)
Theorem check_alerts_spec (prices : dict float) (assets : list asset) :
  check_alerts prices assets = concat (asset_alerts prices <$> assets)
  ∧ (∀ al, al ∈ check_alerts prices assets ↔
       ∃ a p, a ∈ assets ∧ dict_get prices (a_name a) = Some p ∧
         ((∃ u, a_upper a = Some u ∧ float_ge p u = true
                ∧ al = Build_alert (a_name a) Upper u p)
          ∨ (∃ l, a_lower a = Some l ∧ float_le p l = true
                  ∧ al = Build_alert (a_name a) Lower l p)))
  ∧ (∀ a, length (asset_alerts prices a) = 2 ↔
          upper_fires prices a ∧ lower_fires prices a)
  ∧ (∀ a, asset_alerts prices a = [] ↔
          ¬ upper_fires prices a ∧ ¬ lower_fires prices a).
Proof.
  split; [apply check_alerts_concat|].
  split; [|split; [apply asset_alerts_length | apply asset_alerts_nil]].
  intros al. rewrite check_alerts_concat, list_elem_of_In, in_concat. split.
  - intros (l & Hl & Hal). apply list_elem_of_In in Hl, Hal.
    apply list_elem_of_fmap in Hl as (a & -> & Ha).
    unfold asset_alerts in Hal.
    destruct (dict_get prices (a_name a)) as [p|] eqn:Ep; [|by apply elem_of_nil in Hal].
    exists a, p. split; [done|]. split; [done|].
    apply elem_of_app in Hal as [H|H].
    + left. by apply elem_of_upper_alert.
    + right. by apply elem_of_lower_alert.
  - intros (a & p & Ha & Ep & H). exists (asset_alerts prices a).
    rewrite <- !list_elem_of_In. split.
    + apply list_elem_of_fmap. eauto.
    + unfold asset_alerts. rewrite Ep. apply elem_of_app.
      destruct H as [H|H]; [left; by apply elem_of_upper_alert
                           | right; by apply elem_of_lower_alert].
Qed.

(** The scenario of the specification: BTC above its upper threshold and
    ETH below its lower one give one alert each, in the order of the
    assets. *)
Example check_alerts_scenario :
  check_alerts [("BTC", 61000%float); ("ETH", 900%float)] sample_assets
  = [ Build_alert "BTC" Upper 60000 61000; Build_alert "ETH" Lower 1000 900 ].
Proof. reflexivity. Qed.

(** ** Dictionaries *)

Lemma dict_get_cons_eq {V} (d : dict V) k v : dict_get ((k, v) :: d) k = Some v.
Proof. simpl. by rewrite decide_True. Qed.

Lemma dict_get_None {V} (d : dict V) k : dict_get d k = None ↔ k ∉ dict_keys d.
Proof.
  unfold dict_keys. induction d as [|[k' v] d IH]; simpl.
  - split; [intros _; apply not_elem_of_nil | done].
  - rewrite not_elem_of_cons. destruct (decide (k' = k)) as [->|Hne].
    + split; [done | intros [? _]; done].
    + rewrite IH. split; [intros ?; split; [congruence | done] | intros [_ ?]; done].
Qed.

Lemma dict_get_Some_elem {V} (d : dict V) k v : dict_get d k = Some v → (k, v) ∈ d.
Proof.
  induction d as [|[k' v'] d IH]; simpl; [done|].
  destruct (decide (k' = k)) as [->|Hne].
  - intros [= ->]. apply list_elem_of_here.
  - intros H. apply list_elem_of_further. auto.
Qed.

Lemma dict_get_elem {V} (d : dict V) k v :
  dict_wf d → (k, v) ∈ d → dict_get d k = Some v.
Proof.
  unfold dict_wf, dict_keys. induction d as [|[k' v'] d IH]; simpl.
  - intros _ H. by apply elem_of_nil in H.
  - intros [Hk Hd]%NoDup_cons [H|H]%elem_of_cons.
    + simplify_eq. by rewrite decide_True.
    + destruct (decide (k' = k)) as [->|Hne]; [|by apply IH].
      exfalso. apply Hk. apply list_elem_of_fmap. by exists (k, v).
Qed.

Lemma dict_values_by_key_wf {V} (d : dict V) :
  dict_wf d → dict_values_by_key d = d.*2.
Proof.
  intros Hwf. unfold dict_values_by_key, dict_keys.
  assert (H : ∀ l : list (string * V), l ⊆ d → omap (dict_get d) l.*1 = l.*2).
  { induction l as [|[k v] l IH]; intros Hl; simpl; [done|].
    rewrite (dict_get_elem d k v Hwf); [|apply Hl, list_elem_of_here].
    f_equal. apply IH. intros x Hx. apply Hl. by apply list_elem_of_further. }
  by apply H.
Qed.

Lemma dict_get_set {V} (d : dict V) k k' v :
  dict_get (dict_set d k v) k' = if decide (k = k') then Some v else dict_get d k'.
Proof.
  induction d as [|[k0 v0] d IH]; simpl.
  - done.
  - destruct (decide (k0 = k)) as [->|Hne]; simpl.
    + by destruct (decide (k = k')).
    + destruct (decide (k0 = k')) as [->|Hne']; [by rewrite decide_False|done].
Qed.

Lemma dict_keys_set_new {V} (d : dict V) k v :
  k ∉ dict_keys d → dict_set d k v = d ++ [(k, v)].
Proof.
  unfold dict_keys. induction d as [|[k0 v0] d IH]; simpl; [done|].
  intros [Hne Hd]%not_elem_of_cons. rewrite decide_False by done.
  by rewrite IH.
Qed.

Lemma dict_keys_set_old {V} (d : dict V) k v :
  k ∈ dict_keys d → dict_keys (dict_set d k v) = dict_keys d.
Proof.
  unfold dict_keys. induction d as [|[k0 v0] d IH]; simpl.
  - by intros ?%elem_of_nil.
  - intros H. destruct (decide (k0 = k)) as [->|Hne]; simpl; [done|].
    f_equal. apply IH. apply elem_of_cons in H as [?|?]; [congruence|done].
Qed.

Lemma dict_set_wf {V} (d : dict V) k v : dict_wf d → dict_wf (dict_set d k v).
Proof.
  intros Hwf. destruct (decide (k ∈ dict_keys d)) as [Hin|Hout].
  - unfold dict_wf. by rewrite dict_keys_set_old.
  - rewrite dict_keys_set_new by done. unfold dict_wf, dict_keys.
    rewrite fmap_app. simpl. apply NoDup_app. split; [done|].
    split; [|apply NoDup_singleton].
    intros x Hx ->%list_elem_of_singleton. done.
Qed.

(** ** History store: appending *)

Section AppendProps.
Context `{TextCodec}.

Lemma append_history_new (fs : file_system) path ts prices :
  fs !! path = None →
  append_history fs path ts prices
  = <[path := [header_row prices; data_row ts prices]]> fs.
Proof.
  intros Hnone. unfold append_history. by rewrite Hnone.
Qed.

Lemma append_history_existing (fs : file_system) path ts prices content :
  fs !! path = Some content →
  append_history fs path ts prices
  = <[path := content ++ [data_row ts prices]]> fs.
Proof.
  intros Hsome. unfold append_history. by rewrite Hsome.
Qed.

Lemma append_history_other (fs : file_system) path ts prices other :
  other ≠ path → append_history fs path ts prices !! other = fs !! other.
Proof. intros Hne. unfold append_history. by rewrite lookup_insert_ne. Qed.

Lemma append_all_existing (fs : file_system) path runs content :
  fs !! path = Some content →
  append_all fs path runs !! path
  = Some (content ++ ((λ r, data_row r.1 r.2) <$> runs)).
Proof.
  revert fs content. induction runs as [|r runs IH]; intros fs content Hsome.
  - simpl. by rewrite app_nil_r.
  - simpl. rewrite (append_history_existing _ _ _ _ content Hsome).
    erewrite IH; [|apply lookup_insert_eq]. by rewrite <- app_assoc.
Qed.

(** C3: two calls of [append_history] on a path with no file leave a file
    whose first record is the header, ['timestamp'] followed by the keys
    of the mapping in mapping order, followed by exactly two data rows;
    the first call writes the header and one row, the second only a row. *)
Theorem append_history_twice (fs : file_system) (path : string)
    (ts : time) (prices : dict float) :
  fs !! path = None →
  let fs1 := append_history fs path ts prices in
  let fs2 := append_history fs1 path ts prices in
  fs1 !! path = Some [header_row prices; data_row ts prices]
  ∧ fs2 !! path
    = Some [header_row prices; data_row ts prices; data_row ts prices]
  ∧ header_row prices = "timestamp" :: dict_keys prices.
Proof.
  intros Hnone fs1 fs2. subst fs1 fs2.
  rewrite (append_history_new fs path ts prices Hnone).
  split; [apply lookup_insert_eq|]. split; [|done].
  erewrite append_history_existing; [|apply lookup_insert_eq].
  apply lookup_insert_eq.
Qed.

(** C9: the header of a log is the one of its first append and is never
    rewritten: an append to an existing file adds exactly one record
    after the records that are there, whatever their header, and that
    record holds the instant and the values of the current mapping in
    key order; a run of appends to a fresh path leaves the header of the
    first mapping followed by one row per append. *)
Theorem append_history_schema (fs : file_system) (path : string) :
  (∀ content ts prices,
     fs !! path = Some content →
     append_history fs path ts prices !! path
     = Some (content ++ [data_row ts prices]))
  ∧ (∀ r runs,
       fs !! path = None →
       append_all fs path (r :: runs) !! path
       = Some (header_row r.2 :: ((λ r, data_row r.1 r.2) <$> r :: runs)))
  ∧ (∀ ts prices,
       dict_wf prices →
       data_row ts prices = isoformat ts :: (repr_float <$> prices.*2))
  ∧ (∀ ts prices other,
       other ≠ path → append_history fs path ts prices !! other = fs !! other).
Proof.
  split; [|split; [|split]].
  - intros content ts prices Hsome.
    rewrite (append_history_existing _ _ _ _ content Hsome).
    apply lookup_insert_eq.
  - intros r runs Hnone. simpl.
    rewrite (append_history_new _ _ _ _ Hnone).
    erewrite append_all_existing; [|apply lookup_insert_eq]. done.
  - intros ts prices Hwf. unfold data_row.
    by rewrite dict_values_by_key_wf.
  - intros ts prices other Hne. by apply append_history_other.
Qed.
End AppendProps.

(** ** Sorting a table by its instants *)

Lemma omap_cons_eq {A B} (f : A → option B) (x : A) (l : list A) :
  omap f (x :: l) = match f x with Some y => y :: omap f l | None => omap f l end.
Proof. done. Qed.

Lemma omap_lookup_total {A} (l : list A) (p : list nat) :
  Forall (λ i, i < length l) p →
  ∀ j, omap (λ i, l !! i) p !! j = p !! j ≫= λ i, l !! i.
Proof.
  induction 1 as [|i p Hi Hp IH]; intros j; [done|].
  cbn. destruct (lookup_lt_is_Some_2 l i Hi) as [x Hx]. rewrite Hx.
  destruct j as [|j]; cbn; [by rewrite Hx | apply IH].
Qed.

Lemma omap_lookup_length {A} (l : list A) (p : list nat) :
  Forall (λ i, i < length l) p → length (omap (λ i, l !! i) p) = length p.
Proof.
  induction 1 as [|i p Hi Hp IH]; [done|].
  cbn. destruct (lookup_lt_is_Some_2 l i Hi) as [x ->]. cbn. by f_equal.
Qed.

Lemma col_cell_take_rows (p : list nat) (c : column) (j : nat) :
  Forall (λ i, i < col_length c) p →
  col_cell (take_rows p c) j = p !! j ≫= col_cell c.
Proof.
  intros Hp. destruct c as [ts|xs]; simpl in *;
    rewrite omap_lookup_total by done; by destruct (p !! j).
Qed.

Lemma col_length_take_rows (p : list nat) (c : column) :
  Forall (λ i, i < col_length c) p → col_length (take_rows p c) = length p.
Proof. intros Hp. destruct c; simpl in *; by apply omap_lookup_length. Qed.

Lemma row_at_take_rows (n : nat) (df : DataFrame) (p : list nat) (j : nat) :
  wf_frame n df → Forall (λ i, i < n) p →
  row_at (prod_map id (take_rows p) <$> df) j
  = from_option (row_at df) [] (p !! j).
Proof.
  intros Hwf Hp.
  induction Hwf as [|[name c] df Hc Hdf IH].
  - by destruct (p !! j).
  - rewrite fmap_cons. unfold row_at in *. rewrite omap_cons_eq, IH.
    cbn [prod_map fst snd id].
    rewrite col_cell_take_rows by (simpl in Hc; by rewrite Hc).
    destruct (p !! j) as [i|]; cbn [mbind option_bind from_option fmap option_fmap option_map].
    + by rewrite omap_cons_eq.
    + done.
Qed.

Lemma fmap_via_lookup {A B} (f : A → B) (d : B) (l : list A) :
  f <$> l = (λ j, from_option f d (l !! j)) <$> seq 0 (length l).
Proof.
  apply list_eq. intros j. rewrite !list_lookup_fmap.
  destruct (decide (j < length l)) as [Hlt|Hge].
  - rewrite lookup_seq_lt by done. simpl.
    destruct (lookup_lt_is_Some_2 l j Hlt) as [x ->]. done.
  - rewrite lookup_seq_ge by lia. rewrite lookup_ge_None_2 by lia. done.
Qed.

Lemma zip_seq_lookup {A} (l : list A) (x : A) (i : nat) :
  (x, i) ∈ zip l (seq 0 (length l)) → l !! i = Some x.
Proof.
  intros (j & Hj)%list_elem_of_lookup.
  apply lookup_zip_Some in Hj as [Hx Hi].
  apply lookup_seq in Hi as [-> _]. done.
Qed.

Lemma argsort_Permutation (ts : list time) :
  argsort ts ≡ₚ seq 0 (length ts).
Proof.
  unfold argsort. rewrite merge_sort_Permutation.
  rewrite snd_zip; [done|]. by rewrite length_seq.
Qed.

Lemma argsort_bound (ts : list time) :
  Forall (λ i, i < length ts) (argsort ts).
Proof.
  rewrite argsort_Permutation. apply Forall_forall.
  intros i Hi%elem_of_seq. lia.
Qed.

Lemma argsort_keys (ts : list time) :
  omap (λ i, ts !! i) (argsort ts)
  = (merge_sort key_le (zip ts (seq 0 (length ts)))).*1.
Proof.
  unfold argsort.
  assert (Hsub : ∀ x, x ∈ merge_sort key_le (zip ts (seq 0 (length ts)))
                      → x ∈ zip ts (seq 0 (length ts))).
  { intros x. by rewrite merge_sort_Permutation. }
  induction (merge_sort key_le (zip ts (seq 0 (length ts)))) as [|[t i] l IH];
    [done|].
  simpl. rewrite (zip_seq_lookup ts t i); [|apply Hsub, list_elem_of_here].
  f_equal. apply IH. intros x Hx. apply Hsub. by apply list_elem_of_further.
Qed.

#[local] Instance key_le_total : Total key_le.
Proof. intros [a i] [b j]. unfold key_le. simpl. lia. Qed.

Lemma argsort_Sorted (ts : list time) :
  Sorted Z.le (omap (λ i, ts !! i) (argsort ts)).
Proof.
  rewrite argsort_keys.
  apply (Sorted_fmap fst key_le Z.le); [by intros [? ?] [? ?]|].
  apply (Sorted_merge_sort key_le).
Qed.

Lemma dict_get_fmap {V W} (f : V → W) (d : dict V) k :
  dict_get (prod_map id f <$> d) k = f <$> dict_get d k.
Proof.
  induction d as [|[k' v] d IH]; simpl; [done|].
  by destruct (decide (k' = k)).
Qed.

Lemma dict_keys_fmap {V W} (f : V → W) (d : dict V) :
  dict_keys (prod_map id f <$> d) = dict_keys d.
Proof.
  unfold dict_keys. rewrite <- list_fmap_compose.
  apply list_fmap_ext. by intros ? [? ?].
Qed.

Lemma wf_frame_lookup n (df : DataFrame) k c :
  wf_frame n df → dict_get df k = Some c → col_length c = n.
Proof.
  intros Hwf Hc%dict_get_Some_elem.
  by apply (proj1 (Forall_forall _ _) Hwf (k, c)).
Qed.

Lemma nrows_wf n (df : DataFrame) : wf_frame n df → df ≠ [] → nrows df = n.
Proof. intros Hwf Hne. destruct Hwf as [|[? c] ? Hc _]; done. Qed.

(** Sorting keeps the columns and the rows and puts the instants in
    ascending order. *)
Lemma sort_values_spec n (df : DataFrame) (ts : list time) :
  wf_frame n df → dict_get df "timestamp" = Some (TimeCol ts) →
  ∃ df' ts',
    sort_values df "timestamp" = Returns df'
    ∧ dict_keys df' = dict_keys df
    ∧ wf_frame n df'
    ∧ frame_rows df' ≡ₚ frame_rows df
    ∧ dict_get df' "timestamp" = Some (TimeCol ts')
    ∧ Sorted Z.le ts'.
Proof.
  intros Hwf Hts.
  assert (Hn : length ts = n) by apply (wf_frame_lookup n df _ _ Hwf Hts).
  assert (Hne : df ≠ []) by (intros ->; done).
  pose proof (argsort_bound ts) as Hb. rewrite Hn in Hb.
  assert (Hwf' : wf_frame n (prod_map id (take_rows (argsort ts)) <$> df)).
  { unfold wf_frame in *. apply Forall_fmap.
    eapply Forall_impl; [exact Hwf|]. intros [name c] Hc. simpl in *.
    rewrite col_length_take_rows by (by rewrite Hc).
    by rewrite (Permutation_length (argsort_Permutation ts)), length_seq. }
  exists (prod_map id (take_rows (argsort ts)) <$> df),
         (omap (λ i, ts !! i) (argsort ts)).
  unfold sort_values. rewrite Hts.
  split; [done|]. split; [apply dict_keys_fmap|]. split; [done|].
  split; [|split; [by rewrite dict_get_fmap, Hts | apply argsort_Sorted]].
  unfold frame_rows.
  rewrite (nrows_wf n _ Hwf') by (by destruct df).
  rewrite (nrows_wf n df Hwf Hne).
  assert (Hlen : length (argsort ts) = n).
  { by rewrite (Permutation_length (argsort_Permutation ts)), length_seq. }
  assert (Heq : row_at (prod_map id (take_rows (argsort ts)) <$> df) <$> seq 0 n
                = row_at df <$> argsort ts).
  { rewrite (fmap_via_lookup (row_at df) [] (argsort ts)), Hlen.
    apply list_fmap_ext. intros j i Hj. by apply (row_at_take_rows n). }
  rewrite Heq. apply fmap_Permutation.
  rewrite <- Hn. apply argsort_Permutation.
Qed.

(** ** History store: loading *)

Lemma omap_lookup_all_Some {A B} (f : A → option B) (l : list A) :
  Forall (λ x, is_Some (f x)) l → ∀ j, omap f l !! j = l !! j ≫= f.
Proof.
  induction 1 as [|x l [y Hy] Hl IH]; intros j; [done|].
  rewrite omap_cons_eq, Hy. destruct j as [|j]; cbn; [by rewrite Hy | apply IH].
Qed.

Lemma collect_Returns {A} (os : list (outcome A)) (l : list A) :
  collect os = Returns l ↔ Forall2 (λ o x, o = Returns x) os l.
Proof.
  revert l. induction os as [|o os IH]; intros l; simpl.
  - split; [intros [= <-]; constructor | by intros ->%Forall2_nil_inv_l].
  - destruct o as [a|e]; cbn.
    + destruct (collect os) as [k|e] eqn:Ek; cbn.
      * split.
        -- intros [= <-]. constructor; [done | by apply IH].
        -- intros (x & k' & [= <-] & Hk & ->)%Forall2_cons_inv_l.
           apply IH in Hk. by simplify_eq.
      * split; [done|].
        intros (x & k' & _ & Hk & ->)%Forall2_cons_inv_l.
        apply IH in Hk. done.
    + split; [done|]. by intros (x & k' & ? & _)%Forall2_cons_inv_l.
Qed.

Section LoadProps.
Context `{TextCodec}.

Lemma parse_column_cells name cells c :
  parse_column name cells = Returns c →
  col_length c = length cells
  ∧ (name = "timestamp" → ∃ ts, c = TimeCol ts)
  ∧ (name ≠ "timestamp" → ∃ xs, c = NumCol xs)
  ∧ (∀ i text, cells !! i = Some text →
       ∃ v, parse_cell name text = Some v ∧ col_cell c i = Some v).
Proof.
  unfold parse_column, parse_cell.
  destruct (decide (name = "timestamp")) as [->|Hne].
  - destruct (mapM parse_time cells) as [ts|] eqn:E; [|done].
    intros [= <-]. apply mapM_Some in E.
    split; [symmetry; by eapply Forall2_length|].
    split; [eauto|]. split; [done|].
    intros i text Hi.
    destruct (Forall2_lookup_l _ _ _ _ _ E Hi) as (t & Ht & Hp).
    exists (VTime t). simpl. by rewrite Hp, Ht.
  - destruct (mapM parse_num_cell cells) as [xs|] eqn:E; [|done].
    intros [= <-]. apply mapM_Some in E.
    split; [symmetry; by eapply Forall2_length|].
    split; [done|]. split; [eauto|].
    intros i text Hi.
    destruct (Forall2_lookup_l _ _ _ _ _ E Hi) as (x & Hx & Hp).
    exists (VNum x). simpl. by rewrite Hp, Hx.
Qed.

(** What a successful [read_csv] returns: one column per name of the
    header, one row per record after it, every cell parsed. *)
Lemma read_csv_shape (content : csv_file) (df : DataFrame) :
  read_csv content = Returns df →
  ∃ header rows,
    filter (λ r, r ≠ []) content = header :: rows
    ∧ dict_keys df = header
    ∧ history_table (length rows) df
    ∧ (∀ i r j name,
         rows !! i = Some r → header !! j = Some name →
         ∃ v, parse_cell name (default "" (r !! j)) = Some v
              ∧ row_at df i !! j = Some (name, v)).
Proof.
  unfold read_csv.
  destruct (filter (λ r, r ≠ []) content) as [|header rows]; [done|].
  destruct (bool_decide (NoDup header ∧ "" ∉ header)) eqn:Hnd; [|done].
  apply bool_decide_eq_true in Hnd as [Hnd _].
  destruct (bool_decide ("timestamp" ∈ header)) eqn:Hts; [|done].
  apply bool_decide_eq_true in Hts.
  destruct (forallb _ rows); [|done]. cbn [negb].
  destruct (collect _) as [cols|] eqn:Ecols; [|done].
  cbn. intros [= <-]. apply collect_Returns in Ecols.
  assert (Hlen : length header = length cols).
  { apply Forall2_length in Ecols. by rewrite length_imap in Ecols. }
  assert (Hcol : ∀ j name c, header !! j = Some name → cols !! j = Some c →
                 parse_column name (column_cells rows j) = Returns c).
  { intros j name c Hj Hc.
    eapply (Forall2_lookup_lr _ _ _ j) in Ecols; [done| |done].
    by rewrite list_lookup_imap, Hj. }
  assert (Hkeys : dict_keys (zip header cols) = header).
  { unfold dict_keys. apply fst_zip. lia. }
  exists header, rows. split; [done|]. split; [done|].
  assert (Helem : ∀ name c, (name, c) ∈ zip header cols →
            ∃ j, header !! j = Some name ∧ cols !! j = Some c).
  { intros name c (j & Hj)%list_elem_of_lookup.
    apply lookup_zip_Some in Hj. eauto. }
  split; [split; [|split; [|split]]|].
  - unfold dict_wf. by rewrite Hkeys.
  - apply Forall_forall. intros [name c] (j & Hj & Hc)%Helem. simpl.
    destruct (parse_column_cells _ _ _ (Hcol _ _ _ Hj Hc)) as (-> & _).
    unfold column_cells. by rewrite length_fmap.
  - apply list_elem_of_lookup in Hts as [j Hj].
    destruct (lookup_lt_is_Some_2 cols j) as [c Hc].
    { rewrite <- Hlen. by eapply lookup_lt_Some. }
    destruct (parse_column_cells _ _ _ (Hcol _ _ _ Hj Hc))
      as (_ & [ts ->] & _); [done|].
    exists ts. apply dict_get_elem.
    + unfold dict_wf. by rewrite Hkeys.
    + apply list_elem_of_lookup. exists j. apply lookup_zip_Some. done.
  - intros name c (j & Hj & Hc)%Helem Hne.
    by destruct (parse_column_cells _ _ _ (Hcol _ _ _ Hj Hc)) as (_ & _ & ? & _); auto.
  - intros i r j name Hr Hj.
    destruct (lookup_lt_is_Some_2 cols j) as [c Hc].
    { rewrite <- Hlen. by eapply lookup_lt_Some. }
    destruct (parse_column_cells _ _ _ (Hcol _ _ _ Hj Hc))
      as (_ & _ & _ & Hcells).
    destruct (Hcells i (default "" (r !! j))) as (v & Hv & Hcell).
    { unfold column_cells. by rewrite list_lookup_fmap, Hr. }
    exists v. split; [done|].
    unfold row_at. rewrite omap_lookup_all_Some.
    + assert (Hz : zip header cols !! j = Some (name, c))
        by (by apply lookup_zip_Some).
      rewrite Hz. cbn. by rewrite Hcell.
    + apply Forall_forall. intros [name' c'] (j' & Hj' & Hc')%Helem. simpl.
      destruct (parse_column_cells _ _ _ (Hcol _ _ _ Hj' Hc'))
        as (_ & _ & _ & Hcells').
      destruct (Hcells' i (default "" (r !! j'))) as (v' & _ & ->).
      { unfold column_cells. by rewrite list_lookup_fmap, Hr. }
      by eexists.
Qed.
End LoadProps.

Section LoadHistory.
Context `{TextCodec}.

(** C5: [load_history] returns [None] when the log file does not exist.
    Otherwise, when pandas parses the file, it returns a table with the
    columns of the header and every record after the header as a row,
    each cell parsed and the [timestamp] column a column of instants;
    the rows are those of the parsed file, all of them, in ascending
    order of their instants.  An error of the parser propagates. *)
Theorem load_history_spec (fs : file_system) (path : string) :
  (fs !! path = None → load_history fs path = Returns None)
  ∧ (∀ content df0,
       fs !! path = Some content → read_csv content = Returns df0 →
       ∃ df ts header rows,
         load_history fs path = Returns (Some df)
         ∧ filter (λ r, r ≠ []) content = header :: rows
         ∧ dict_keys df = header
         ∧ nrows df = length rows
         ∧ (∀ i r j name,
              rows !! i = Some r → header !! j = Some name →
              ∃ v, parse_cell name (default "" (r !! j)) = Some v
                   ∧ row_at df0 i !! j = Some (name, v))
         ∧ frame_rows df ≡ₚ frame_rows df0
         ∧ dict_get df "timestamp" = Some (TimeCol ts)
         ∧ Sorted Z.le ts)
  ∧ (∀ content e,
       fs !! path = Some content → read_csv content = Raises e →
       (∀ what, e ≠ Unsupported what) →
       load_history fs path = Raises e).
Proof.
  unfold load_history. split; [by intros ->|]. split.
  - intros content df0 -> Hread. rewrite Hread. cbn.
    destruct (read_csv_shape content df0 Hread)
      as (header & rows & Hfilter & Hkeys & (Hwf & Hn & [ts0 Hts0] & Hnum) & Hcells).
    destruct (sort_values_spec _ df0 ts0 Hn Hts0)
      as (df & ts & -> & Hkeys' & Hn' & Hperm & Hts & Hsorted).
    exists df, ts, header, rows. cbn.
    split; [done|]. split; [done|]. split; [congruence|].
    split; [|done].
    apply (nrows_wf _ _ Hn'). intros ->. done.
  - intros content e -> Hread _. by rewrite Hread.
Qed.

(** C4: on a path with no file, appending the mapping [{"BTC": 50000.0}]
    at the instant [T] and loading the log gives a table of exactly one
    row, with the instant [T] and the value [50000.0] for [BTC], when the
    text written for [T] and for [50000.0] reads back as [T] and as
    [50000.0]. *)
Theorem append_load_roundtrip (fs : file_system) (path : string) (T : time) :
  fs !! path = None →
  parse_time (isoformat T) = Some T →
  parse_num_cell (repr_float 50000) = Some 50000%float →
  ∃ df,
    load_history (append_history fs path T [("BTC", 50000%float)]) path
    = Returns (Some df)
    ∧ df = [("timestamp", TimeCol [T]); ("BTC", NumCol [50000%float])]
    ∧ frame_rows df = [[("timestamp", VTime T); ("BTC", VNum 50000)]].
Proof.
  intros Hnone Htime Hfloat.
  assert (Hrow : data_row T [("BTC", 50000%float)]
                 = [isoformat T; repr_float 50000]).
  { unfold data_row, dict_values_by_key. cbn. by rewrite decide_True. }
  eexists. split; [|split; [reflexivity|reflexivity]].
  rewrite (append_history_new _ _ _ _ Hnone), Hrow.
  unfold load_history. rewrite lookup_insert_eq.
  unfold read_csv, header_row. cbn [dict_keys fmap list_fmap fst].
  rewrite !filter_cons, filter_nil, !decide_True by done.
  rewrite (bool_decide_true (NoDup _ ∧ _)) by (by compute_done).
  rewrite (bool_decide_true (_ ∈ _)) by (by compute_done).
  cbn [negb forallb length Nat.leb andb imap].
  unfold parse_column, column_cells.
  cbn -[parse_num_cell parse_time isoformat repr_float decide].
  rewrite (decide_True (P := "timestamp" = "timestamp")) by done.
  rewrite Htime.
  cbn -[parse_num_cell parse_time isoformat repr_float decide].
  rewrite (decide_False (P := "BTC" = "timestamp")) by discriminate.
  rewrite Hfloat.
  reflexivity.
Qed.
End LoadHistory.

Lemma append_load_roundtrip_witness :
  (∅ : file_system) !! "data/history.csv" = None
  ∧ @parse_time sample_codec (@isoformat sample_codec 60%Z) = Some 60%Z
  ∧ ∃ df,
      @load_history sample_codec
        (@append_history sample_codec ∅ "data/history.csv" 60%Z
           [("BTC", 50000%float)]) "data/history.csv"
      = Returns (Some df)
      ∧ nrows df = 1.
Proof.
  split; [reflexivity|]. split; [reflexivity|].
  destruct (@append_load_roundtrip sample_codec ∅ "data/history.csv" 60%Z)
    as (df & Hload & -> & _); [reflexivity | reflexivity | reflexivity |].
  eexists. split; [exact Hload | reflexivity].
Defined.

Lemma load_history_spec_witness :
  sample_fs !! "data/history.csv" = Some sample_log
  ∧ @read_csv sample_codec sample_log = Returns sample_table
  ∧ ∃ df ts,
      @load_history sample_codec sample_fs "data/history.csv" = Returns (Some df)
      ∧ dict_get df "timestamp" = Some (TimeCol ts) ∧ Sorted Z.le ts.
Proof.
  split; [reflexivity|]. split; [vm_compute; reflexivity|].
  destruct (@load_history_spec sample_codec sample_fs "data/history.csv")
    as (_ & Hload & _).
  destruct (Hload sample_log sample_table) as (df & ts & _ & _ & Hdf & _ & _ & _ & _ & Hts & Hs);
    [reflexivity | vm_compute; reflexivity |].
  exists df, ts. done.
Defined.

Lemma append_history_twice_witness :
  (∅ : file_system) !! "data/history.csv" = None
  ∧ @append_history sample_codec
      (@append_history sample_codec ∅ "data/history.csv" 0%Z [("BTC", 50000%float)])
      "data/history.csv" 0%Z [("BTC", 50000%float)] !! "data/history.csv"
    = Some [ ["timestamp"; "BTC"];
             ["1970-01-01T00:00:00"; "50000.0"];
             ["1970-01-01T00:00:00"; "50000.0"] ].
Proof.
  split; [reflexivity|].
  pose proof (@append_history_twice sample_codec ∅ "data/history.csv" 0%Z
                [("BTC", 50000%float)] eq_refl) as (_ & H2 & _).
  rewrite H2. reflexivity.
Defined.

Lemma append_history_schema_witness :
  sample_fs !! "data/history.csv" = Some sample_log
  ∧ @append_history sample_codec sample_fs "data/history.csv" 120%Z
      [("ETH", 51000%float); ("BTC", 50000%float)] !! "data/history.csv"
    = Some (sample_log ++ [["1970-01-01T00:02:00"; "51000.0"; "50000.0"]]).
Proof.
  split; [reflexivity|].
  pose proof (@append_history_schema sample_codec sample_fs "data/history.csv")
    as (H1 & _).
  rewrite (H1 sample_log 120%Z [("ETH", 51000%float); ("BTC", 50000%float)] eq_refl).
  reflexivity.
Defined.

(** ** Price fetcher *)

Lemma collect_prices_fold assets vs data acc n :
  dict_get
    (fold_left
       (λ prices a,
          let aid := a_id a in
          match data !! aid with
          | Some quotes =>
              match quotes !! vs with
              | Some v => dict_set prices (a_name a) v
              | None => prices
              end
          | None => prices
          end) assets acc) n
  = match last_quote assets vs data n with
    | Some v => Some v
    | None => dict_get acc n
    end.
Proof.
  unfold last_quote. revert acc.
  induction assets as [|a assets IH]; intros acc; [done|].
  cbn [fold_left]. rewrite IH, omap_cons_eq. unfold quote at 2.
  destruct (data !! a_id a) as [quotes|] eqn:Eid; cbn [mbind option_bind].
  - destruct (quotes !! vs) as [v|] eqn:Evs.
    + rewrite dict_get_set.
      destruct (decide (a_name a = n)) as [Heq|Hne]; [|done].
      rewrite last_cons. by destruct (last _).
    + by destruct (decide (a_name a = n)).
  - by destruct (decide (a_name a = n)).
Qed.

Lemma collect_prices_wf assets vs data : dict_wf (collect_prices assets vs data).
Proof.
  unfold collect_prices.
  assert (Hnil : dict_wf ([] : dict float)) by apply NoDup_nil_2.
  revert Hnil. generalize ([] : dict float).
  induction assets as [|a assets IH]; intros acc Hacc; [done|].
  cbn [fold_left]. apply IH.
  destruct (data !! a_id a) as [quotes|]; [|done].
  destruct (quotes !! vs); [by apply dict_set_wf | done].
Qed.

Lemma last_quote_Some assets vs data n v :
  last_quote assets vs data n = Some v →
  ∃ a, a ∈ assets ∧ a_name a = n ∧ quote vs data a = Some v.
Proof.
  unfold last_quote. intros Hl%last_Some_elem_of.
  apply list_elem_of_omap in Hl as (a & Ha & Hq).
  destruct (decide (a_name a = n)); [eauto|done].
Qed.

Lemma last_quote_is_Some assets vs data a :
  a ∈ assets → is_Some (quote vs data a) →
  is_Some (last_quote assets vs data (a_name a)).
Proof.
  unfold last_quote. intros Ha [v Hv].
  assert (Hin : v ∈ omap (λ a', if decide (a_name a' = a_name a)
                                then quote vs data a' else None) assets).
  { apply list_elem_of_omap. exists a. by rewrite decide_True. }
  destruct (omap _ assets) as [|x l] using rev_ind.
  - by apply elem_of_nil in Hin.
  - rewrite last_snoc. eauto.
Qed.

Lemma last_quote_NoDup assets vs data a :
  NoDup (a_name <$> assets) → a ∈ assets →
  last_quote assets vs data (a_name a) = quote vs data a.
Proof.
  unfold last_quote. induction assets as [|a' assets IH].
  - by intros _ ?%elem_of_nil.
  - rewrite fmap_cons. intros [Hnotin Hnd]%NoDup_cons Ha. rewrite omap_cons_eq.
    assert (Hrest : a' = a → omap (λ a0, if decide (a_name a0 = a_name a)
                        then quote vs data a0 else None) assets = []).
    { intros ->. clear -Hnotin. induction assets as [|b assets IH]; [done|].
      rewrite omap_cons_eq. apply not_elem_of_cons in Hnotin as [Hne Hnotin].
      rewrite decide_False by done. by apply IH. }
    apply elem_of_cons in Ha as [<-|Ha].
    + rewrite decide_True by done. rewrite (Hrest eq_refl).
      by destruct (quote vs data a).
    + rewrite decide_False.
      2:{ intros Heq. apply Hnotin. rewrite Heq. by apply list_elem_of_fmap_2. }
      by apply IH.
Qed.

(** C6: when the price API answers with a JSON object, [fetch_prices]
    returns, without raising, the mapping built from the asset list: the
    name of an asset is a key exactly when some asset of that name has its
    identifier in the response and the currency under it; the value of a
    key is the quote of the last such asset, so that with distinct names
    the mapping holds the quote of every asset that has one and nothing for
    the others. *)
Theorem fetch_prices_spec (assets : list asset) (url vs : string)
    (net : network) (status : Z) (data : price_json) :
  net_answer net (price_request assets url vs) = Response status (Some data) →
  ¬ (400 ≤ status < 600)%Z →
  ∃ prices,
    fetch_prices assets url vs net
    = (Returns prices, logged (price_request assets url vs) net)
    ∧ dict_wf prices
    ∧ (∀ n, dict_get prices n = last_quote assets vs data n)
    ∧ (∀ n, n ∈ dict_keys prices ↔
            ∃ a, a ∈ assets ∧ a_name a = n ∧ is_Some (quote vs data a))
    ∧ (NoDup (a_name <$> assets) →
       ∀ a, a ∈ assets → dict_get prices (a_name a) = quote vs data a).
Proof.
  intros Hanswer Hstatus. exists (collect_prices assets vs data).
  assert (Hget : ∀ n, dict_get (collect_prices assets vs data) n
                      = last_quote assets vs data n).
  { intros n. unfold collect_prices. rewrite collect_prices_fold.
    by destruct (last_quote assets vs data n). }
  split; [|split; [apply collect_prices_wf|split; [done|split]]].
  - unfold fetch_prices, bind, send. fold (price_request assets url vs).
    rewrite Hanswer. cbn. unfold raise_for_status.
    by rewrite bool_decide_false.
  - intros n. split.
    + intros Hn. destruct (dict_get (collect_prices assets vs data) n) as [v|] eqn:E.
      * rewrite Hget in E. apply last_quote_Some in E as (a & ? & ? & ?). eauto.
      * by apply dict_get_None in E.
    + intros (a & Ha & <- & Hq).
      destruct (decide (a_name a ∈ dict_keys (collect_prices assets vs data)))
        as [|Hout]; [done|].
      apply dict_get_None in Hout. rewrite Hget in Hout.
      destruct (last_quote_is_Some assets vs data a Ha Hq) as [v Hv]. congruence.
  - intros Hnd a Ha. rewrite Hget. by apply last_quote_NoDup.
Qed.

Lemma fetch_prices_spec_witness :
  net_answer sample_network (price_request sample_assets "https://api" "usd")
  = Response 200 (Some sample_response)
  ∧ ¬ (400 ≤ 200 < 600)%Z
  ∧ ∃ prices,
      (fetch_prices sample_assets "https://api" "usd" sample_network).1
      = Returns prices
      ∧ dict_get prices "BTC" = Some 61000%float
      ∧ dict_get prices "ETH" = None.
Proof.
  split; [reflexivity|]. split; [lia|].
  destruct (fetch_prices_spec sample_assets "https://api" "usd" sample_network
              200 sample_response eq_refl)
    as (prices & Hrun & _ & Hget & _); [lia|].
  exists prices. rewrite Hrun, !Hget. split; [reflexivity|].
  split; vm_compute; reflexivity.
Defined.

(** ** Notifier *)

Lemma credential_empty (cfg : config) key :
  credential cfg key = "" ↔ ∀ s, cfg_telegram cfg ≫= key = Some s → s = "".
Proof.
  unfold credential. destruct (cfg_telegram cfg ≫= key) as [s|]; simpl.
  - split; [by intros -> ? [= <-] | intros Hs; by apply Hs].
  - split; [by intros _ ? ? | done].
Qed.

(** C7: [notify_telegram] never raises.  When the token or the chat
    identifier is absent or empty it returns [False] and the network sees
    no call.  Otherwise it issues exactly one POST, and returns [True]
    when the call comes back and [False] when the call raises. *)
Theorem notify_telegram_spec (text : string) (cfg : config) (net : network) :
  let token := credential cfg bot_token in
  let chat := credential cfg chat_id in
  let rq := telegram_request text token chat in
  (token = "" ∨ chat = "" → notify_telegram text cfg net = (Returns false, net))
  ∧ (token ≠ "" → chat ≠ "" →
     notify_telegram text cfg net
     = (Returns (answered (net_answer net rq)), logged rq net))
  ∧ (∃ sent, (notify_telegram text cfg net).1 = Returns sent)
  ∧ (∀ key, credential cfg key = "" ↔
            ∀ s, cfg_telegram cfg ≫= key = Some s → s = "").
Proof.
  intros token chat rq.
  assert (Hmissing : token = "" ∨ chat = ""
                     → notify_telegram text cfg net = (Returns false, net)).
  { intros Hor. unfold notify_telegram. fold token chat.
    destruct Hor as [-> | ->]; [done|].
    by rewrite orb_true_r. }
  assert (Hsend : token ≠ "" → chat ≠ "" →
                  notify_telegram text cfg net
                  = (Returns (answered (net_answer net rq)), logged rq net)).
  { intros Ht Hc. unfold notify_telegram. fold token chat.
    rewrite !bool_decide_false by done. cbn [orb].
    unfold try_except, bind, send. fold (telegram_request text token chat).
    fold rq. by destruct (net_answer net rq). }
  split; [done|]. split; [done|]. split; [|intros key; apply credential_empty].
  destruct (decide (token = "")) as [Ht|Ht];
    [exists false; by rewrite (Hmissing (or_introl Ht))|].
  destruct (decide (chat = "")) as [Hc|Hc];
    [exists false; by rewrite (Hmissing (or_intror Hc))|].
  eexists. by rewrite (Hsend Ht Hc).
Qed.

Lemma notify_telegram_spec_witness :
  credential default_cfg bot_token = ""
  ∧ notify_telegram "ALERTA" default_cfg sample_network
    = (Returns false, sample_network)
  ∧ credential telegram_cfg_sample bot_token ≠ ""
  ∧ credential telegram_cfg_sample chat_id ≠ ""
  ∧ notify_telegram "ALERTA" telegram_cfg_sample dead_network
    = (Returns false,
       logged (telegram_request "ALERTA" "123:abc" "42") dead_network).
Proof.
  split; [reflexivity|].
  split; [apply (notify_telegram_spec "ALERTA" default_cfg sample_network); by left|].
  split; [discriminate|]. split; [discriminate|].
  apply (notify_telegram_spec "ALERTA" telegram_cfg_sample dead_network);
    discriminate.
Defined.

(** ** Float arithmetic on missing values *)

Lemma div_nan_r (x : float) : (x / nan)%float = nan.
Proof.
  rewrite <- (SF2Prim_Prim2SF (x / nan)), FloatAxioms.div_spec.
  replace (Prim2SF nan) with S754_nan by reflexivity.
  unfold SF64div, SFdiv. by destruct (Prim2SF x).
Qed.

Lemma pct_value_nan_prev (v : float) : pct_value v nan = 0%float.
Proof. unfold pct_value. by rewrite div_nan_r. Qed.

Lemma fillna_float_not_nan (value x : float) :
  is_nan value = false → is_nan (fillna_float value x) = false.
Proof. intros Hv. unfold fillna_float. by destruct (is_nan x) eqn:E. Qed.

Lemma fillna_float_id (value x : float) :
  is_nan x = false → fillna_float value x = x.
Proof. intros Hx. unfold fillna_float. by rewrite Hx. Qed.

Lemma ffill_from_no_nan (last : float) (xs : list float) :
  Forall (λ x, is_nan x = false) xs → ffill_from last xs = xs.
Proof.
  intros Hxs. revert last. induction Hxs as [|x xs Hx _ IH]; intros last; [done|].
  simpl. rewrite Hx. by rewrite IH.
Qed.

Lemma pct_change_no_nan (fm : fill_method) (xs : list float) :
  Forall (λ x, is_nan x = false) xs →
  pct_change fm xs = zip_with (λ v prev, v / prev - 1)%float xs (shift1 xs).
Proof.
  intros Hxs. unfold pct_change, ffill.
  destruct fm; [by rewrite ffill_from_no_nan | done].
Qed.

Lemma shift1_lookup_0 (xs : list float) v : xs !! 0 = Some v → shift1 xs !! 0 = Some nan.
Proof. destruct xs; [done|]. done. Qed.

Lemma shift1_lookup_S (xs : list float) i :
  is_Some (xs !! S i) → shift1 xs !! S i = xs !! i.
Proof.
  intros Hi%lookup_lt_is_Some. unfold shift1.
  rewrite lookup_take_lt by done. done.
Qed.

(** Where the previous value is not zero the two formulas of the percent
    change agree in exact arithmetic. *)
Lemma pct_exact_spec (v prev : Q) :
  ¬ (prev == 0)%Q → (pct_exact v prev == pct_spec v prev)%Q.
Proof. intros Hprev. unfold pct_exact, pct_spec. by field. Qed.

(** ** Strings *)

Lemma string_app_length (s1 s2 : string) :
  String.length (s1 ++ s2)%string = String.length s1 + String.length s2.
Proof. induction s1 as [|c s1 IH]; simpl; [done | by rewrite IH]. Qed.

Lemma string_app_inv_tail (s1 s2 s : string) :
  (s1 ++ s)%string = (s2 ++ s)%string → s1 = s2.
Proof.
  revert s2. induction s1 as [|c s1 IH]; intros [|c' s2] Heq.
  - done.
  - apply (f_equal String.length) in Heq.
    rewrite !string_app_length in Heq. simpl in Heq. lia.
  - apply (f_equal String.length) in Heq.
    rewrite !string_app_length in Heq. simpl in Heq. lia.
  - simpl in Heq. injection Heq as -> Heq. f_equal. by apply IH.
Qed.

(** ** Enrichment on values *)

Lemma dict_get_app {V} (d1 d2 : dict V) k :
  dict_get (d1 ++ d2) k
  = match dict_get d1 k with Some v => Some v | None => dict_get d2 k end.
Proof.
  induction d1 as [|[k' v] d1 IH]; simpl; [done|].
  by destruct (decide (k' = k)).
Qed.

Lemma dict_keys_app {V} (d1 d2 : dict V) :
  dict_keys (d1 ++ d2) = dict_keys d1 ++ dict_keys d2.
Proof. unfold dict_keys. apply fmap_app. Qed.

Section EnrichValues.
Context `{Pandas}.

Lemma pct_columns_app (cs1 cs2 : DataFrame) :
  pct_columns (cs1 ++ cs2) = pct_columns cs1 ++ pct_columns cs2.
Proof. unfold pct_columns. apply flat_map_app. Qed.

Lemma pct_columns_keys (cs : DataFrame) (k : string) :
  k ∈ dict_keys (pct_columns cs) →
  ∃ name, name ∈ dict_keys cs ∧ k = (name ++ "_pct")%string.
Proof.
  unfold dict_keys. induction cs as [|[name c] cs IH].
  - by intros ?%elem_of_nil.
  - change ((name, c) :: cs) with ([(name, c)] ++ cs).
    rewrite pct_columns_app, fmap_app, elem_of_app. intros [Hk|Hk].
    + exists name. split; [apply list_elem_of_here|].
      unfold pct_columns in Hk. simpl in Hk.
      destruct (decide (name = "timestamp")); [by apply elem_of_nil in Hk|].
      destruct c; simpl in Hk; [by apply elem_of_nil in Hk|].
      by apply list_elem_of_singleton in Hk.
    + destruct (IH Hk) as (name' & Hin & ->).
      exists name'. split; [by apply list_elem_of_further | done].
Qed.

(** Without a clash of names the loop appends one column per column of
    prices and leaves the others as they are. *)
Lemma enrich_loop_append (n : nat) (df : DataFrame) :
  history_table n df → no_pct_clash df →
  enrich_loop df (dict_keys df) = Returns (df ++ pct_columns df).
Proof.
  intros (Hwf & _ & _ & Hnum) Hclash.
  assert (Hgen : ∀ rest done, df = done ++ rest →
            enrich_loop (df ++ pct_columns done) (dict_keys rest)
            = Returns (df ++ pct_columns df)).
  { induction rest as [|[name c] rest IH]; intros done Hdf.
    - rewrite app_nil_r in Hdf. by subst done.
    - assert (Hin : (name, c) ∈ df).
      { rewrite Hdf. apply elem_of_app. right. apply list_elem_of_here. }
      assert (Hnext : df = (done ++ [(name, c)]) ++ rest)
        by (by rewrite <- app_assoc).
      specialize (IH _ Hnext). rewrite pct_columns_app in IH.
      cbn [dict_keys fmap list_fmap fst enrich_loop]. unfold enrich_step.
      destruct (decide (name = "timestamp")) as [Hts|Hts].
      + cbn. unfold pct_columns at 2 in IH. cbn in IH.
        rewrite decide_True in IH by done. by rewrite app_nil_r in IH.
      + destruct (Hnum name c Hin Hts) as [xs ->].
        rewrite dict_get_app, (dict_get_elem df name _ Hwf Hin). cbn.
        rewrite dict_keys_set_new.
        * unfold pct_columns at 2 in IH. cbn in IH.
          rewrite decide_False in IH by done.
          by rewrite <- app_assoc.
        * rewrite dict_keys_app. apply not_elem_of_app. split.
          -- apply Hclash; [|done].
             apply list_elem_of_fmap. by exists (name, NumCol xs).
          -- intros (name' & Hin' & Heq%string_app_inv_tail)%pct_columns_keys.
             subst name'. unfold dict_wf in Hwf. rewrite Hdf in Hwf.
             rewrite dict_keys_app in Hwf. apply NoDup_app in Hwf as (_ & Hdisj & _).
             apply (Hdisj name Hin'). apply list_elem_of_here. }
  specialize (Hgen df [] eq_refl).
  change (pct_columns []) with ([] : DataFrame) in Hgen.
  by rewrite app_nil_r in Hgen.
Qed.

Lemma enrich_frame_append (n : nat) (df : DataFrame) :
  history_table n df → no_pct_clash df →
  enrich_frame df = Returns (frame_fillna 0 (df ++ pct_columns df)).
Proof.
  intros Hh Hc. unfold enrich_frame.
  by rewrite (enrich_loop_append n df Hh Hc).
Qed.
End EnrichValues.

(** ** Enrichment on the heap *)

Section EnrichHeap.
Context `{Pandas}.

Lemma enrich_body_run (l1 : nat) (h : heap) (r : DataFrame) (col : string) :
  enrich_body l1 col (<[l1 := r]> h)
  = match enrich_step r col with
    | Returns r' => (Returns tt, <[l1 := r']> h)
    | Raises e => (Raises e, <[l1 := r]> h)
    end.
Proof.
  unfold enrich_body, enrich_step.
  destruct (decide (col = "timestamp")); [done|].
  unfold bind, df_getitem, df_setitem, bind, load, store, lift.
  rewrite lookup_insert_eq.
  destruct (dict_get r col) as [[ts|xs]|]; cbn; [done| |done].
  by rewrite lookup_insert_eq, insert_insert_eq.
Qed.

Lemma enrich_loop_run (l1 : nat) (h : heap) (cols : list string) (r : DataFrame) :
  ∃ r', for_each cols (enrich_body l1) (<[l1 := r]> h)
        = (match enrich_loop r cols with
           | Returns _ => Returns tt
           | Raises e => Raises e
           end, <[l1 := r']> h)
        ∧ (∀ r'', enrich_loop r cols = Returns r'' → r' = r'').
Proof.
  revert r. induction cols as [|col cols IH]; intros r.
  - exists r. split; [done | by intros ? [= <-]].
  - cbn [for_each enrich_loop]. unfold bind at 1. rewrite enrich_body_run.
    destruct (enrich_step r col) as [r1|e]; cbn.
    + apply IH.
    + exists r. done.
Qed.

(** A run of [enrich_with_changes]: the copy and the result are two new
    objects, and nothing else is written. *)
Lemma enrich_with_changes_run (h : heap) (l : nat) (df : DataFrame) :
  h !! l = Some df →
  ∃ mid,
    let l1 := fresh (dom h) in
    let h1 := <[l1 := mid]> h in
    match enrich_loop df (dict_keys df) with
    | Returns m =>
        mid = m
        ∧ enrich_with_changes l h
          = (Returns (fresh (dom h1)),
             <[fresh (dom h1) := frame_fillna 0 mid]> h1)
    | Raises e => enrich_with_changes l h = (Raises e, h1)
    end.
Proof.
  intros Hl.
  assert (Hne : fresh (dom h) ≠ l).
  { intros Heq. apply (is_fresh (dom h)). rewrite Heq.
    apply elem_of_dom. eauto. }
  destruct (enrich_loop_run (fresh (dom h)) h (dict_keys df) df)
    as (mid & Hrun & Hmid).
  assert (Heq : enrich_with_changes l h
                = match for_each (dict_keys df) (enrich_body (fresh (dom h)))
                          (<[fresh (dom h) := df]> h) with
                  | (Returns _, h') => df_fillna (fresh (dom h)) 0 h'
                  | (Raises e, h') => (Raises e, h')
                  end).
  { unfold enrich_with_changes, bind, df_copy, bind, load, alloc.
    rewrite Hl. unfold df_columns, bind, load, ret.
    by rewrite lookup_insert_ne, Hl by done. }
  exists mid. cbn zeta. rewrite Heq, Hrun.
  destruct (enrich_loop df (dict_keys df)) as [m|e]; [|done].
  split; [by apply Hmid|].
  unfold df_fillna, bind, load, alloc. by rewrite lookup_insert_eq.
Qed.

Lemma enrich_with_changes_frame (h : heap) (l : nat) (df : DataFrame) :
  h !! l = Some df →
  ∀ l0, is_Some (h !! l0) → (enrich_with_changes l h).2 !! l0 = h !! l0.
Proof.
  intros Hl l0 Hl0.
  assert (Hne : fresh (dom h) ≠ l0).
  { intros Heq. apply (is_fresh (dom h)). rewrite Heq. by apply elem_of_dom. }
  destruct (enrich_with_changes_run h l df Hl) as (mid & Hrun). cbn zeta in Hrun.
  destruct (enrich_loop df (dict_keys df)) as [m|e].
  - destruct Hrun as [_ ->]. cbn.
    rewrite lookup_insert_ne, lookup_insert_ne; [done|done|].
    intros Heq. apply (is_fresh (dom (<[fresh (dom h) := mid]> h))).
    rewrite Heq, dom_insert_L. apply elem_of_union. right. by apply elem_of_dom.
  - rewrite Hrun. cbn. by rewrite lookup_insert_ne.
Qed.
End EnrichHeap.

(** ** Percent change against a zero or a missing value *)

Lemma Prim2SF_is_zero (x : float) :
  PrimFloat.is_zero x = true → ∃ s, Prim2SF x = S754_zero s.
Proof.
  unfold PrimFloat.is_zero. rewrite FloatAxioms.eqb_spec.
  change (Prim2SF 0) with (S754_zero false).
  destruct (Prim2SF x) as [s|s| |s m e]; cbn; try done; eauto.
  all: by destruct s.
Qed.

Lemma SFcompare_refl (x : spec_float) : x ≠ S754_nan → SFcompare x x = Some Eq.
Proof.
  destruct x as [s|s| |s m e]; intros Hx; [done|by destruct s|done|].
  cbn. destruct s; by rewrite Z.compare_refl, Pos.compare_cont_refl.
Qed.

Lemma is_nan_Prim2SF (x : float) : is_nan x = true → Prim2SF x = S754_nan.
Proof.
  unfold is_nan. rewrite FloatAxioms.eqb_spec. unfold SFeqb. intros Hn.
  destruct (Prim2SF x) as [s|s| |s m e] eqn:Ex; [|  |done|];
    by rewrite SFcompare_refl in Hn.
Qed.

Lemma Prim2SF_not_nan (x : float) : is_nan x = false → Prim2SF x ≠ S754_nan.
Proof.
  unfold is_nan. rewrite FloatAxioms.eqb_spec. intros Hn Heq.
  by rewrite Heq in Hn.
Qed.

Lemma Prim2SF_not_zero (x : float) (s : bool) :
  PrimFloat.is_zero x = false → Prim2SF x ≠ S754_zero s.
Proof.
  unfold PrimFloat.is_zero. rewrite FloatAxioms.eqb_spec. intros Hn Heq.
  rewrite Heq in Hn. by destruct s.
Qed.

(** A price that is not zero against a previous price of zero: the
    change is infinite, and the fill leaves it. *)
Lemma pct_value_zero_prev (v prev : float) :
  PrimFloat.is_zero prev = true → is_nan v = false →
  PrimFloat.is_zero v = false →
  pct_value v prev = infinity ∨ pct_value v prev = neg_infinity.
Proof.
  intros [sp Hp]%Prim2SF_is_zero Hnan%Prim2SF_not_nan Hz.
  assert (Hd : ∃ s, Prim2SF (v / prev) = S754_infinity s).
  { rewrite FloatAxioms.div_spec, Hp. unfold SF64div, SFdiv.
    destruct (Prim2SF v) as [s|s| |s m e] eqn:Ev; [|by eauto|done|by eauto].
    by apply Prim2SF_not_zero with (s:=s) in Hz. }
  destruct Hd as [s Hd].
  assert (Hs : Prim2SF (v / prev - 1) = S754_infinity s).
  { by rewrite FloatAxioms.sub_spec, Hd. }
  assert (Hm : Prim2SF ((v / prev - 1) * 100) = S754_infinity s).
  { rewrite FloatAxioms.mul_spec, Hs. vm_compute. by destruct s. }
  unfold pct_value.
  rewrite <- (SF2Prim_Prim2SF ((v / prev - 1) * 100)), Hm.
  destruct s; [by right | by left].
Qed.

(** Zero against zero: the change is undefined, and filled with zero. *)
Lemma pct_value_zero_zero (v prev : float) :
  PrimFloat.is_zero prev = true → PrimFloat.is_zero v = true →
  pct_value v prev = 0%float.
Proof.
  intros [sp Hp]%Prim2SF_is_zero [sv Hv]%Prim2SF_is_zero.
  assert (Hd : (v / prev)%float = nan).
  { rewrite <- (SF2Prim_Prim2SF (v / prev)), FloatAxioms.div_spec, Hp, Hv. done. }
  unfold pct_value. by rewrite Hd.
Qed.

(** ** Enrichment: the result *)

Section EnrichResult.
Context `{Pandas}.

Lemma pct_change_length (xs : list float) :
  length (pct_change default_fill xs) = length xs.
Proof.
  assert (Hff : ∀ last l, length (ffill_from last l) = length l).
  { intros last l. revert last. induction l as [|x l IH]; intros last; [done|].
    simpl. destruct (is_nan x); simpl; by rewrite IH. }
  assert (Hsh : ∀ l : list float, length (shift1 l) = length l).
  { intros l. unfold shift1. rewrite length_take. simpl. lia. }
  unfold pct_change. rewrite length_zip_with, Hsh.
  destruct default_fill; [unfold ffill; rewrite Hff|]; lia.
Qed.

Lemma pct_columns_names (n : nat) (df : DataFrame) :
  history_table n df →
  dict_keys (pct_columns df)
  = (λ c, c ++ "_pct")%string <$> filter (λ c, c ≠ "timestamp") (dict_keys df).
Proof.
  intros (_ & _ & _ & Hnum). unfold dict_keys.
  induction df as [|[name c] df IH]; [done|].
  change ((name, c) :: df) with ([(name, c)] ++ df) at 1.
  rewrite pct_columns_app, !fmap_app, IH.
  2:{ intros name' c' Hin. apply Hnum. by apply list_elem_of_further. }
  cbn [fmap list_fmap fst]. rewrite filter_cons.
  unfold pct_columns. cbn [flat_map fst snd].
  destruct (decide (name = "timestamp")) as [Hts|Hts].
  - by rewrite decide_False by (by intros ?).
  - rewrite decide_True by done.
    destruct (Hnum name c (list_elem_of_here _ _) Hts) as [xs ->]. done.
Qed.

Lemma pct_columns_get (cs : DataFrame) (name : string) (xs : list float) :
  dict_wf cs → dict_get cs name = Some (NumCol xs) → name ≠ "timestamp" →
  dict_get (pct_columns cs) (name ++ "_pct") = Some (pct_column xs).
Proof.
  unfold dict_wf, dict_keys. induction cs as [|[k c] cs IH]; [done|].
  rewrite fmap_cons. intros [Hk Hnd]%NoDup_cons Hget Hts.
  change ((k, c) :: cs) with ([(k, c)] ++ cs).
  rewrite pct_columns_app, dict_get_app.
  cbn [dict_get] in Hget. destruct (decide (k = name)) as [->|Hne].
  - injection Hget as ->. unfold pct_columns at 1. cbn [flat_map fst snd].
    rewrite decide_False by done. cbn. by rewrite decide_True.
  - assert (Hnone : dict_get (pct_columns [(k, c)]) (name ++ "_pct") = None).
    { unfold pct_columns. cbn [flat_map fst snd].
      destruct (decide (k = "timestamp")); [done|].
      destruct c; [done|]. cbn. rewrite decide_False; [done|].
      by intros ?%string_app_inv_tail. }
    rewrite Hnone. by apply IH.
Qed.

(** The table a run returns, for a history without a clash of names. *)
Lemma enrich_with_changes_result (h : heap) (l n : nat) (df : DataFrame) :
  h !! l = Some df → history_table n df → no_pct_clash df →
  ∃ l' h',
    enrich_with_changes l h = (Returns l', h')
    ∧ h !! l' = None
    ∧ h' !! l' = Some (frame_fillna 0 (df ++ pct_columns df)).
Proof.
  intros Hl Hh Hc.
  destruct (enrich_with_changes_run h l df Hl) as (mid & Hrun). cbn zeta in Hrun.
  rewrite (enrich_loop_append n df Hh Hc) in Hrun. destruct Hrun as [-> Hrun].
  eexists _, _. split; [exact Hrun|]. split; [|apply lookup_insert_eq].
  apply not_elem_of_dom. intros Hin.
  apply (is_fresh (dom (<[fresh (dom h) := df ++ pct_columns df]> h))).
  by apply dom_insert_subseteq.
Qed.

Lemma frame_fillna_get (df : DataFrame) (name : string) :
  dict_get (frame_fillna 0 df) name = column_fillna 0 <$> dict_get df name.
Proof. apply dict_get_fmap. Qed.

Lemma column_fillna_no_missing (df : DataFrame) (name : string) (c : column) :
  no_missing df → dict_get df name = Some c → column_fillna 0 c = c.
Proof.
  intros Hnm Hget%dict_get_Some_elem. destruct c as [ts|xs]; [done|].
  simpl. f_equal. specialize (Hnm name xs Hget). clear Hget.
  induction Hnm as [|x xs Hx _ IH]; [done|].
  by rewrite fmap_cons, IH, fillna_float_id.
Qed.

Lemma pct_column_values (xs : list float) :
  Forall (λ x, is_nan x = false) xs →
  ∃ ps, column_fillna 0 (pct_column xs) = NumCol ps
        ∧ length ps = length xs
        ∧ (∀ v, xs !! 0 = Some v → ps !! 0 = Some 0%float)
        ∧ (∀ i prev v, xs !! i = Some prev → xs !! S i = Some v →
                       ps !! S i = Some (pct_value v prev)).
Proof.
  intros Hxs.
  exists (fillna_float 0 <$> ((λ x, x * 100)%float <$> pct_change default_fill xs)).
  split; [reflexivity|].
  split; [by rewrite !length_fmap, pct_change_length|].
  rewrite (pct_change_no_nan _ xs Hxs). split.
  - intros v Hv. rewrite !list_lookup_fmap, lookup_zip_with, Hv.
    rewrite (shift1_lookup_0 xs v Hv). cbn.
    f_equal. apply pct_value_nan_prev.
  - intros i prev v Hprev Hv.
    rewrite !list_lookup_fmap, lookup_zip_with, Hv.
    rewrite shift1_lookup_S by eauto. rewrite Hprev. done.
Qed.
End EnrichResult.

Section EnrichTheorems.
Context `{Pandas}.

Lemma pct_columns_wf (n : nat) (df : DataFrame) :
  wf_frame n df → wf_frame n (pct_columns df).
Proof.
  unfold wf_frame. induction 1 as [|[name c] df Hc _ IH]; [constructor|].
  change ((name, c) :: df) with ([(name, c)] ++ df).
  rewrite pct_columns_app. apply Forall_app. split; [|done].
  unfold pct_columns. cbn [flat_map fst snd].
  destruct (decide (name = "timestamp")); [constructor|].
  destruct c as [ts|xs]; [constructor|].
  cbn. constructor; [|constructor]. cbn in *.
  unfold series_mul. by rewrite length_fmap, pct_change_length.
Qed.

Lemma frame_fillna_wf (n : nat) (df : DataFrame) :
  wf_frame n df → wf_frame n (frame_fillna 0 df).
Proof.
  unfold wf_frame, frame_fillna. intros Hwf. apply Forall_fmap.
  eapply Forall_impl; [exact Hwf|]. intros [name c] Hc.
  destruct c; cbn in *; [done | by rewrite length_fmap].
Qed.

(** C1, as the code has it: for a history table of [n] rows with no
    missing value and no column named as the percent change of another,
    [enrich_with_changes] returns a new table of [n] rows with the
    columns of the input, unchanged, followed by one [<col>_pct] column
    per column other than [timestamp].  The value of that column is 0 at
    row 0 and, at row [i+1], the percent change [(v / prev - 1) * 100] of
    the value against the previous one, replaced by 0 when it is NaN; a
    value that is not zero against a previous value of zero gives an
    infinite change, which is kept. *)
Theorem enrich_with_changes_pct (h : heap) (l n : nat) (df : DataFrame) :
  h !! l = Some df → history_table n df → no_missing df → no_pct_clash df →
  ∃ l' out,
    (enrich_with_changes l h).1 = Returns l'
    ∧ (enrich_with_changes l h).2 !! l' = Some out
    ∧ wf_frame n out
    ∧ dict_keys out
      = dict_keys df
        ++ ((λ c, c ++ "_pct")%string
              <$> filter (λ c, c ≠ "timestamp") (dict_keys df))
    ∧ (∀ name c, dict_get df name = Some c → dict_get out name = Some c)
    ∧ (∀ name xs,
         name ≠ "timestamp" → dict_get df name = Some (NumCol xs) →
         ∃ ps, dict_get out (name ++ "_pct") = Some (NumCol ps)
               ∧ length ps = n
               ∧ (∀ v, xs !! 0 = Some v → ps !! 0 = Some 0%float)
               ∧ (∀ i prev v,
                    xs !! i = Some prev → xs !! S i = Some v →
                    ps !! S i = Some (pct_value v prev)))
    ∧ (∀ v prev,
         pct_value v prev
         = if is_nan ((v / prev - 1) * 100) then 0%float
           else ((v / prev - 1) * 100)%float)
    ∧ (∀ v prev,
         PrimFloat.is_zero prev = true → is_nan v = false →
         PrimFloat.is_zero v = false →
         pct_value v prev = infinity ∨ pct_value v prev = neg_infinity).
Proof.
  intros Hl Hh Hnm Hc.
  destruct (enrich_with_changes_result h l n df Hl Hh Hc)
    as (l' & h' & Hrun & _ & Hout).
  pose proof Hh as (Hwf & Hn & _ & _).
  exists l', (frame_fillna 0 (df ++ pct_columns df)). rewrite Hrun. cbn [fst snd].
  split; [done|]. split; [done|].
  split.
  { apply frame_fillna_wf. apply Forall_app. split; [done|].
    by apply pct_columns_wf. }
  split.
  { unfold frame_fillna. rewrite dict_keys_fmap, dict_keys_app.
    by rewrite (pct_columns_names n df Hh). }
  split.
  { intros name c Hget. rewrite frame_fillna_get, dict_get_app, Hget. cbn.
    by rewrite (column_fillna_no_missing df name c Hnm Hget). }
  split; [|split; [done | apply pct_value_zero_prev]].
  intros name xs Hts Hget.
  assert (Hxs : Forall (λ x, is_nan x = false) xs).
  { apply (Hnm name xs). by apply (dict_get_Some_elem df). }
  destruct (pct_column_values xs Hxs) as (ps & Hps & Hlen & H0 & HS).
  exists ps. split; [|split; [|done]].
  - rewrite frame_fillna_get, dict_get_app.
    assert (Hnone : dict_get df (name ++ "_pct") = None).
    { apply dict_get_None. apply Hc; [|done].
      apply list_elem_of_fmap. exists (name, NumCol xs).
      split; [done | by apply dict_get_Some_elem]. }
    rewrite Hnone, (pct_columns_get df name xs Hwf Hget Hts). cbn.
    by rewrite <- Hps.
  - rewrite Hlen. apply (wf_frame_lookup n df name _ Hn Hget).
Qed.

(** C10, as the code has it: [enrich_with_changes] writes to no table of
    the heap, so its input is not mutated, whatever the outcome.  For a
    history table with no column named as the percent change of another
    it returns a new table in which every original column is the input
    column after the zero fill: the column itself when the table has no
    missing value. *)
Theorem enrich_with_changes_preserves (h : heap) (l : nat) (df : DataFrame) :
  h !! l = Some df →
  (∀ l0, is_Some (h !! l0) → (enrich_with_changes l h).2 !! l0 = h !! l0)
  ∧ (∀ n, history_table n df → no_pct_clash df →
       ∃ l' out,
         (enrich_with_changes l h).1 = Returns l'
         ∧ h !! l' = None
         ∧ (enrich_with_changes l h).2 !! l' = Some out
         ∧ (∀ name c, dict_get df name = Some c →
                      dict_get out name = Some (column_fillna 0 c))
         ∧ (no_missing df →
            ∀ name c, dict_get df name = Some c → dict_get out name = Some c)).
Proof.
  intros Hl. split; [by apply (enrich_with_changes_frame h l df)|].
  intros n Hh Hc.
  destruct (enrich_with_changes_result h l n df Hl Hh Hc)
    as (l' & h' & Hrun & Hfresh & Hout).
  exists l', (frame_fillna 0 (df ++ pct_columns df)). rewrite Hrun. cbn [fst snd].
  split; [done|]. split; [done|]. split; [done|].
  assert (Hfill : ∀ name c, dict_get df name = Some c →
            dict_get (frame_fillna 0 (df ++ pct_columns df)) name
            = Some (column_fillna 0 c)).
  { intros name c Hget. by rewrite frame_fillna_get, dict_get_app, Hget. }
  split; [done|].
  intros Hnm name c Hget. rewrite (Hfill name c Hget).
  by rewrite (column_fillna_no_missing df name c Hnm Hget).
Qed.
End EnrichTheorems.

(** ** Enrichment: concrete tables *)

Ltac elem_cases H :=
  repeat (apply elem_of_cons in H as [H|H]; [simplify_eq|]);
  try (by apply elem_of_nil in H).

Ltac solve_history_table :=
  split; [by compute_done|];
  split; [by repeat constructor|];
  split; [by eexists|];
  let name := fresh "name" in let c := fresh "c" in
  let Hin := fresh "Hin" in let Hts := fresh "Hts" in
  intros name c Hin Hts; elem_cases Hin; by eauto.

Ltac solve_no_missing :=
  let name := fresh "name" in let xs := fresh "xs" in let Hin := fresh "Hin" in
  intros name xs Hin; elem_cases Hin; by repeat constructor.

Ltac solve_no_pct_clash :=
  let name := fresh "name" in let Hin := fresh "Hin" in let Hts := fresh "Hts" in
  intros name Hin Hts; cbn in Hin; elem_cases Hin; by compute_done.

Lemma zero_start_table_history : history_table 3 zero_start_table.
Proof. solve_history_table. Qed.

Lemma zero_start_table_no_missing : no_missing zero_start_table.
Proof. solve_no_missing. Qed.

Lemma zero_start_table_no_clash : no_pct_clash zero_start_table.
Proof. solve_no_pct_clash. Qed.

Lemma clash_table_history : history_table 2 clash_table.
Proof. solve_history_table. Qed.

Lemma clash_table_no_missing : no_missing clash_table.
Proof. solve_no_missing. Qed.

Lemma float_infinity_not_zero : infinity ≠ 0%float.
Proof. intros Heq. apply (f_equal is_infinity) in Heq. by vm_compute in Heq. Qed.

(** The claim C1 fails where a price follows a price of exactly zero: the
    table is a sorted history with no missing value, and the percent
    change at row 1 is infinite under either default of [pct_change],
    where the claim has 0. *)
Lemma enrich_zero_previous_counterexample :
  history_table 3 zero_start_table
  ∧ no_missing zero_start_table
  ∧ dict_get zero_start_table "BTC" = Some (NumCol [0; 1; 2]%float)
  ∧ (∀ P, P ∈ [pandas2; pandas3] →
       ∃ out ps,
         (@enrich_with_changes P 0 {[0 := zero_start_table]}).1 = Returns 2
         ∧ (@enrich_with_changes P 0 {[0 := zero_start_table]}).2 !! 2 = Some out
         ∧ dict_get out "BTC_pct" = Some (NumCol ps)
         ∧ ps !! 1 = Some infinity
         ∧ ps !! 1 ≠ Some 0%float).
Proof.
  split; [apply zero_start_table_history|].
  split; [apply zero_start_table_no_missing|].
  split; [reflexivity|].
  intros P HP.
  exists [("timestamp", TimeCol [0; 60; 120]%Z);
          ("BTC", NumCol [0; 1; 2]%float);
          ("BTC_pct", NumCol [0; infinity; 100]%float)],
         [0; infinity; 100]%float.
  assert (Hne : [0; infinity; 100]%float !! 1 ≠ Some 0%float).
  { intros [= Heq]; by apply float_infinity_not_zero. }
  elem_cases HP; (split; [by vm_compute|]); (split; [by vm_compute|]); done.
Qed.

(** The claim C10 fails where an asset is named as the percent change of
    another: the table has no missing value, and its column [BTC_pct]
    comes out overwritten under either default of [pct_change]. *)
Lemma enrich_name_clash_counterexample :
  history_table 2 clash_table
  ∧ no_missing clash_table
  ∧ dict_get clash_table "BTC_pct" = Some (NumCol [5; 5]%float)
  ∧ (∀ P, P ∈ [pandas2; pandas3] →
       ∃ out,
         (@enrich_with_changes P 0 {[0 := clash_table]}).1 = Returns 2
         ∧ (@enrich_with_changes P 0 {[0 := clash_table]}).2 !! 2 = Some out
         ∧ dict_get out "BTC_pct" = Some (NumCol [0; 100]%float)
         ∧ dict_get out "BTC_pct" ≠ dict_get clash_table "BTC_pct").
Proof.
  split; [apply clash_table_history|].
  split; [apply clash_table_no_missing|].
  split; [reflexivity|].
  intros P HP.
  exists [("timestamp", TimeCol [0; 60]%Z);
          ("BTC", NumCol [1; 2]%float);
          ("BTC_pct", NumCol [0; 100]%float);
          ("BTC_pct_pct", NumCol [0; 0]%float)].
  assert (Hne : Some (NumCol [0; 100]%float) ≠ Some (NumCol [5; 5]%float)).
  { intros [= Heq _]; apply (f_equal PrimFloat.is_zero) in Heq;
      by vm_compute in Heq. }
  elem_cases HP; (split; [by vm_compute|]); (split; [by vm_compute|]); done.
Qed.

(** With a missing price the original column is not preserved: the fill
    applies to every column. *)
Example enrich_gap_table :
  ∀ P, P ∈ [pandas2; pandas3] →
    (@enrich_with_changes P 0 {[0 := gap_table]}).2 !! 2
    = Some [("timestamp", TimeCol [0; 60]%Z);
            ("BTC", NumCol [1; 0]%float);
            ("BTC_pct", NumCol [0; 0]%float)].
Proof. intros P HP. elem_cases HP; by vm_compute. Qed.

Lemma zero_start_heap_lookup :
  ({[0 := zero_start_table]} : heap) !! 0 = Some zero_start_table.
Proof. apply lookup_singleton_eq. Qed.

Lemma enrich_with_changes_pct_witness :
  ({[0 := zero_start_table]} : heap) !! 0 = Some zero_start_table
  ∧ history_table 3 zero_start_table
  ∧ no_missing zero_start_table
  ∧ no_pct_clash zero_start_table
  ∧ ∃ l' out,
      (@enrich_with_changes pandas2 0 {[0 := zero_start_table]}).1 = Returns l'
      ∧ (@enrich_with_changes pandas2 0 {[0 := zero_start_table]}).2 !! l' = Some out
      ∧ wf_frame 3 out.
Proof.
  split; [reflexivity|].
  split; [apply zero_start_table_history|].
  split; [apply zero_start_table_no_missing|].
  split; [apply zero_start_table_no_clash|].
  destruct (@enrich_with_changes_pct pandas2 {[0 := zero_start_table]} 0 3
              zero_start_table zero_start_heap_lookup zero_start_table_history
              zero_start_table_no_missing zero_start_table_no_clash)
    as (l' & out & H1 & H2 & H3 & _).
  by exists l', out.
Defined.

Lemma enrich_with_changes_preserves_witness :
  ({[0 := zero_start_table]} : heap) !! 0 = Some zero_start_table
  ∧ history_table 3 zero_start_table
  ∧ no_pct_clash zero_start_table
  ∧ no_missing zero_start_table
  ∧ (@enrich_with_changes pandas2 0 {[0 := zero_start_table]}).2 !! 0
    = Some zero_start_table
  ∧ ∃ l' out,
      (@enrich_with_changes pandas2 0 {[0 := zero_start_table]}).2 !! l' = Some out
      ∧ dict_get out "BTC" = Some (NumCol [0; 1; 2]%float).
Proof.
  split; [reflexivity|].
  split; [apply zero_start_table_history|].
  split; [apply zero_start_table_no_clash|].
  split; [apply zero_start_table_no_missing|].
  destruct (@enrich_with_changes_preserves pandas2 {[0 := zero_start_table]} 0
              zero_start_table zero_start_heap_lookup) as (Hframe & Hout).
  split; [rewrite Hframe; [apply zero_start_heap_lookup | by eexists]|].
  destruct (Hout 3 zero_start_table_history zero_start_table_no_clash)
    as (l' & out & _ & _ & Hl' & _ & Hsame).
  exists l', out. split; [done|].
  by apply (Hsame zero_start_table_no_missing).
Defined.

(** ** Dashboard renderer *)

Lemma bind_Returns {St A B} (c : M St A) (k : A → M St B) s a s' :
  c s = (Returns a, s') → bind c k s = k a s'.
Proof. intros Hc. unfold bind. by rewrite Hc. Qed.

Lemma with_traces_nil (fig : figure) : with_traces fig [] = fig.
Proof. destruct fig. unfold with_traces. cbn. by rewrite app_nil_r. Qed.

Lemma with_traces_app (fig : figure) (ts1 ts2 : list trace) :
  with_traces (with_traces fig ts1) ts2 = with_traces fig (ts1 ++ ts2).
Proof. unfold with_traces. cbn. by rewrite app_assoc. Qed.

Lemma not_timestamp_pct (col : string) : (col ++ "_pct")%string ≠ "timestamp".
Proof.
  intros Heq.
  assert (Hlen : String.length col = 5).
  { apply (f_equal String.length) in Heq. rewrite string_app_length in Heq.
    cbn in Heq. lia. }
  do 5 (destruct col as [|? col]; [done|]).
  destruct col; [|done]. cbn in Heq. simplify_eq.
Qed.

Lemma endswith_timestamp : endswith "timestamp" "_pct" = false.
Proof. reflexivity. Qed.

Lemma is_asset_column_not_timestamp (col : string) :
  is_asset_column col = true → col ≠ "timestamp".
Proof. intros Hc ->. done. Qed.

Lemma rolling_mean_single (w : nat) (v : float) :
  rolling_mean w [v]
  = [if Nat.eqb w 1 then (if is_finite v then (0 + v) / 1 else nan)%float else nan].
Proof.
  unfold rolling_mean, rolling_values, is_finite. cbn [imap fmap list_fmap].
  destruct w as [|[|w]]; [done| |done].
  cbn -[is_infinity is_nan].
  destruct (is_infinity v); [by rewrite orb_true_r|].
  rewrite !orb_false_r. by destruct (is_nan v).
Qed.

(** *** A quotient of finite numbers is a number *)

Lemma iter_pos_invariant {A} (P : A → Prop) (f : A → A) (p : positive) (x : A) :
  (∀ y, P y → P (f y)) → P x → P (SpecFloat.iter_pos f p x).
Proof.
  intros Hf. revert x. induction p as [p IH|p IH|]; intros x Hx; cbn; auto.
Qed.

Lemma shr_1_nonneg (mrs : SpecFloat.shr_record) :
  (0 ≤ SpecFloat.shr_m mrs)%Z → (0 ≤ SpecFloat.shr_m (SpecFloat.shr_1 mrs))%Z.
Proof.
  destruct mrs as [m r s]. cbn.
  destruct m as [|[p|p|]|[p|p|]]; cbn; lia.
Qed.

Lemma shr_fexp_nonneg (prec emax m e : Z) (l : SpecFloat.location) :
  (0 ≤ m)%Z → (0 ≤ SpecFloat.shr_m (SpecFloat.shr_fexp prec emax m e l).1)%Z.
Proof.
  intros Hm. unfold SpecFloat.shr_fexp, SpecFloat.shr.
  assert (H0 : (0 ≤ SpecFloat.shr_m (SpecFloat.shr_record_of_loc m l))%Z).
  { by destruct l as [|[]]. }
  destruct (_ - e)%Z; cbn [fst]; [done| |done].
  apply (iter_pos_invariant (λ mrs, (0 ≤ SpecFloat.shr_m mrs)%Z));
    [apply shr_1_nonneg | done].
Qed.

Lemma binary_round_aux_not_nan (prec emax : Z) (sx : bool) (mx ex : Z)
    (lx : SpecFloat.location) :
  (0 ≤ mx)%Z → SpecFloat.binary_round_aux prec emax sx mx ex lx ≠ S754_nan.
Proof.
  intros Hm. unfold SpecFloat.binary_round_aux.
  pose proof (shr_fexp_nonneg prec emax mx ex lx Hm) as H1.
  destruct (SpecFloat.shr_fexp prec emax mx ex lx) as [mrs' e']. cbn [fst] in H1.
  assert (H2 : (0 ≤ SpecFloat.round_nearest_even (SpecFloat.shr_m mrs')
                      (SpecFloat.loc_of_shr_record mrs'))%Z).
  { unfold SpecFloat.round_nearest_even.
    destruct (SpecFloat.loc_of_shr_record mrs') as [|[]]; [done| |done|lia].
    destruct (Z.even _); lia. }
  pose proof (shr_fexp_nonneg prec emax _ e' SpecFloat.loc_Exact H2) as H3.
  destruct (SpecFloat.shr_fexp prec emax _ e' SpecFloat.loc_Exact) as [mrs'' e''].
  cbn [fst] in H3.
  destruct (SpecFloat.shr_m mrs'') as [|m|m]; [done| |lia].
  by destruct (_ <=? _)%Z.
Qed.

Lemma SFdiv_finite_not_nan (prec emax : Z) (sx sy : bool) (mx my : positive)
    (ex ey : Z) :
  SpecFloat.SFdiv prec emax (S754_finite sx mx ex) (S754_finite sy my ey)
  ≠ S754_nan.
Proof.
  cbn [SpecFloat.SFdiv]. unfold SpecFloat.SFdiv_core_binary. cbn zeta.
  set (m' := match (ex - ey - _)%Z with
             | Z0 => Z.pos mx
             | Z.pos _ => Z.shiftl (Z.pos mx) _
             | Z.neg _ => 0%Z
             end).
  assert (Hm' : (0 ≤ m')%Z).
  { subst m'. destruct (ex - ey - _)%Z; [lia| |lia]. by apply Z.shiftl_nonneg. }
  pose proof (Z.div_pos m' (Z.pos my) Hm' eq_refl) as Hq.
  unfold Z.div in Hq. destruct (Z.div_eucl m' (Z.pos my)) as [q r].
  by apply binary_round_aux_not_nan.
Qed.

Lemma not_nan_Prim2SF (x : float) : Prim2SF x ≠ S754_nan → is_nan x = false.
Proof.
  intros Hx. destruct (is_nan x) eqn:E; [|done].
  by apply is_nan_Prim2SF in E.
Qed.

Lemma is_finite_Prim2SF (x : float) :
  is_finite x = true →
  (∃ s, Prim2SF x = S754_zero s) ∨ (∃ s m e, Prim2SF x = S754_finite s m e).
Proof.
  unfold is_finite, is_nan, is_infinity.
  rewrite !FloatAxioms.eqb_spec, FloatAxioms.abs_spec.
  destruct (Prim2SF x) as [s|s| |s m e]; [eauto| | |eauto].
  - by destruct s.
  - done.
Qed.

(** The mean of one finite value is a number. *)
Lemma mean_one_defined (v : float) :
  is_finite v = true → is_nan ((0 + v) / 1)%float = false.
Proof.
  intros Hv. apply not_nan_Prim2SF.
  rewrite FloatAxioms.div_spec, FloatAxioms.add_spec.
  change (Prim2SF 0) with (S754_zero false).
  change (Prim2SF 1) with (S754_finite false 4503599627370496 (-52)).
  destruct (is_finite_Prim2SF v Hv) as [[s ->]|(s & m & e & ->)].
  - by destruct s.
  - cbn [SpecFloat.SFadd SF64add]. apply SFdiv_finite_not_nan.
Qed.

Section DashboardProps.
Context `{Formats}.

Lemma frame_col_run {St} (df : DataFrame) (col : string) (c : column) (s : St) :
  dict_get df col = Some c → frame_col df col s = (Returns c, s).
Proof. intros Hc. unfold frame_col. by rewrite Hc. Qed.

Lemma for_each_ma (df : DataFrame) (x : column) (y : list float)
    (col : string) (ws : list nat) (fig : figure) :
  dict_get df "timestamp" = Some x →
  for_each ws (λ w, bind (frame_col df "timestamp")
                      (λ x, add_trace (ma_trace x y col w))) fig
  = (Returns tt, with_traces fig (ma_trace x y col <$> ws)).
Proof.
  intros Hx. revert fig. induction ws as [|w ws IH]; intros fig.
  - by rewrite with_traces_nil.
  - cbn [for_each]. unfold bind at 1.
    rewrite (bind_Returns _ _ _ _ _ (frame_col_run df _ x fig Hx)).
    unfold add_trace at 1. rewrite IH, with_traces_app. done.
Qed.

Lemma add_asset_traces_run (n : nat) (df : DataFrame)
    (colors : dict (option string)) (ws : list nat) (x : column)
    (name : string) (c : column) (fig : figure) :
  history_table n df → dict_get df "timestamp" = Some x → (name, c) ∈ df →
  add_asset_traces df colors ws name fig
  = (Returns tt, with_traces fig (asset_traces df colors ws x (name, c))).
Proof.
  intros (Hwf & _ & _ & Hnum) Hx Hin.
  unfold add_asset_traces, asset_traces. cbn [fst snd].
  destruct (is_asset_column name) eqn:Hasset; cbn [negb].
  - destruct (Hnum name c Hin (is_asset_column_not_timestamp _ Hasset)) as [y ->].
    rewrite (bind_Returns _ _ _ _ _ (frame_col_run df _ x fig Hx)).
    rewrite (bind_Returns _ _ _ _ _
               (frame_col_run df _ _ fig (dict_get_elem df name _ Hwf Hin))).
    unfold numeric, bind at 1, ret. unfold bind at 1, add_trace at 1.
    rewrite (for_each_ma df x y name ws _ Hx), with_traces_app. done.
  - by rewrite with_traces_nil.
Qed.

Lemma asset_loop_run (n : nat) (df : DataFrame)
    (colors : dict (option string)) (ws : list nat) (x : column)
    (cs : DataFrame) (fig : figure) :
  history_table n df → dict_get df "timestamp" = Some x → cs ⊆ df →
  for_each (dict_keys cs) (add_asset_traces df colors ws) fig
  = (Returns tt, with_traces fig (flat_map (asset_traces df colors ws x) cs)).
Proof.
  intros Hh Hx. revert fig. induction cs as [|[name c] cs IH]; intros fig Hsub.
  - by rewrite with_traces_nil.
  - cbn [dict_keys fmap list_fmap fst for_each flat_map].
    rewrite (bind_Returns _ _ _ _ _
               (add_asset_traces_run n df colors ws x name c fig Hh Hx
                  (Hsub _ (list_elem_of_here _ _)))).
    fold (dict_keys cs). rewrite IH, with_traces_app; [done|].
    intros nc Hnc. apply Hsub. by apply list_elem_of_further.
Qed.

Lemma numeric_columns_run {St} (n : nat) (df : DataFrame) (cols : list string)
    (s : St) :
  history_table n df →
  Forall (λ c, c ∈ dict_keys df ∧ c ≠ "timestamp") cols →
  ∃ l, numeric_columns df cols s = (Returns l, s).
Proof.
  intros (Hwf & _ & _ & Hnum). induction 1 as [|col cols [Hin Hts] _ [l IH]].
  - by eexists.
  - apply list_elem_of_fmap in Hin as ([name c] & -> & Hin). cbn in Hts.
    destruct (Hnum name c Hin Hts) as [xs ->].
    eexists. cbn [numeric_columns fst].
    rewrite (bind_Returns _ _ _ _ _
               (frame_col_run df _ _ s (dict_get_elem df name _ Hwf Hin))).
    unfold numeric, bind at 1, ret. unfold bind at 1. rewrite IH. done.
Qed.

Lemma add_change_bar_run (n : nat) (df : DataFrame) (x : column) (fig : figure) :
  history_table n df → dict_get df "timestamp" = Some x →
  ∃ ts, add_change_bar df fig = (Returns tt, with_traces fig ts)
        ∧ filter is_ma_trace ts = [].
Proof.
  intros Hh Hx. unfold add_change_bar.
  destruct (filter (λ c, endswith c "_pct" = true) (dict_keys df))
    as [|col cols] eqn:Hvol.
  - exists []. by rewrite with_traces_nil.
  - destruct (numeric_columns_run n df (col :: cols) fig Hh) as [l Hl].
    { rewrite <- Hvol. apply Forall_forall. intros c [Hc Hin]%list_elem_of_filter.
      split; [done|]. intros ->. done. }
    rewrite (bind_Returns _ _ _ _ _ Hl).
    rewrite (bind_Returns _ _ _ _ _ (frame_col_run df _ x fig Hx)).
    eexists. split; [reflexivity|]. done.
Qed.

Lemma last_value_run {St} (n : nat) (df : DataFrame) (col : string) (s : St) :
  history_table (S n) df → col ∈ dict_keys df → col ≠ "timestamp" →
  ∃ v, last_value df col s = (Returns v, s).
Proof.
  intros (Hwf & Hn & _ & Hnum) Hin Hts.
  apply list_elem_of_fmap in Hin as ([name c] & -> & Hin). cbn in Hts.
  destruct (Hnum name c Hin Hts) as [xs ->].
  pose proof (dict_get_elem df name _ Hwf Hin) as Hget.
  pose proof (wf_frame_lookup _ _ _ _ Hn Hget) as Hlen. cbn in Hlen.
  unfold last_value. cbn [fst].
  rewrite (bind_Returns _ _ _ _ _ (frame_col_run df _ _ s Hget)).
  unfold numeric, bind, ret.
  destruct (last xs) as [v|] eqn:Hlast; [by eexists|].
  apply last_None in Hlast. by subst xs.
Qed.

Lemma latest_lines_run {St} (n : nat) (df : DataFrame) (cols : list string)
    (s : St) :
  history_table (S n) df → cols ⊆ dict_keys df →
  ∃ lines, latest_lines df cols s = (Returns lines, s).
Proof.
  intros Hh. induction cols as [|col cols IH]; intros Hsub; [by eexists|].
  destruct IH as [rest Hrest].
  { intros c Hc. apply Hsub. by apply list_elem_of_further. }
  cbn [latest_lines].
  destruct (is_asset_column col) eqn:Hasset; cbn [negb]; [|by eexists].
  destruct (last_value_run n df col s Hh) as [price Hprice].
  { apply Hsub, list_elem_of_here. }
  { by apply is_asset_column_not_timestamp. }
  assert (Hpct : ∃ pct,
            match dict_get df (col ++ "_pct") with
            | Some _ => last_value df (col ++ "_pct")
            | None => ret 0%float
            end s = (Returns pct, s)).
  { destruct (dict_get df (col ++ "_pct")) as [c|] eqn:Hc; [|by eexists].
    apply (last_value_run n df _ s Hh); [|apply not_timestamp_pct].
    destruct (dict_get_None df (col ++ "_pct")) as [_ Hnone].
    destruct (decide ((col ++ "_pct")%string ∈ dict_keys df)) as [|Hout]; [done|].
    rewrite (Hnone Hout) in Hc. done. }
  destruct Hpct as [pct Hpct].
  eexists. unfold latest_line, bind. cbn beta.
  rewrite Hprice, Hpct. unfold ret. rewrite Hrest. reflexivity.
Qed.
End DashboardProps.

Section DashboardTheorems.
Context `{Formats}.

(** On a history table with at least one row the renderer returns: its
    figure holds the traces of the asset columns, then at most the bar
    of the mean change. *)
Lemma build_dashboard_run (n : nat) (df : DataFrame) (cfg : config) :
  history_table (S n) df →
  ∃ tbl bar x,
    dict_get df "timestamp" = Some x
    ∧ build_dashboard df cfg make_subplots
      = (Returns tbl,
         {| fig_traces :=
              flat_map (asset_traces df (color_map (cfg_assets cfg))
                          (windows_of cfg) x) df ++ bar;
            fig_bg := Some (default "#0f1220" (theme_bg (cfg_chart cfg)));
            fig_fg := Some (default "#e8ecf5" (theme_fg (cfg_chart cfg))) |})
    ∧ filter is_ma_trace bar = [].
Proof.
  intros Hh. pose proof Hh as (Hwf & Hn & [ts Hts] & Hnum).
  assert (Hrows : nrows df = S n).
  { apply nrows_wf; [done|]. by intros ->. }
  destruct (add_change_bar_run (S n) df (TimeCol ts)
              (with_traces make_subplots
                 (flat_map (asset_traces df (color_map (cfg_assets cfg))
                              (windows_of cfg) (TimeCol ts)) df)) Hh Hts)
    as (bar & Hbar & Hnot).
  destruct (latest_lines_run n df (dict_keys df)
              {| fig_traces :=
                   flat_map (asset_traces df (color_map (cfg_assets cfg))
                               (windows_of cfg) (TimeCol ts)) df ++ bar;
                 fig_bg := Some (default "#0f1220" (theme_bg (cfg_chart cfg)));
                 fig_fg := Some (default "#e8ecf5" (theme_fg (cfg_chart cfg))) |}
              Hh) as [lines Hlines]; [done|].
  eexists _, bar, (TimeCol ts). split; [done|]. split; [|done].
  unfold build_dashboard. cbn zeta. fold (windows_of cfg).
  rewrite (bind_Returns _ _ _ _ _
             (asset_loop_run (S n) df _ (windows_of cfg) (TimeCol ts) df
                make_subplots Hh Hts (λ _ Hx, Hx))).
  rewrite (bind_Returns _ _ _ _ _ Hbar).
  unfold bind at 1, update_layout at 1. rewrite Hrows. cbn [Nat.eqb].
  unfold bind at 1, ret at 1. cbn [with_traces fig_traces make_subplots app].
  rewrite (bind_Returns _ _ _ _ _ Hlines). reflexivity.
Qed.

Lemma elem_of_ma_traces (df : DataFrame) (colors : dict (option string))
    (ws : list nat) (x : column) (t : trace) :
  t ∈ filter is_ma_trace (flat_map (asset_traces df colors ws x) df) ↔
  ∃ col y w, (col, NumCol y) ∈ df ∧ is_asset_column col = true ∧ w ∈ ws
             ∧ t = ma_trace x y col w.
Proof.
  rewrite list_elem_of_filter, list_elem_of_In, in_flat_map. split.
  - intros (Hma & [col c] & Hin%list_elem_of_In & Ht%list_elem_of_In).
    unfold asset_traces in Ht. cbn [fst snd] in Ht.
    destruct (is_asset_column col) eqn:Hasset; cbn [negb] in Ht;
      [|by apply elem_of_nil in Ht].
    destruct c as [ts|y]; [by apply elem_of_nil in Ht|].
    apply elem_of_cons in Ht as [->|Ht]; [done|].
    apply list_elem_of_fmap in Ht as (w & -> & Hw).
    by exists col, y, w.
  - intros (col & y & w & Hin & Hasset & Hw & ->). split; [done|].
    exists (col, NumCol y). rewrite <- !list_elem_of_In. split; [done|].
    unfold asset_traces. cbn [fst snd]. rewrite Hasset. cbn [negb].
    apply list_elem_of_further, list_elem_of_fmap. eauto.
Qed.

(** C8, as the code has it: on a table of one row, with a configuration
    whose colours plotly accepts, the renderer does not raise, and its
    moving-average traces are one per asset column and configured window.
    The trace of a window other than 1 is undefined at the single point,
    and so is the trace of a window of 1 for a price that is missing or
    infinite; the trace of a window of 1 for a finite price holds a
    number there, the price over one, and its point is visible.  So no
    moving-average point is visible exactly when no window is 1 or no
    asset column holds a finite price. *)
Theorem build_dashboard_single_row `{PlotlyColors} (df : DataFrame) (cfg : config) :
  history_table 1 df → accepted_config cfg →
  ∃ tbl fig x,
    build_dashboard df cfg make_subplots = (Returns tbl, fig)
    ∧ dict_get df "timestamp" = Some x
    ∧ (∀ t, t ∈ ma_traces fig ↔
            ∃ col v w, dict_get df col = Some (NumCol [v])
                       ∧ is_asset_column col = true
                       ∧ w ∈ windows_of cfg
                       ∧ t = ma_trace x [v] col w)
    ∧ (∀ col v w, w ≠ 1 → trace_y (ma_trace x [v] col w) = [nan])
    ∧ (∀ col v, is_finite v = false → trace_y (ma_trace x [v] col 1) = [nan])
    ∧ (∀ col v, is_finite v = true →
         trace_y (ma_trace x [v] col 1) = [(0 + v) / 1]%float
         ∧ visible_points (trace_y (ma_trace x [v] col 1)) = [(0 + v) / 1]%float)
    ∧ ((∀ t, t ∈ ma_traces fig → visible_points (trace_y t) = [])
       ↔ (1 ∉ windows_of cfg
          ∨ ∀ col v, dict_get df col = Some (NumCol [v]) →
                     is_asset_column col = true → is_finite v = false)).
Proof.
  intros Hh _. pose proof Hh as (Hwf & Hn & _ & _).
  destruct (build_dashboard_run 0 df cfg Hh) as (tbl & bar & x & Hx & Hrun & Hbar).
  assert (Hma : ∀ t,
            t ∈ ma_traces
                  {| fig_traces :=
                       flat_map (asset_traces df (color_map (cfg_assets cfg))
                                   (windows_of cfg) x) df ++ bar;
                     fig_bg := Some (default "#0f1220" (theme_bg (cfg_chart cfg)));
                     fig_fg := Some (default "#e8ecf5" (theme_fg (cfg_chart cfg))) |}
            ↔ ∃ col v w, dict_get df col = Some (NumCol [v])
                         ∧ is_asset_column col = true
                         ∧ w ∈ windows_of cfg
                         ∧ t = ma_trace x [v] col w).
  { intros t. unfold ma_traces. cbn [fig_traces].
    rewrite filter_app, Hbar, app_nil_r, elem_of_ma_traces. split.
    - intros (col & y & w & Hin & Hasset & Hw & ->).
      pose proof (dict_get_elem df col _ Hwf Hin) as Hget.
      pose proof (wf_frame_lookup _ _ _ _ Hn Hget) as Hlen. cbn in Hlen.
      destruct y as [|v [|? ?]]; [done| |done]. by exists col, v, w.
    - intros (col & v & w & Hget%dict_get_Some_elem & Hasset & Hw & ->).
      by exists col, [v], w. }
  assert (Hother : ∀ col v w, w ≠ 1 → trace_y (ma_trace x [v] col w) = [nan]).
  { intros col v w Hw. cbn [trace_y ma_trace]. rewrite rolling_mean_single.
    destruct w as [|[|w]]; done. }
  assert (Hmissing : ∀ col v, is_finite v = false →
                              trace_y (ma_trace x [v] col 1) = [nan]).
  { intros col v Hv. cbn [trace_y ma_trace]. rewrite rolling_mean_single.
    cbn [Nat.eqb]. by rewrite Hv. }
  assert (Hfinite : ∀ col v, is_finite v = true →
            trace_y (ma_trace x [v] col 1) = [(0 + v) / 1]%float
            ∧ visible_points (trace_y (ma_trace x [v] col 1)) = [(0 + v) / 1]%float).
  { intros col v Hv. cbn [trace_y ma_trace]. rewrite rolling_mean_single.
    cbn [Nat.eqb]. rewrite Hv. split; [done|].
    unfold visible_points.
    rewrite filter_cons, decide_True by (by apply mean_one_defined). done. }
  eexists tbl, _, x. split; [exact Hrun|]. split; [done|]. split; [exact Hma|].
  split; [exact Hother|]. split; [exact Hmissing|]. split; [exact Hfinite|].
  split.
  - intros Hvis.
    destruct (decide (1 ∈ windows_of cfg)) as [Hone|Hone]; [|by left].
    right. intros col v Hget Hasset.
    destruct (is_finite v) eqn:Hv; [|done].
    assert (Ht : ma_trace x [v] col 1
                 ∈ ma_traces
                     {| fig_traces :=
                          flat_map (asset_traces df (color_map (cfg_assets cfg))
                                      (windows_of cfg) x) df ++ bar;
                        fig_bg := Some (default "#0f1220" (theme_bg (cfg_chart cfg)));
                        fig_fg := Some (default "#e8ecf5" (theme_fg (cfg_chart cfg))) |})
      by (apply Hma; by exists col, v, 1).
    apply Hvis in Ht. destruct (Hfinite col v Hv) as [_ Hpoint].
    rewrite Hpoint in Ht. done.
  - intros Hno t (col & v & w & Hget & Hasset & Hw & ->)%Hma.
    destruct (decide (w = 1)) as [->|Hne]; [|by rewrite Hother].
    destruct Hno as [Hone|Hnone]; [done|].
    by rewrite (Hmissing col v (Hnone col v Hget Hasset)).
Qed.
End DashboardTheorems.

Lemma single_row_table_history : history_table 1 single_row_table.
Proof. solve_history_table. Qed.

(** The table of one row is what enrichment returns on a log of one row. *)
Example single_row_table_enriched :
  ∀ P, P ∈ [pandas2; pandas3] →
    (@enrich_with_changes P 0
       {[0 := [("timestamp", TimeCol [0]%Z); ("BTC", NumCol [50000]%float)]]}).2 !! 2
    = Some single_row_table.
Proof. intros P HP. elem_cases HP; by vm_compute. Qed.

(** The claim C8 fails for a window of 1: on a table of one row the
    moving average over one row is the price, and its point is drawn. *)
Lemma build_dashboard_window_one_counterexample :
  history_table 1 single_row_table
  ∧ windows_of window_one_cfg = [1]
  ∧ ∃ tbl fig t,
      @build_dashboard sample_formats single_row_table window_one_cfg make_subplots
      = (Returns tbl, fig)
      ∧ ma_traces fig = [t]
      ∧ trace_y t = [50000%float]
      ∧ visible_points (trace_y t) ≠ [].
Proof.
  split; [apply single_row_table_history|]. split; [reflexivity|].
  eexists _, _, _. split; [by vm_compute|].
  split; [by vm_compute|]. split; [by vm_compute|].
  by vm_compute.
Qed.

Lemma default_cfg_accepted : @accepted_config sample_colors default_cfg.
Proof.
  split; [|by split].
  intros a c Ha Hc. unfold default_cfg, sample_assets in Ha. cbn in Ha.
  elem_cases Ha; cbn in Hc; by simplify_eq.
Qed.

Lemma build_dashboard_single_row_witness :
  history_table 1 single_row_table
  ∧ @accepted_config sample_colors default_cfg
  ∧ (1 ∉ windows_of default_cfg)
  ∧ ∃ tbl fig,
      @build_dashboard sample_formats single_row_table default_cfg make_subplots
      = (Returns tbl, fig)
      ∧ ∀ t, t ∈ ma_traces fig → visible_points (trace_y t) = [].
Proof.
  split; [apply single_row_table_history|].
  split; [apply default_cfg_accepted|].
  assert (Hone : 1 ∉ windows_of default_cfg) by (by compute_done).
  split; [done|].
  destruct (@build_dashboard_single_row sample_formats sample_colors
              single_row_table default_cfg single_row_table_history
              default_cfg_accepted)
    as (tbl & fig & x & Hrun & _ & _ & _ & _ & _ & Hvis).
  exists tbl, fig. split; [done|]. apply Hvis. by left.
Defined.

(** * Further properties of the code *)

(** ** Price fetcher: failures and the order of the keys *)

Lemma fetch_prices_run (assets : list asset) (url vs : string) (net : network) :
  fetch_prices assets url vs net
  = match net_answer net (price_request assets url vs) with
    | CallFails => (Raises ConnectionError, logged (price_request assets url vs) net)
    | Response st body =>
        if bool_decide (400 ≤ st < 600)%Z
        then (Raises (HTTPError st), logged (price_request assets url vs) net)
        else match body with
             | Some data => (Returns (collect_prices assets vs data),
                             logged (price_request assets url vs) net)
             | None => (Raises JSONDecodeError,
                        logged (price_request assets url vs) net)
             end
    end.
Proof.
  unfold fetch_prices, bind, send. fold (price_request assets url vs).
  destruct (net_answer net (price_request assets url vs)) as [|st body]; [done|].
  cbn. unfold raise_for_status. destruct (bool_decide (400 ≤ st < 600)%Z); [done|].
  by destruct body.
Qed.

(** X1: [fetch_prices] issues exactly one GET, whatever comes of it, and does
    not retry: when the call fails its error propagates, and a 4xx or 5xx
    status raises [HTTPError] whatever the body, even a valid object of
    prices; no mapping is returned in these cases. *)
Theorem fetch_prices_failures (assets : list asset) (url vs : string)
    (net : network) :
  let rq := price_request assets url vs in
  (fetch_prices assets url vs net).2 = logged rq net
  ∧ rq = Get url [("ids", String.concat "," (a_id <$> assets));
                  ("vs_currencies", vs)]
  ∧ (net_answer net rq = CallFails →
     ∃ e, (fetch_prices assets url vs net).1 = Raises e)
  ∧ (∀ st body, net_answer net rq = Response st body → (400 ≤ st < 600)%Z →
       (fetch_prices assets url vs net).1 = Raises (HTTPError st)).
Proof.
  intros rq. subst rq. rewrite fetch_prices_run.
  split; [|split; [done|split]].
  - destruct (net_answer net _) as [|st body]; [done|].
    destruct (bool_decide _); [done|]. by destruct body.
  - intros ->. eauto.
  - intros st body -> Hst. by rewrite bool_decide_true.
Qed.

Lemma fetch_prices_failures_witness :
  net_answer dead_network (price_request sample_assets "https://api" "usd")
  = CallFails
  ∧ (∃ e, (fetch_prices sample_assets "https://api" "usd" dead_network).1 = Raises e)
  ∧ (fetch_prices sample_assets "https://api" "usd" dead_network).2
    = logged (Get "https://api" [("ids", "bitcoin,ethereum");
                                 ("vs_currencies", "usd")]) dead_network.
Proof.
  split; [reflexivity|].
  pose proof (fetch_prices_failures sample_assets "https://api" "usd" dead_network)
    as (Hnet & Hrq & Hfail & _).
  split; [exact (Hfail eq_refl) | exact Hnet].
Defined.

Lemma collect_prices_keys_fold (assets : list asset) (vs : string)
    (data : price_json) (acc : dict float) :
  NoDup (dict_keys acc ++ (a_name <$> assets)) →
  dict_keys
    (fold_left
       (λ prices a,
          let aid := a_id a in
          match data !! aid with
          | Some quotes =>
              match quotes !! vs with
              | Some v => dict_set prices (a_name a) v
              | None => prices
              end
          | None => prices
          end) assets acc)
  = dict_keys acc
    ++ (a_name <$> filter (λ a, is_Some (quote vs data a)) assets).
Proof.
  set (step := λ (prices : dict float) (a : asset),
                 let aid := a_id a in
                 match data !! aid with
                 | Some quotes =>
                     match quotes !! vs with
                     | Some v => dict_set prices (a_name a) v
                     | None => prices
                     end
                 | None => prices
                 end).
  assert (Hstep : ∀ d a, step d a
                         = match quote vs data a with
                           | Some v => dict_set d (a_name a) v
                           | None => d
                           end).
  { intros d a. unfold step, quote. by destruct (data !! a_id a). }
  revert acc. induction assets as [|a assets IH]; intros acc Hnd.
  - by rewrite app_nil_r.
  - cbn [fold_left]. rewrite filter_cons, Hstep.
    rewrite fmap_cons in Hnd.
    assert (Hfresh : a_name a ∉ dict_keys acc).
    { apply NoDup_app in Hnd as (_ & Hdisj & _). intros Hin.
      apply (Hdisj _ Hin), list_elem_of_here. }
    assert (Hswap : dict_keys acc ++ a_name a :: (a_name <$> assets)
                    = (dict_keys acc ++ [a_name a]) ++ (a_name <$> assets)).
    { by rewrite <- app_assoc. }
    destruct (quote vs data a) as [v|] eqn:Eq.
    + rewrite decide_True by eauto.
      rewrite IH; rewrite dict_keys_set_new by done; unfold dict_keys in *;
        rewrite fmap_app; cbn [fmap list_fmap fst].
      * by rewrite <- app_assoc.
      * by rewrite <- Hswap.
    + rewrite decide_False by (by intros [? ?]). apply IH.
      rewrite Hswap in Hnd. apply NoDup_app in Hnd as (Hl & Hdisj & Hr).
      apply NoDup_app in Hl as (Hacc & _ & _). apply NoDup_app.
      split; [done|]. split; [|done].
      intros x Hx. apply Hdisj, elem_of_app. by left.
Qed.

(** X2: with distinct asset names the keys of the mapping [fetch_prices]
    returns are the names of the assets the response quotes, in the order
    of the configuration: this is the order of the columns of a new log. *)
Theorem fetch_prices_key_order (assets : list asset) (url vs : string)
    (net : network) (status : Z) (data : price_json) :
  net_answer net (price_request assets url vs) = Response status (Some data) →
  ¬ (400 ≤ status < 600)%Z →
  NoDup (a_name <$> assets) →
  ∃ prices,
    (fetch_prices assets url vs net).1 = Returns prices
    ∧ dict_keys prices
      = a_name <$> filter (λ a, is_Some (quote vs data a)) assets
    ∧ header_row prices
      = "timestamp" :: (a_name <$> filter (λ a, is_Some (quote vs data a)) assets).
Proof.
  intros Hanswer Hstatus Hnd. exists (collect_prices assets vs data).
  rewrite fetch_prices_run, Hanswer, bool_decide_false by done.
  assert (Hkeys : dict_keys (collect_prices assets vs data)
                  = a_name <$> filter (λ a, is_Some (quote vs data a)) assets).
  { unfold collect_prices. by rewrite collect_prices_keys_fold. }
  split; [done|]. split; [done|]. unfold header_row. by rewrite Hkeys.
Qed.

Lemma fetch_prices_key_order_witness :
  net_answer sample_network (price_request sample_assets "https://api" "usd")
  = Response 200 (Some sample_response)
  ∧ NoDup (a_name <$> sample_assets)
  ∧ ∃ prices,
      (fetch_prices sample_assets "https://api" "usd" sample_network).1
      = Returns prices
      ∧ dict_keys prices = ["BTC"].
Proof.
  split; [reflexivity|].
  assert (Hnd : NoDup (a_name <$> sample_assets)) by (by compute_done).
  split; [done|].
  destruct (fetch_prices_key_order sample_assets "https://api" "usd"
              sample_network 200 sample_response eq_refl)
    as (prices & Hrun & Hkeys & _); [lia | done |].
  exists prices. split; [done|]. rewrite Hkeys. by vm_compute.
Defined.

(** ** Alert evaluator: NaN and thresholds met exactly *)

Lemma leb_nan_l (x y : float) : is_nan x = true → PrimFloat.leb x y = false.
Proof.
  intros Hx%is_nan_Prim2SF. rewrite FloatAxioms.leb_spec, Hx. done.
Qed.

Lemma leb_nan_r (x y : float) : is_nan y = true → PrimFloat.leb x y = false.
Proof.
  intros Hy%is_nan_Prim2SF. rewrite FloatAxioms.leb_spec, Hy.
  unfold SFleb. by destruct (Prim2SF x).
Qed.

Lemma leb_refl (x : float) : is_nan x = false → PrimFloat.leb x x = true.
Proof.
  intros Hx%Prim2SF_not_nan. rewrite FloatAxioms.leb_spec. unfold SFleb.
  by rewrite (SFcompare_refl _ Hx).
Qed.

Lemma elem_of_check_alerts (prices : dict float) (assets : list asset) (al : alert) :
  al ∈ check_alerts prices assets ↔
  ∃ a p, a ∈ assets ∧ dict_get prices (a_name a) = Some p
         ∧ (al ∈ upper_alert a p ∨ al ∈ lower_alert a p).
Proof.
  rewrite check_alerts_concat, list_elem_of_In, in_concat. split.
  - intros (l & Hl & Hal). apply list_elem_of_In in Hl, Hal.
    apply list_elem_of_fmap in Hl as (a & -> & Ha). unfold asset_alerts in Hal.
    destruct (dict_get prices (a_name a)) as [p|] eqn:Ep;
      [|by apply elem_of_nil in Hal].
    exists a, p. by rewrite <- elem_of_app.
  - intros (a & p & Ha & Ep & Hal). exists (asset_alerts prices a).
    rewrite <- !list_elem_of_In. split; [apply list_elem_of_fmap; eauto|].
    unfold asset_alerts. rewrite Ep. by apply elem_of_app.
Qed.

(** X3: a price or a threshold that is NaN satisfies no comparison: no alert
    of [check_alerts] reports a NaN price or a NaN threshold, and an asset
    whose price is NaN gets no alert at all. *)
Theorem check_alerts_nan (prices : dict float) (assets : list asset) :
  (∀ al, al ∈ check_alerts prices assets →
         is_nan (al_price al) = false ∧ is_nan (al_threshold al) = false)
  ∧ (∀ a p, dict_get prices (a_name a) = Some p → is_nan p = true →
            asset_alerts prices a = []).
Proof.
  split.
  - intros al (a & p & _ & _ & Hal)%elem_of_check_alerts.
    destruct Hal as [Hal|Hal].
    + apply elem_of_upper_alert in Hal as (u & _ & Hge & ->). cbn.
      unfold float_ge in Hge. split.
      * destruct (is_nan p) eqn:E; [|done]. by rewrite leb_nan_r in Hge.
      * destruct (is_nan u) eqn:E; [|done]. by rewrite leb_nan_l in Hge.
    + apply elem_of_lower_alert in Hal as (l & _ & Hle & ->). cbn.
      unfold float_le in Hle. split.
      * destruct (is_nan p) eqn:E; [|done]. by rewrite leb_nan_l in Hle.
      * destruct (is_nan l) eqn:E; [|done]. by rewrite leb_nan_r in Hle.
  - intros a p Hp Hnan. unfold asset_alerts, upper_alert, lower_alert.
    rewrite Hp. unfold float_ge, float_le.
    destruct (a_upper a) as [u|], (a_lower a) as [l|];
      by rewrite ?(leb_nan_r _ p Hnan), ?(leb_nan_l p _ Hnan).
Qed.

Lemma check_alerts_nan_witness :
  dict_get [("BTC", nan)] (a_name sample_btc) = Some nan
  ∧ is_nan nan = true
  ∧ asset_alerts [("BTC", nan)] sample_btc = [].
Proof.
  split; [reflexivity|]. split; [reflexivity|].
  apply (proj2 (check_alerts_nan [("BTC", nan)] sample_assets) sample_btc nan);
    reflexivity.
Defined.

(** X4: the thresholds are inclusive: a price equal to the [upper] threshold
    raises the upper alert, one equal to the [lower] threshold raises the
    lower alert, and a price equal to both raises both, the upper one
    first. *)
Theorem check_alerts_inclusive (prices : dict float) (assets : list asset)
    (a : asset) (p : float) :
  a ∈ assets → dict_get prices (a_name a) = Some p → is_nan p = false →
  (a_upper a = Some p →
   Build_alert (a_name a) Upper p p ∈ check_alerts prices assets)
  ∧ (a_lower a = Some p →
     Build_alert (a_name a) Lower p p ∈ check_alerts prices assets)
  ∧ (a_upper a = Some p → a_lower a = Some p →
     asset_alerts prices a
     = [Build_alert (a_name a) Upper p p; Build_alert (a_name a) Lower p p]).
Proof.
  intros Ha Hp Hnan. pose proof (leb_refl p Hnan) as Hle.
  split; [|split].
  - intros Hu. apply elem_of_check_alerts. exists a, p.
    split; [done|]. split; [done|]. left. apply elem_of_upper_alert. eauto.
  - intros Hl. apply elem_of_check_alerts. exists a, p.
    split; [done|]. split; [done|]. right. apply elem_of_lower_alert. eauto.
  - intros Hu Hl. unfold asset_alerts, upper_alert, lower_alert, float_ge, float_le.
    by rewrite Hp, Hu, Hl, Hle.
Qed.

Lemma check_alerts_inclusive_witness :
  dict_get [("BTC", 60000%float)] "BTC" = Some 60000%float
  ∧ is_nan 60000 = false
  ∧ Build_alert "BTC" Upper 60000 60000
    ∈ check_alerts [("BTC", 60000%float)] sample_assets.
Proof.
  split; [reflexivity|]. split; [reflexivity|].
  apply (proj1 (check_alerts_inclusive [("BTC", 60000%float)] sample_assets
                  sample_btc 60000%float (list_elem_of_here _ _)
                  eq_refl eq_refl)).
  reflexivity.
Defined.

(** ** Moving averages and percent changes of a series *)

Lemma rolling_mean_length (w : nat) (xs : list float) :
  length (rolling_mean w xs) = length xs.
Proof. unfold rolling_mean. cbn zeta. apply length_imap. Qed.

(** The moving average is NaN while fewer than [w] rows are there. *)
Lemma rolling_mean_head (w : nat) (xs : list float) (i : nat) :
  (i < length xs)%nat → (i + 1 < w)%nat ∨ w = 0 →
  rolling_mean w xs !! i = Some nan.
Proof.
  intros Hi Hw. unfold rolling_mean. cbn zeta. rewrite list_lookup_imap.
  destruct (lookup_lt_is_Some_2 xs i Hi) as [x ->].
  cbn [fmap option_fmap option_map].
  destruct Hw as [Hw| ->]; [|done].
  apply Nat.ltb_lt in Hw. rewrite Hw. by rewrite orb_true_r.
Qed.

(** A missing value makes the moving average NaN on the [w] rows from
    its own. *)
Lemma rolling_mean_gap (w : nat) (xs : list float) (i j : nat) (v : float) :
  xs !! i = Some v → is_nan v = true →
  (i ≤ j)%nat → (j < i + w)%nat → (j < length xs)%nat →
  rolling_mean w xs !! j = Some nan.
Proof.
  intros Hv Hnan Hij Hjw Hj. unfold rolling_mean. cbn zeta.
  rewrite list_lookup_imap.
  destruct (lookup_lt_is_Some_2 xs j Hj) as [x ->].
  cbn [fmap option_fmap option_map].
  destruct (Nat.eqb w 0); [done|].
  destruct (Nat.ltb (j + 1) w) eqn:Hlt; [done|].
  apply Nat.ltb_ge in Hlt. cbn [orb].
  assert (Hex : existsb is_nan (take w (drop (j + 1 - w) (rolling_values xs)))
                = true).
  { apply existsb_exists. exists (if is_infinity v then nan else v).
    split; [|by destruct (is_infinity v)].
    apply list_elem_of_In, list_elem_of_lookup. exists (i - (j + 1 - w)).
    rewrite lookup_take_lt, lookup_drop by lia.
    replace (j + 1 - w + (i - (j + 1 - w))) with i by lia.
    unfold rolling_values. by rewrite list_lookup_fmap, Hv. }
  by rewrite Hex.
Qed.

Lemma ffill_from_app (last : float) (xs ys : list float) :
  ∃ zs, ffill_from last (xs ++ ys) = ffill_from last xs ++ zs.
Proof.
  revert last. induction xs as [|x xs IH]; intros last; [by eexists|].
  cbn. destruct (is_nan x).
  - destruct (IH last) as [zs ->]. by eexists.
  - destruct (IH x) as [zs ->]. by eexists.
Qed.

Lemma ffill_from_length (last : float) (xs : list float) :
  length (ffill_from last xs) = length xs.
Proof.
  revert last. induction xs as [|x xs IH]; intros last; [done|].
  cbn. destruct (is_nan x); cbn; by rewrite IH.
Qed.

Lemma shift1_app (xs zs : list float) :
  take (length xs) (shift1 (xs ++ zs)) = shift1 xs.
Proof.
  unfold shift1. rewrite take_take, length_app.
  replace (length xs `min` (length xs + length zs)) with (length xs) by lia.
  change (nan :: xs ++ zs) with ((nan :: xs) ++ zs).
  rewrite take_app_le by (cbn; lia). done.
Qed.

(** X5: rows added at the end of a series leave the percent changes of the
    rows before them as they were, under either default of [pct_change]:
    a run changes the percent change of its own row only. *)
Theorem pct_change_append (fm : fill_method) (xs ys : list float) :
  take (length xs) (pct_change fm (xs ++ ys)) = pct_change fm xs.
Proof.
  unfold pct_change.
  assert (Hdata : ∃ zs,
            match fm with Pad => ffill (xs ++ ys) | NoFill => xs ++ ys end
            = match fm with Pad => ffill xs | NoFill => xs end ++ zs
            ∧ length match fm with Pad => ffill xs | NoFill => xs end
              = length xs).
  { destruct fm.
    - destruct (ffill_from_app nan xs ys) as [zs Hzs]. exists zs.
      unfold ffill. by rewrite Hzs, ffill_from_length.
    - by exists ys. }
  destruct Hdata as (zs & -> & Hlen).
  rewrite zip_with_take, <- Hlen, shift1_app, take_app_length. done.
Qed.

(** ** Enrichment of any history table *)

Lemma elem_of_dict_set {V} (d : dict V) k v x :
  x ∈ dict_set d k v → x = (k, v) ∨ x ∈ d.
Proof.
  induction d as [|[k' v'] d IH]; cbn.
  - intros ->%list_elem_of_singleton. by left.
  - destruct (decide (k' = k)) as [->|Hne].
    + intros [->|Hx]%elem_of_cons; [by left|]. right. by apply list_elem_of_further.
    + intros [->|Hx]%elem_of_cons; [right; apply list_elem_of_here|].
      destruct (IH Hx) as [->|Hin]; [by left|]. right. by apply list_elem_of_further.
Qed.

Lemma dict_keys_set_prefix {V} (d : dict V) k v :
  dict_keys d `prefix_of` dict_keys (dict_set d k v).
Proof.
  destruct (decide (k ∈ dict_keys d)) as [Hin|Hout].
  - by rewrite dict_keys_set_old.
  - rewrite dict_keys_set_new by done. rewrite dict_keys_app. by eexists.
Qed.

Lemma dict_get_is_Some {V} (d : dict V) k : k ∈ dict_keys d → is_Some (dict_get d k).
Proof.
  intros Hin. destruct (dict_get d k) eqn:E; [by eexists|].
  by apply dict_get_None in E.
Qed.

Section EnrichTotal.
Context `{Pandas}.

Lemma enrich_step_history (n : nat) (r : DataFrame) (col : string) :
  history_table n r → col ∈ dict_keys r →
  ∃ r', enrich_step r col = Returns r'
        ∧ history_table n r'
        ∧ dict_keys r `prefix_of` dict_keys r'
        ∧ dict_get r' "timestamp" = dict_get r "timestamp".
Proof.
  intros Hh Hin. pose proof Hh as (Hwf & Hn & [ts Hts] & Hnum).
  unfold enrich_step. destruct (decide (col = "timestamp")) as [->|Hcol].
  { exists r. split; [done|]. split; [done|]. split; [reflexivity | done]. }
  destruct (dict_get_is_Some r col Hin) as [c Hc]. rewrite Hc.
  destruct (Hnum col c (dict_get_Some_elem _ _ _ Hc) Hcol) as [xs ->]. cbn.
  eexists. split; [reflexivity|].
  assert (Hts' : dict_get (dict_set r (col ++ "_pct")
                             (NumCol (series_mul (pct_change default_fill xs) 100)))
                          "timestamp" = dict_get r "timestamp").
  { rewrite dict_get_set. rewrite decide_False; [done|]. apply not_timestamp_pct. }
  split; [|split; [apply dict_keys_set_prefix | done]].
  split; [by apply dict_set_wf|]. split; [|split; [exists ts; by rewrite Hts'|]].
  - apply Forall_forall. intros x [->|Hx]%elem_of_dict_set.
    + cbn. unfold series_mul. rewrite length_fmap, pct_change_length.
      apply (wf_frame_lookup n r col _ Hn Hc).
    + by apply (proj1 (Forall_forall _ _) Hn).
  - intros name c [[= -> ->]|Hx]%elem_of_dict_set Hname; [by eexists|].
    by apply (Hnum name c).
Qed.

Lemma enrich_loop_history (n : nat) (cols : list string) (r : DataFrame) :
  history_table n r → cols ⊆ dict_keys r →
  ∃ r', enrich_loop r cols = Returns r'
        ∧ history_table n r'
        ∧ dict_keys r `prefix_of` dict_keys r'
        ∧ dict_get r' "timestamp" = dict_get r "timestamp".
Proof.
  revert r. induction cols as [|col cols IH]; intros r Hh Hsub.
  - exists r. split; [done|]. split; [done|]. split; [reflexivity | done].
  - destruct (enrich_step_history n r col Hh) as (r1 & Hstep & Hh1 & Hpre1 & Hts1).
    { apply Hsub, list_elem_of_here. }
    destruct (IH r1 Hh1) as (r' & Hloop & Hh' & Hpre' & Hts').
    { intros c Hc. destruct Hpre1 as [k ->]. apply elem_of_app. left.
      apply Hsub. by apply list_elem_of_further. }
    exists r'. cbn [enrich_loop]. rewrite Hstep. cbn. rewrite Hloop.
    split; [done|]. split; [done|].
    split; [by etrans | by rewrite Hts', Hts1].
Qed.

Lemma frame_fillna_no_missing (df : DataFrame) : no_missing (frame_fillna 0 df).
Proof.
  intros name xs Hin. unfold frame_fillna in Hin.
  apply list_elem_of_fmap in Hin as ([name' c] & Heq & _).
  destruct c as [ts|ys]; [done|]. injection Heq as -> ->.
  apply Forall_fmap, Forall_forall. intros y _. cbn.
  by apply fillna_float_not_nan.
Qed.

Lemma frame_fillna_history (n : nat) (df : DataFrame) :
  history_table n df → history_table n (frame_fillna 0 df).
Proof.
  intros (Hwf & Hn & [ts Hts] & Hnum).
  split; [|split; [by apply frame_fillna_wf|split]].
  - unfold dict_wf, frame_fillna. by rewrite dict_keys_fmap.
  - exists ts. by rewrite frame_fillna_get, Hts.
  - intros name c Hin Hname. unfold frame_fillna in Hin.
    apply list_elem_of_fmap in Hin as ([name' c'] & [= -> ->] & Hin).
    destruct (Hnum name' c' Hin Hname) as [xs ->]. by eexists.
Qed.

Lemma enrich_with_changes_history (h : heap) (l n : nat) (df : DataFrame) :
  h !! l = Some df → history_table n df →
  ∃ l' mid h',
    enrich_with_changes l h = (Returns l', h')
    ∧ h !! l' = None
    ∧ h' !! l' = Some (frame_fillna 0 mid)
    ∧ history_table n mid
    ∧ dict_keys df `prefix_of` dict_keys mid
    ∧ dict_get mid "timestamp" = dict_get df "timestamp".
Proof.
  intros Hl Hh.
  destruct (enrich_loop_history n (dict_keys df) df Hh) as (mid & Hloop & Hmid & Hpre & Hts);
    [done|].
  destruct (enrich_with_changes_run h l df Hl) as (mid' & Hrun). cbn zeta in Hrun.
  rewrite Hloop in Hrun. destruct Hrun as [-> Hrun].
  eexists _, mid, _. split; [exact Hrun|].
  split; [|split; [apply lookup_insert_eq|done]].
  apply not_elem_of_dom. intros Hin.
  apply (is_fresh (dom (<[fresh (dom h) := mid]> h))).
  by apply dom_insert_subseteq.
Qed.

(** X6: on every history table, whatever its column names and its missing
    values, [enrich_with_changes] returns: its result is a new history
    table with as many rows, the columns of the input come first in their
    order, the [timestamp] column is the one of the input, and no value of
    the result is missing. *)
Theorem enrich_with_changes_total (h : heap) (l n : nat) (df : DataFrame) :
  h !! l = Some df → history_table n df →
  ∃ l' out,
    (enrich_with_changes l h).1 = Returns l'
    ∧ (enrich_with_changes l h).2 !! l' = Some out
    ∧ h !! l' = None
    ∧ history_table n out
    ∧ no_missing out
    ∧ dict_keys df `prefix_of` dict_keys out
    ∧ dict_get out "timestamp" = dict_get df "timestamp".
Proof.
  intros Hl Hh.
  destruct (enrich_with_changes_history h l n df Hl Hh)
    as (l' & mid & h' & Hrun & Hfresh & Hout & Hmid & Hpre & Hts).
  rewrite Hrun. cbn [fst snd].
  exists l', (frame_fillna 0 mid). split; [done|]. split; [done|]. split; [done|].
  split; [by apply frame_fillna_history|].
  split; [apply frame_fillna_no_missing|].
  split; [unfold frame_fillna; by rewrite dict_keys_fmap|].
  destruct Hh as (_ & _ & [ts Hdts] & _).
  by rewrite frame_fillna_get, Hts, Hdts.
Qed.
End EnrichTotal.

Lemma gap_table_history : history_table 2 gap_table.
Proof. solve_history_table. Qed.

Lemma gap_heap_lookup : ({[0 := gap_table]} : heap) !! 0 = Some gap_table.
Proof. apply lookup_singleton_eq. Qed.

Lemma enrich_with_changes_total_witness :
  ({[0 := gap_table]} : heap) !! 0 = Some gap_table
  ∧ history_table 2 gap_table
  ∧ ∃ l' out,
      (@enrich_with_changes pandas3 0 {[0 := gap_table]}).1 = Returns l'
      ∧ (@enrich_with_changes pandas3 0 {[0 := gap_table]}).2 !! l' = Some out
      ∧ no_missing out.
Proof.
  split; [apply gap_heap_lookup|]. split; [apply gap_table_history|].
  destruct (@enrich_with_changes_total pandas3 {[0 := gap_table]} 0 2 gap_table
              gap_heap_lookup gap_table_history)
    as (l' & out & H1 & H2 & _ & _ & H5 & _).
  by exists l', out.
Defined.

(** ** Dashboard renderer: the figure and the table *)

Section DashboardMore.
Context `{Formats}.

Lemma add_change_bar_exact (n : nat) (df : DataFrame) (x : column) (fig : figure) :
  history_table n df → dict_get df "timestamp" = Some x →
  ∃ bar, add_change_bar df fig = (Returns tt, with_traces fig bar)
         ∧ (filter (λ c, endswith c "_pct" = true) (dict_keys df) = [] → bar = [])
         ∧ (filter (λ c, endswith c "_pct" = true) (dict_keys df) ≠ [] →
            ∃ ys, bar = [Bar x ys "Δ% promedio" true]
                  ∧ length ys = nrows df
                  ∧ Forall (λ y, is_nan y = false) ys).
Proof.
  intros Hh Hx. unfold add_change_bar.
  destruct (filter (λ c, endswith c "_pct" = true) (dict_keys df))
    as [|col cols] eqn:Hvol.
  - exists []. rewrite with_traces_nil. done.
  - destruct (numeric_columns_run n df (col :: cols) fig Hh) as [l Hl].
    { rewrite <- Hvol. apply Forall_forall. intros c [Hc Hin]%list_elem_of_filter.
      split; [done|]. intros ->. done. }
    rewrite (bind_Returns _ _ _ _ _ Hl).
    rewrite (bind_Returns _ _ _ _ _ (frame_col_run df _ x fig Hx)).
    eexists. split; [reflexivity|]. split; [done|]. intros _.
    eexists. split; [reflexivity|].
    split; [by rewrite !length_fmap, length_seq|].
    apply Forall_fmap, Forall_forall. intros y _. cbn.
    by apply fillna_float_not_nan.
Qed.

Lemma last_value_exact {St} (n : nat) (df : DataFrame) (col : string) (s : St) :
  history_table (S n) df → col ∈ dict_keys df → col ≠ "timestamp" →
  last_value df col s = (Returns (last_of df col), s).
Proof.
  intros (Hwf & Hn & _ & Hnum) Hin Hts.
  apply list_elem_of_fmap in Hin as ([name c] & -> & Hin). cbn in Hts.
  destruct (Hnum name c Hin Hts) as [xs ->].
  pose proof (dict_get_elem df name _ Hwf Hin) as Hget.
  pose proof (wf_frame_lookup _ _ _ _ Hn Hget) as Hlen. cbn in Hlen.
  unfold last_value, last_of. cbn [fst]. rewrite Hget.
  rewrite (bind_Returns _ _ _ _ _ (frame_col_run df _ _ s Hget)).
  unfold numeric, bind, ret.
  destruct (last xs) as [v|] eqn:Hlast; [done|].
  apply last_None in Hlast. by subst xs.
Qed.

Lemma latest_lines_exact {St} (n : nat) (df : DataFrame) (cols : list string)
    (s : St) :
  history_table (S n) df → cols ⊆ dict_keys df →
  latest_lines df cols s
  = (Returns (latest_line_of df <$> filter (λ c, is_asset_column c = true) cols), s).
Proof.
  intros Hh. induction cols as [|col cols IH]; intros Hsub; [done|].
  assert (Hrest : cols ⊆ dict_keys df).
  { intros c Hc. apply Hsub. by apply list_elem_of_further. }
  cbn [latest_lines]. rewrite filter_cons.
  destruct (is_asset_column col) eqn:Hasset; cbn [negb].
  - rewrite decide_True by done. rewrite fmap_cons.
    assert (Hpct : match dict_get df (col ++ "_pct") with
                   | Some _ => last_value df (col ++ "_pct")
                   | None => ret 0%float
                   end s
                   = (Returns match dict_get df (col ++ "_pct") with
                              | Some _ => last_of df (col ++ "_pct")
                              | None => 0%float
                              end, s)).
    { destruct (dict_get df (col ++ "_pct")) as [c|] eqn:Hc; [|done].
      apply (last_value_exact n); [done| |apply not_timestamp_pct].
      destruct (decide ((col ++ "_pct")%string ∈ dict_keys df)) as [|Hout]; [done|].
      apply dict_get_None in Hout. congruence. }
    unfold latest_line, latest_line_of, bind. cbn beta.
    rewrite (last_value_exact n df col s Hh (Hsub _ (list_elem_of_here _ _))
               (is_asset_column_not_timestamp _ Hasset)).
    rewrite Hpct. unfold ret. by rewrite (IH Hrest).
  - rewrite decide_False by done. by apply IH.
Qed.

(** What the renderer returns on a history table with at least one row. *)
Lemma build_dashboard_exact (n : nat) (df : DataFrame) (cfg : config) :
  history_table (S n) df →
  ∃ bar x,
    dict_get df "timestamp" = Some x
    ∧ build_dashboard df cfg make_subplots
      = (Returns
           {| tbl_header := ["Activo"; "Último precio"; "Δ% vs. anterior"];
              tbl_cells :=
                transpose3 (latest_line_of df
                              <$> filter (λ c, is_asset_column c = true)
                                         (dict_keys df));
              tbl_bg := default "#0f1220" (theme_bg (cfg_chart cfg));
              tbl_fg := default "#e8ecf5" (theme_fg (cfg_chart cfg)) |},
         {| fig_traces :=
              flat_map (asset_traces df (color_map (cfg_assets cfg))
                          (windows_of cfg) x) df ++ bar;
            fig_bg := Some (default "#0f1220" (theme_bg (cfg_chart cfg)));
            fig_fg := Some (default "#e8ecf5" (theme_fg (cfg_chart cfg))) |})
    ∧ (filter (λ c, endswith c "_pct" = true) (dict_keys df) = [] → bar = [])
    ∧ (filter (λ c, endswith c "_pct" = true) (dict_keys df) ≠ [] →
       ∃ ys, bar = [Bar x ys "Δ% promedio" true]
             ∧ length ys = S n
             ∧ Forall (λ y, is_nan y = false) ys).
Proof.
  intros Hh. pose proof Hh as (Hwf & Hn & [ts Hts] & Hnum).
  assert (Hrows : nrows df = S n).
  { apply nrows_wf; [done|]. by intros ->. }
  destruct (add_change_bar_exact (S n) df (TimeCol ts)
              (with_traces make_subplots
                 (flat_map (asset_traces df (color_map (cfg_assets cfg))
                              (windows_of cfg) (TimeCol ts)) df)) Hh Hts)
    as (bar & Hbar & Hnone & Hsome).
  exists bar, (TimeCol ts). split; [done|].
  split; [|split; [done|by rewrite <- Hrows]].
  unfold build_dashboard. cbn zeta. fold (windows_of cfg).
  rewrite (bind_Returns _ _ _ _ _
             (asset_loop_run (S n) df _ (windows_of cfg) (TimeCol ts) df
                make_subplots Hh Hts (λ _ Hx, Hx))).
  rewrite (bind_Returns _ _ _ _ _ Hbar).
  unfold bind at 1, update_layout at 1. rewrite Hrows. cbn [Nat.eqb].
  unfold bind at 1, ret at 1. cbn [with_traces fig_traces make_subplots app].
  rewrite (bind_Returns _ _ _ _ _ (latest_lines_exact n df (dict_keys df) _ Hh
                                     (λ _ Hx, Hx))).
  reflexivity.
Qed.
End DashboardMore.

Lemma transpose3_lines {A} (f g h : A → string) (l : list A) :
  transpose3 ((λ a, [f a; g a; h a]) <$> l)
  = match l with
    | [] => []
    | _ => [f <$> l; g <$> l; h <$> l]
    end.
Proof.
  assert (Hcol : ∀ (k : A → string) j (l0 : list A),
            (∀ a, [f a; g a; h a] !! j = Some (k a)) →
            omap (λ line : list string, line !! j) ((λ a, [f a; g a; h a]) <$> l0)
            = k <$> l0).
  { intros k j l0 Hk. induction l0 as [|b l' IH]; [done|].
    rewrite !fmap_cons, omap_cons_eq, Hk. by f_equal. }
  destruct l as [|a l]; [done|].
  set (L := (λ a, [f a; g a; h a]) <$> a :: l).
  assert (HL : transpose3 L
               = [omap (λ line : list string, line !! 0) L;
                  omap (λ line : list string, line !! 1) L;
                  omap (λ line : list string, line !! 2) L]).
  { subst L. by rewrite fmap_cons. }
  rewrite HL. subst L.
  by rewrite (Hcol f 0), (Hcol g 1), (Hcol h 2).
Qed.

Section DashboardExtras.
Context `{Formats}.

(** X7: on a table without rows the renderer raises [IndexError], after the
    traces are added: the orchestrator has to keep empty tables away. *)
Theorem build_dashboard_empty_table (df : DataFrame) (cfg : config) :
  history_table 0 df →
  (build_dashboard df cfg make_subplots).1 = Raises IndexError.
Proof.
  intros Hh. pose proof Hh as (Hwf & Hn & [ts Hts] & Hnum).
  assert (Hrows : nrows df = 0).
  { apply nrows_wf; [done|]. by intros ->. }
  destruct (add_change_bar_run 0 df (TimeCol ts)
              (with_traces make_subplots
                 (flat_map (asset_traces df (color_map (cfg_assets cfg))
                              (windows_of cfg) (TimeCol ts)) df)) Hh Hts)
    as (bar & Hbar & _).
  unfold build_dashboard. cbn zeta. fold (windows_of cfg).
  rewrite (bind_Returns _ _ _ _ _
             (asset_loop_run 0 df _ (windows_of cfg) (TimeCol ts) df
                make_subplots Hh Hts (λ _ Hx, Hx))).
  rewrite (bind_Returns _ _ _ _ _ Hbar).
  unfold bind at 1, update_layout at 1. rewrite Hrows. done.
Qed.

(** X8: on a history table with at least one row the renderer returns, and
    in its figure every trace has the [timestamp] column as [x] and one
    [y] value per row; every asset column has its price line, with
    markers when the table has at most three rows; the bar of the mean
    change is there exactly when a column name ends in [_pct], and none
    of its values is NaN. *)
Theorem build_dashboard_figure (n : nat) (df : DataFrame) (cfg : config) :
  history_table (S n) df →
  ∃ tbl fig x,
    build_dashboard df cfg make_subplots = (Returns tbl, fig)
    ∧ dict_get df "timestamp" = Some x
    ∧ (∀ t, t ∈ fig_traces fig → trace_x t = x ∧ length (trace_y t) = S n)
    ∧ (∀ col y, (col, NumCol y) ∈ df → is_asset_column col = true →
         Scatter x y col (if Nat.leb (S n) 3 then "lines+markers" else "lines")
           2 None (mjoin (dict_get (color_map (cfg_assets cfg)) col)) false
         ∈ fig_traces fig)
    ∧ ((∃ t, t ∈ fig_traces fig ∧ is_bar t = true) ↔
       ∃ col, col ∈ dict_keys df ∧ endswith col "_pct" = true)
    ∧ (∀ t, t ∈ fig_traces fig → is_bar t = true →
            Forall (λ y, is_nan y = false) (trace_y t)).
Proof.
  intros Hh. pose proof Hh as (Hwf & Hn & _ & _).
  destruct (build_dashboard_exact n df cfg Hh) as (bar & x & Hx & Hrun & Hnone & Hsome).
  assert (Hrows : nrows df = S n).
  { apply nrows_wf; [done|]. by intros ->. }
  assert (Hasset : ∀ t,
            t ∈ flat_map (asset_traces df (color_map (cfg_assets cfg))
                            (windows_of cfg) x) df →
            trace_x t = x ∧ length (trace_y t) = S n ∧ is_bar t = false).
  { intros t Ht. apply list_elem_of_In, in_flat_map in Ht as ([col c] & Hin & Ht).
    apply list_elem_of_In in Hin, Ht. unfold asset_traces in Ht. cbn [fst snd] in Ht.
    destruct (is_asset_column col); cbn [negb] in Ht; [|by apply elem_of_nil in Ht].
    destruct c as [ts|y]; [by apply elem_of_nil in Ht|].
    assert (Hlen : length y = S n).
    { apply (wf_frame_lookup _ df col (NumCol y) Hn). by apply dict_get_elem. }
    apply elem_of_cons in Ht as [->|Ht]; [done|].
    apply list_elem_of_fmap in Ht as (w & -> & _). cbn.
    split; [done|]. split; [|done].
    by rewrite rolling_mean_length. }
  assert (Hbar : ∀ t, t ∈ bar →
            trace_x t = x ∧ length (trace_y t) = S n ∧ is_bar t = true
            ∧ Forall (λ y, is_nan y = false) (trace_y t)
            ∧ filter (λ c, endswith c "_pct" = true) (dict_keys df) ≠ []).
  { intros t Ht.
    destruct (decide (filter (λ c, endswith c "_pct" = true) (dict_keys df) = []))
      as [Hempty|Hne].
    - rewrite (Hnone Hempty) in Ht. by apply elem_of_nil in Ht.
    - destruct (Hsome Hne) as (ys & -> & Hlen & Hnan).
      apply list_elem_of_singleton in Ht as ->. done. }
  eexists _, _, x. split; [exact Hrun|]. split; [done|]. cbn [fig_traces].
  split; [|split; [|split]].
  - intros t [Ht|Ht]%elem_of_app.
    + by destruct (Hasset t Ht) as (? & ? & _).
    + by destruct (Hbar t Ht) as (? & ? & _).
  - intros col y Hin Hcol. apply elem_of_app. left.
    apply list_elem_of_In, in_flat_map. exists (col, NumCol y).
    rewrite <- !list_elem_of_In. split; [done|].
    unfold asset_traces. cbn [fst snd]. rewrite Hcol. cbn [negb].
    unfold price_trace. rewrite Hrows. apply list_elem_of_here.
  - split.
    + intros (t & [Ht|Ht]%elem_of_app & Hb).
      * destruct (Hasset t Ht) as (_ & _ & Hnb). congruence.
      * destruct (Hbar t Ht) as (_ & _ & _ & _ & Hne).
        destruct (filter (λ c, endswith c "_pct" = true) (dict_keys df))
          as [|col cols] eqn:E; [by destruct Hne|].
        exists col.
        assert (Hc : col ∈ filter (λ c, endswith c "_pct" = true) (dict_keys df))
          by (rewrite E; apply list_elem_of_here).
        apply list_elem_of_filter in Hc as [? ?]. done.
    + intros (col & Hin & Hend).
      assert (Hne : filter (λ c, endswith c "_pct" = true) (dict_keys df) ≠ []).
      { intros Hempty.
        assert (Hc : col ∈ filter (λ c, endswith c "_pct" = true) (dict_keys df))
          by (by apply list_elem_of_filter).
        rewrite Hempty in Hc. by apply elem_of_nil in Hc. }
      destruct (Hsome Hne) as (ys & -> & _).
      eexists. split; [apply elem_of_app; right; apply list_elem_of_here|done].
  - intros t [Ht|Ht]%elem_of_app Hb.
    + destruct (Hasset t Ht) as (_ & _ & Hnb). congruence.
    + by destruct (Hbar t Ht) as (_ & _ & _ & ? & _).
Qed.

(** X9: the table of latest values has one line per asset column, in column
    order: the name, the last price, and the last value of the column's
    [_pct] column, or of 0.0 when the table has no such column.  Its cells
    are the three columns of these lines, and it has no cell when the
    table has no asset column. *)
Theorem build_dashboard_table (n : nat) (df : DataFrame) (cfg : config) :
  history_table (S n) df →
  ∃ tbl,
    (build_dashboard df cfg make_subplots).1 = Returns tbl
    ∧ tbl_header tbl = ["Activo"; "Último precio"; "Δ% vs. anterior"]
    ∧ tbl_cells tbl
      = match filter (λ c, is_asset_column c = true) (dict_keys df) with
        | [] => []
        | cols =>
            [cols;
             (λ col, format_money (last_of df col)) <$> cols;
             (λ col, format_signed_pct
                       (match dict_get df (col ++ "_pct") with
                        | Some _ => last_of df (col ++ "_pct")
                        | None => 0%float
                        end)) <$> cols]
        end
    ∧ (∀ col xs v, dict_get df col = Some (NumCol (xs ++ [v])) → last_of df col = v).
Proof.
  intros Hh.
  destruct (build_dashboard_exact n df cfg Hh) as (bar & x & _ & Hrun & _).
  eexists. rewrite Hrun. cbn [fst tbl_header tbl_cells].
  split; [done|]. split; [done|]. split.
  - unfold latest_line_of.
    rewrite (transpose3_lines (λ col, col)
               (λ col, format_money (last_of df col))
               (λ col, format_signed_pct
                         (match dict_get df (col ++ "_pct") with
                          | Some _ => last_of df (col ++ "_pct")
                          | None => 0%float
                          end))).
    destruct (filter _ (dict_keys df)) as [|col cols]; [done|].
    by rewrite list_fmap_id.
  - intros col xs v Hget. unfold last_of. by rewrite Hget, last_snoc.
Qed.
End DashboardExtras.

Section MovingAverages.
Context `{Formats}.

(** X10: on a history table with at least one row, the figure has, for every
    asset column and every window [w] of the configuration, the dotted
    line of the moving average named after them, with one value per row.
    Its value is NaN on the first [w - 1] rows, and on every row when the
    log has fewer than [w] rows or [w] is 0; and a missing price makes it
    NaN on the [w] rows from its own. *)
Theorem build_dashboard_moving_averages (n : nat) (df : DataFrame) (cfg : config) :
  history_table (S n) df →
  ∃ tbl fig x,
    build_dashboard df cfg make_subplots = (Returns tbl, fig)
    ∧ dict_get df "timestamp" = Some x
    ∧ ∀ col y w,
        (col, NumCol y) ∈ df → is_asset_column col = true → w ∈ windows_of cfg →
        ∃ ma,
          Scatter x ma (col ++ " MA" ++ pretty w) "lines" 1 (Some "dot") None false
          ∈ fig_traces fig
          ∧ length ma = S n
          ∧ (∀ i, (i < S n)%nat → (i + 1 < w)%nat ∨ w = 0 → ma !! i = Some nan)
          ∧ ((S n < w)%nat ∨ w = 0 → Forall (λ v, is_nan v = true) ma)
          ∧ (∀ i j v, y !! i = Some v → is_nan v = true →
                      (i ≤ j)%nat → (j < i + w)%nat → (j < S n)%nat →
                      ma !! j = Some nan).
Proof.
  intros Hh.
  destruct (build_dashboard_exact n df cfg Hh) as (bar & x & Hx & Hrun & _).
  pose proof Hh as (Hwf & Hn & _ & _).
  eexists _, _, x. split; [exact Hrun|]. split; [done|]. cbn [fig_traces].
  intros col y w Hin Hcol Hw.
  assert (Hlen : length y = S n).
  { apply (wf_frame_lookup _ df col (NumCol y) Hn). by apply dict_get_elem. }
  exists (rolling_mean w y).
  split; [|split; [by rewrite rolling_mean_length|split; [|split]]].
  - apply elem_of_app. left.
    apply list_elem_of_In, in_flat_map. exists (col, NumCol y).
    rewrite <- !list_elem_of_In. split; [done|].
    unfold asset_traces. cbn [fst snd]. rewrite Hcol. cbn [negb].
    apply list_elem_of_further, list_elem_of_fmap. by exists w.
  - intros i Hi Hhead. apply rolling_mean_head; [by rewrite Hlen | done].
  - intros Hshort. apply Forall_lookup. intros i v Hi.
    assert (Hlt : (i < S n)%nat).
    { rewrite <- Hlen, <- (rolling_mean_length w y). by eapply lookup_lt_Some. }
    rewrite rolling_mean_head in Hi; [by injection Hi as <-|by rewrite Hlen|].
    destruct Hshort as [Hshort| ->]; [left; lia | by right].
  - intros i j v Hv Hnan Hij Hjw Hj.
    apply (rolling_mean_gap w y i j v); [done..|by rewrite Hlen].
Qed.
End MovingAverages.

Lemma build_dashboard_moving_averages_witness :
  history_table 2 gap_table
  ∧ ∃ tbl fig,
      @build_dashboard sample_formats gap_table default_cfg make_subplots
      = (Returns tbl, fig)
      ∧ Scatter (TimeCol [0; 60]%Z) [nan; nan] "BTC MA5" "lines" 1 (Some "dot")
          None false ∈ fig_traces fig.
Proof.
  split; [apply gap_table_history|].
  destruct (@build_dashboard_moving_averages sample_formats 1 gap_table default_cfg
              gap_table_history)
    as (tbl & fig & x & Hrun & Hx & Hma).
  exists tbl, fig. split; [done|].
  injection Hx as <-.
  destruct (Hma "BTC" [1; nan]%float 5)
    as (ma & Hin & Hlen & Hhead & _);
    [apply list_elem_of_further, list_elem_of_here | reflexivity
    | apply list_elem_of_here |].
  assert (Heq : ma = [nan; nan]).
  { apply list_eq. intros [|[|i]].
    - apply Hhead; [lia | left; lia].
    - apply Hhead; [lia | left; lia].
    - rewrite lookup_ge_None_2 by (rewrite Hlen; lia). done. }
  by rewrite <- Heq.
Defined.


Lemma empty_table_history : history_table 0 empty_table.
Proof. solve_history_table. Qed.

Lemma build_dashboard_empty_table_witness :
  history_table 0 empty_table
  ∧ (@build_dashboard sample_formats empty_table default_cfg make_subplots).1
    = Raises IndexError.
Proof.
  split; [apply empty_table_history|].
  apply (@build_dashboard_empty_table sample_formats empty_table default_cfg
           empty_table_history).
Defined.

Lemma build_dashboard_figure_witness :
  history_table 1 single_row_table
  ∧ ∃ tbl fig,
      @build_dashboard sample_formats single_row_table default_cfg make_subplots
      = (Returns tbl, fig)
      ∧ ∃ t, t ∈ fig_traces fig ∧ is_bar t = true.
Proof.
  split; [apply single_row_table_history|].
  destruct (@build_dashboard_figure sample_formats 0 single_row_table default_cfg
              single_row_table_history)
    as (tbl & fig & x & Hrun & _ & _ & _ & Hbar & _).
  exists tbl, fig. split; [done|]. apply Hbar.
  exists "BTC_pct". split; [by compute_done | reflexivity].
Defined.

Lemma build_dashboard_table_witness :
  history_table 1 single_row_table
  ∧ ∃ tbl,
      (@build_dashboard sample_formats single_row_table default_cfg make_subplots).1
      = Returns tbl
      ∧ tbl_cells tbl = [["BTC"]; ["$x.xx"]; ["+x.xx%"]].
Proof.
  split; [apply single_row_table_history|].
  destruct (@build_dashboard_table sample_formats 0 single_row_table default_cfg
              single_row_table_history)
    as (tbl & Hrun & _ & Hcells & _).
  exists tbl. split; [done|]. rewrite Hcells. reflexivity.
Defined.

(** ** Enrichment followed by rendering *)

Section Pipeline.
Context `{Pandas} `{Formats}.

(** X11: the enrichment and the renderer compose on every history table
    with at least one row, for a configuration whose windows are naturals
    and whose colours plotly accepts: neither raises, whatever the column
    names and the missing values, every trace of the figure has one value
    per row of the log, and the bar of the mean change has no NaN. *)
Theorem enrich_then_render `{PlotlyColors} (h : heap) (l n : nat)
    (df : DataFrame) (cfg : config) :
  h !! l = Some df → history_table (S n) df → accepted_config cfg →
  ∃ l' out tbl fig,
    (enrich_with_changes l h).1 = Returns l'
    ∧ (enrich_with_changes l h).2 !! l' = Some out
    ∧ build_dashboard out cfg make_subplots = (Returns tbl, fig)
    ∧ (∀ t, t ∈ fig_traces fig → length (trace_y t) = S n)
    ∧ (∀ t, t ∈ fig_traces fig → is_bar t = true →
            Forall (λ y, is_nan y = false) (trace_y t)).
Proof.
  intros Hl Hh _.
  destruct (enrich_with_changes_history h l (S n) df Hl Hh)
    as (l' & mid & h' & Hret & _ & Hout & Hmid & _).
  rewrite Hret. cbn [fst snd].
  pose proof (frame_fillna_history _ _ Hmid) as Hhout.
  set (out := frame_fillna 0 mid) in *.
  destruct (build_dashboard_exact n out cfg Hhout) as (bar & x & Hx & Hrun & Hnone & Hsome).
  pose proof Hhout as (Hwf & Hn & _ & _).
  exists l', out. eexists _, _. split; [done|]. split; [done|].
  split; [exact Hrun|]. cbn [fig_traces].
  assert (Hbar : ∀ t, t ∈ bar → length (trace_y t) = S n
                      ∧ Forall (λ y, is_nan y = false) (trace_y t)).
  { intros t Ht.
    destruct (decide (filter (λ c, endswith c "_pct" = true) (dict_keys out) = []))
      as [Hempty|Hne].
    - rewrite (Hnone Hempty) in Ht. by apply elem_of_nil in Ht.
    - destruct (Hsome Hne) as (ys & -> & Hlen & Hnan).
      apply list_elem_of_singleton in Ht as ->. done. }
  assert (Hasset : ∀ t,
            t ∈ flat_map (asset_traces out (color_map (cfg_assets cfg))
                            (windows_of cfg) x) out →
            length (trace_y t) = S n ∧ is_bar t = false).
  { intros t Ht. apply list_elem_of_In, in_flat_map in Ht as ([col c] & Hin & Ht).
    apply list_elem_of_In in Hin, Ht. unfold asset_traces in Ht. cbn [fst snd] in Ht.
    destruct (is_asset_column col); cbn [negb] in Ht; [|by apply elem_of_nil in Ht].
    destruct c as [ts|y]; [by apply elem_of_nil in Ht|].
    assert (Hlen : length y = S n).
    { apply (wf_frame_lookup _ out col (NumCol y) Hn). by apply dict_get_elem. }
    apply elem_of_cons in Ht as [->|Ht]; [done|].
    apply list_elem_of_fmap in Ht as (w & -> & _). cbn.
    by rewrite rolling_mean_length. }
  split.
  - intros t [Ht|Ht]%elem_of_app; [by apply Hasset | by apply Hbar].
  - intros t [Ht|Ht]%elem_of_app Hb; [|by apply Hbar].
    destruct (Hasset t Ht) as [_ Hnb]. congruence.
Qed.
End Pipeline.

Lemma enrich_then_render_witness :
  ({[0 := gap_table]} : heap) !! 0 = Some gap_table
  ∧ history_table 2 gap_table
  ∧ @accepted_config sample_colors default_cfg
  ∧ ∃ l' out tbl fig,
      (@enrich_with_changes pandas3 0 {[0 := gap_table]}).1 = Returns l'
      ∧ (@enrich_with_changes pandas3 0 {[0 := gap_table]}).2 !! l' = Some out
      ∧ @build_dashboard sample_formats out default_cfg make_subplots
        = (Returns tbl, fig).
Proof.
  split; [apply gap_heap_lookup|]. split; [apply gap_table_history|].
  split; [apply default_cfg_accepted|].
  destruct (@enrich_then_render pandas3 sample_formats sample_colors
              {[0 := gap_table]} 0 1 gap_table default_cfg gap_heap_lookup
              gap_table_history default_cfg_accepted)
    as (l' & out & tbl & fig & H1 & H2 & H3 & _).
  by exists l', out, tbl, fig.
Defined.

(** ** History store: loading what was appended *)

Section LoadAfterAppend.
Context `{TextCodec}.

Lemma append_history_content (fs : file_system) (path : string) (t : time)
    (prices : dict float) :
  ∃ pre, append_history fs path t prices !! path = Some (pre ++ [data_row t prices])
         ∧ (fs !! path = None → pre = [header_row prices])
         ∧ (∀ content, fs !! path = Some content → pre = content).
Proof.
  destruct (fs !! path) as [content|] eqn:E.
  - exists content. rewrite (append_history_existing _ _ _ _ _ E), lookup_insert_eq.
    split; [done|]. split; [done | by intros ? [= ->]].
  - exists [header_row prices].
    rewrite (append_history_new _ _ _ _ E), lookup_insert_eq. done.
Qed.

Lemma load_history_Some (fs : file_system) (path : string) (df : DataFrame) :
  load_history fs path = Returns (Some df) →
  ∃ content df0 ts,
    fs !! path = Some content ∧ read_csv content = Returns df0
    ∧ dict_get df0 "timestamp" = Some (TimeCol ts)
    ∧ sort_values df0 "timestamp" = Returns df.
Proof.
  unfold load_history. destruct (fs !! path) as [content|]; [|done].
  destruct (read_csv content) as [df0|e] eqn:Hread; [|done]. cbn.
  destruct (sort_values df0 "timestamp") as [df'|e] eqn:Hsort; [|done]. cbn.
  intros [= ->]. exists content, df0.
  unfold sort_values in Hsort.
  destruct (dict_get df0 "timestamp") as [[ts|xs]|] eqn:Hts; [|done|done].
  exists ts. split; [done|]. split; [done|]. split; [done|].
  unfold sort_values. by rewrite Hts.
Qed.

Lemma load_after_append_not_None (fs : file_system) (path : string)
    (t : time) (prices : dict float) :
  load_history (append_history fs path t prices) path ≠ Returns None.
Proof.
  destruct (append_history_content fs path t prices) as (pre & Hpre & _).
  unfold load_history. rewrite Hpre.
  destruct (read_csv _) as [df0|e]; [|done]. cbn.
  by destruct (sort_values df0 "timestamp").
Qed.

(** X13: [load_history] tells a missing log from an unreadable one: an
    existing file with no record raises [EmptyDataError], and one whose
    header has no [timestamp] column raises [ValueError]; neither gives
    [None]. *)
Theorem load_history_unreadable (fs : file_system) (path : string)
    (content : csv_file) :
  fs !! path = Some content →
  (filter (λ r, r ≠ []) content = [] →
   load_history fs path = Raises EmptyDataError)
  ∧ (∀ header rows,
       filter (λ r, r ≠ []) content = header :: rows →
       NoDup header → "" ∉ header → "timestamp" ∉ header →
       load_history fs path = Raises ValueError).
Proof.
  intros Hfs. unfold load_history, read_csv. rewrite Hfs. split.
  - by intros ->.
  - intros header rows -> Hnd Hempty Hts.
    rewrite bool_decide_true by done. cbn [negb].
    by rewrite bool_decide_false.
Qed.
End LoadAfterAppend.

Lemma load_history_unreadable_witness :
  ({[ "data/history.csv" := [] ]} : file_system) !! "data/history.csv" = Some []
  ∧ @load_history sample_codec {[ "data/history.csv" := [] ]} "data/history.csv"
    = Raises EmptyDataError.
Proof.
  split; [reflexivity|].
  apply (@load_history_unreadable sample_codec {[ "data/history.csv" := [] ]}
           "data/history.csv" []); reflexivity.
Defined.

(** ** History store: the round trip of a run of appends *)

Lemma filter_Forall_id {A} (P : A → Prop) `{∀ x, Decision (P x)} (l : list A) :
  Forall P l → filter P l = l.
Proof.
  induction 1 as [|x l Hx _ IH]; [done|].
  by rewrite filter_cons, decide_True, IH.
Qed.

Lemma collect_all_Returns {A} (os : list (outcome A)) :
  Forall (λ o, ∃ x, o = Returns x) os → ∃ l, collect os = Returns l.
Proof.
  induction 1 as [|o os [x ->] _ [l IH]]; [by exists []|].
  exists (x :: l). simpl. by rewrite IH.
Qed.

Lemma length_omap_le {A B} (f : A → option B) (l : list A) :
  (length (omap f l) ≤ length l)%nat.
Proof.
  induction l as [|x l IH]; [done|].
  rewrite omap_cons_eq. destruct (f x); simpl; lia.
Qed.

Section RoundTrip.
Context `{TextCodec}.

Lemma append_all_fresh (fs : file_system) (path : string)
    (r : time * dict float) (runs : list (time * dict float)) :
  fs !! path = None →
  append_all fs path (r :: runs) !! path
  = Some (header_row r.2 :: ((λ r, data_row r.1 r.2) <$> r :: runs)).
Proof.
  intros Hnone. unfold append_all. cbn [fold_left].
  rewrite (append_history_new _ _ _ _ Hnone).
  fold (append_all (<[path:=[header_row r.2; data_row r.1 r.2]]> fs) path runs).
  by rewrite (append_all_existing _ _ _ _ (lookup_insert_eq _ _ _)).
Qed.

(** A log whose records all parse is read without error. *)
Lemma read_csv_parseable (header : list string) (rows : csv_file) :
  NoDup header → "" ∉ header → "timestamp" ∈ header →
  Forall (λ r, r ≠ [] ∧ (length r ≤ length header)%nat) rows →
  (∀ r j name, r ∈ rows → header !! j = Some name →
               is_Some (parse_cell name (default "" (r !! j)))) →
  ∃ df, read_csv (header :: rows) = Returns df.
Proof.
  intros Hnd Hempty Hts Hrows Hcells.
  assert (Hhd : header ≠ []) by (intros ->; by apply not_elem_of_nil in Hts).
  unfold read_csv.
  rewrite filter_cons, decide_True by done.
  rewrite filter_Forall_id by (eapply Forall_impl; [exact Hrows|]; by intros ? [? _]).
  rewrite bool_decide_true by done. cbn [negb].
  rewrite bool_decide_true by done. cbn [negb].
  assert (Hlen : forallb (λ r : list string, Nat.leb (length r) (length header)) rows
                 = true).
  { apply forallb_forall. intros r Hr%list_elem_of_In.
    apply Nat.leb_le.
    by apply (proj1 (Forall_forall _ _) Hrows r). }
  rewrite Hlen. cbn [negb].
  destruct (collect_all_Returns
              (imap (λ j name, parse_column name (column_cells rows j)) header))
    as [cols Hcols].
  - apply Forall_forall. intros o (j & name & -> & Hj)%elem_of_lookup_imap.
    unfold parse_column, column_cells.
    destruct (decide (name = "timestamp")) as [->|Hne].
    + assert (Hall : is_Some (mapM parse_time ((λ r, default "" (r !! j)) <$> rows))).
      { apply mapM_is_Some, Forall_fmap, Forall_forall. intros r Hr.
        specialize (Hcells r j "timestamp" Hr Hj). unfold parse_cell in Hcells.
        rewrite decide_True in Hcells by done.
        simpl. by apply fmap_is_Some in Hcells. }
      destruct Hall as [ts ->]. eauto.
    + assert (Hall : is_Some (mapM parse_num_cell ((λ r, default "" (r !! j)) <$> rows))).
      { apply mapM_is_Some, Forall_fmap, Forall_forall. intros r Hr.
        specialize (Hcells r j name Hr Hj). unfold parse_cell in Hcells.
        rewrite decide_False in Hcells by done.
        simpl. by apply fmap_is_Some in Hcells. }
      destruct Hall as [xs ->]. eauto.
  - rewrite Hcols. cbn. eauto.
Qed.

(** The cells a readable run writes read back as the cells of its row. *)
Lemma data_row_cell (ks : list string) (r : time * dict float) (j : nat)
    (name : string) :
  NoDup ks → "timestamp" ∉ ks → readable_run ks r →
  ("timestamp" :: ks) !! j = Some name →
  ∃ v, parse_cell name (default "" (data_row r.1 r.2 !! j)) = Some v
       ∧ run_row r !! j = Some (name, v).
Proof.
  destruct r as [t d]. intros Hnd Hts (Hk & Ht & Hv) Hj. simpl in *.
  assert (Hwf : dict_wf d) by (unfold dict_wf; by rewrite Hk).
  unfold data_row, run_row, parse_cell.
  rewrite (dict_values_by_key_wf d Hwf).
  destruct j as [|j]; simpl in Hj.
  - injection Hj as <-. exists (VTime t). split; [|done].
    cbn -[decide parse_time isoformat].
    rewrite (decide_True (P := "timestamp" = "timestamp")) by done.
    by rewrite Ht.
  - assert (Hname : name ≠ "timestamp").
    { intros ->. apply Hts. by eapply list_elem_of_lookup_2. }
    rewrite <- Hk in Hj. unfold dict_keys in Hj.
    apply list_lookup_fmap_Some in Hj as ([k v] & Hkv & Hd). simpl in Hkv. subst k.
    assert (Hpv : parse_num_cell (repr_float v) = Some v).
    { apply (proj1 (Forall_lookup _ _) Hv j v).
      by rewrite list_lookup_fmap, Hd. }
    exists (VNum v). rewrite !lookup_cons.
    rewrite !list_lookup_fmap, Hd.
    cbn -[decide parse_num_cell repr_float].
    rewrite (decide_False (P := name = "timestamp")) by done.
    rewrite Hpv. split; [done|]. by rewrite Hd.
Qed.

Lemma data_row_length (ks : list string) (r : time * dict float) :
  NoDup ks → readable_run ks r →
  length (data_row r.1 r.2) = S (length ks) ∧ length (run_row r) = S (length ks).
Proof.
  destruct r as [t d]. intros Hnd (Hk & _ & _). simpl in *.
  assert (Hwf : dict_wf d) by (unfold dict_wf; by rewrite Hk).
  unfold data_row, run_row.
  rewrite (dict_values_by_key_wf d Hwf). cbn [length].
  rewrite <- Hk. unfold dict_keys. by rewrite !length_fmap.
Qed.

(** X14: appending a run of mappings with the same keys to a path with no
    file and loading the log gives a table with the column [timestamp]
    followed by the keys, one row per append, the rows being those
    appended (each instant with its values) up to their order, and the
    instants in ascending order; this holds when the keys are distinct
    and differ from [timestamp] and the empty name, and every text
    written reads back as the value it was written for. *)
Theorem append_all_load_roundtrip (fs : file_system) (path : string)
    (ks : list string) (runs : list (time * dict float)) :
  fs !! path = None → runs ≠ [] →
  NoDup ks → "timestamp" ∉ ks → "" ∉ ks →
  Forall (readable_run ks) runs →
  ∃ df ts,
    load_history (append_all fs path runs) path = Returns (Some df)
    ∧ dict_keys df = "timestamp" :: ks
    ∧ nrows df = length runs
    ∧ frame_rows df ≡ₚ run_row <$> runs
    ∧ dict_get df "timestamp" = Some (TimeCol ts)
    ∧ Sorted Z.le ts.
Proof.
  intros Hnone Hne Hnd Hts Hempty Hruns.
  destruct runs as [|r0 rs]; [done|]. clear Hne.
  set (runs := r0 :: rs) in *.
  set (header := "timestamp" :: ks).
  set (rows := (λ r, data_row r.1 r.2) <$> runs).
  assert (Hcontent : append_all fs path runs !! path = Some (header :: rows)).
  { unfold runs. rewrite (append_all_fresh _ _ _ _ Hnone).
    unfold header_row, header.
    by rewrite (proj1 (Forall_inv Hruns)). }
  assert (Hndh : NoDup header) by (by apply NoDup_cons).
  assert (Hemh : "" ∉ header).
  { intros [Heq|Hin]%elem_of_cons; [done | by apply Hempty]. }
  destruct (read_csv_parseable header rows Hndh Hemh) as [df0 Hread].
  { apply list_elem_of_here. }
  { apply Forall_fmap, Forall_forall. intros r Hr.
    pose proof (proj1 (Forall_forall _ _) Hruns r Hr) as Hrr.
    destruct (data_row_length ks r Hnd Hrr) as [Hl _].
    unfold compose. cbv beta.
    split; [by unfold data_row | by rewrite Hl]. }
  { intros row j name (r & -> & Hr)%list_elem_of_fmap Hj.
    pose proof (proj1 (Forall_forall _ _) Hruns r Hr) as Hrr.
    destruct (data_row_cell ks r j name Hnd Hts Hrr Hj) as (v & Hv & _).
    by rewrite Hv. }
  destruct (read_csv_shape _ _ Hread)
    as (header' & rows' & Hfilter & Hkeys & (Hwf & Hn & [ts0 Hts0] & Hnum) & Hcells).
  assert (Hrows_ne : Forall (λ r : list string, r ≠ []) rows).
  { apply Forall_fmap, Forall_forall. intros r _. simpl. unfold data_row. done. }
  rewrite filter_cons, decide_True, (filter_Forall_id _ _ Hrows_ne) in Hfilter by done.
  injection Hfilter as <- <-.
  assert (Hlen : length rows = length runs) by (unfold rows; by rewrite length_fmap).
  rewrite Hlen in Hn.
  destruct (sort_values_spec _ df0 ts0 Hn Hts0)
    as (df & ts & Hsort & Hkeys' & Hn' & Hperm & Htsc & Hsorted).
  exists df, ts.
  assert (Hdf0 : df0 ≠ []) by (intros ->; done).
  assert (Hdf : df ≠ []) by (intros ->; by destruct df0).
  split.
  { unfold load_history. rewrite Hcontent, Hread. cbn. by rewrite Hsort. }
  split; [congruence|].
  split; [by apply nrows_wf|].
  split; [|done].
  rewrite Hperm. apply reflexive_eq.
  unfold frame_rows. rewrite (nrows_wf _ _ Hn Hdf0).
  apply list_eq. intros i.
  rewrite !list_lookup_fmap.
  destruct (runs !! i) as [r|] eqn:Hi.
  - rewrite (lookup_seq_lt 0 (length runs) i) by (by eapply lookup_lt_Some).
    cbn. f_equal.
    assert (Hr : r ∈ runs) by (by eapply list_elem_of_lookup_2).
    pose proof (proj1 (Forall_forall _ _) Hruns r Hr) as Hrr.
    destruct (data_row_length ks r Hnd Hrr) as [_ Hlr].
    assert (Hrow : rows !! i = Some (data_row r.1 r.2)).
    { unfold rows. by rewrite list_lookup_fmap, Hi. }
    apply list_eq. intros j.
    destruct (header !! j) as [name|] eqn:Hj.
    + destruct (Hcells i _ j name Hrow Hj) as (v & Hv & ->).
      destruct (data_row_cell ks r j name Hnd Hts Hrr Hj) as (v' & Hv' & ->).
      congruence.
    + apply lookup_ge_None in Hj.
      rewrite (proj2 (lookup_ge_None _ _)), (proj2 (lookup_ge_None _ _)); [done| |].
      * rewrite Hlr. exact Hj.
      * pose proof (length_omap_le
                      (λ nc : string * column, (λ v, (nc.1, v)) <$> col_cell nc.2 i) df0)
          as Hle.
        unfold row_at.
        assert (Hl0 : length df0 = length header).
        { rewrite <- Hkeys. unfold dict_keys. by rewrite length_fmap. }
        lia.
  - apply lookup_ge_None in Hi.
    rewrite (proj2 (lookup_ge_None _ _)); [done|].
    by rewrite length_seq.
Qed.

(** What [read_csv] can raise on a log of the program's own lies
    outside the fragment modelled. *)
Lemma collect_Raises {A} (os : list (outcome A)) (e : exn) :
  collect os = Raises e → Raises e ∈ os.
Proof.
  induction os as [|o os IH]; [done|]. simpl.
  destruct o as [a|e']; cbn.
  - destruct (collect os) as [k|e'']; cbn; [done|].
    intros [= ->]. apply list_elem_of_further. by apply IH.
  - intros [= ->]. apply list_elem_of_here.
Qed.

Lemma own_log_after_append (fs : file_system) (path : string) (t : time)
    (prices : dict float) (runs : list (time * dict float)) :
  own_log fs path runs →
  ∃ ks, append_history fs path t prices !! path
        = Some (("timestamp" :: ks)
                :: ((λ r, data_row r.1 r.2) <$> runs ++ [(t, prices)])).
Proof.
  intros (fs0 & Hnone & Heq). destruct runs as [|r rs].
  - cbn in Heq. rewrite Hnone in Heq.
    rewrite (append_history_new _ _ _ _ Heq), lookup_insert_eq.
    by exists (dict_keys prices).
  - rewrite (append_all_fresh _ _ _ _ Hnone) in Heq.
    rewrite (append_history_existing _ _ _ _ _ Heq), lookup_insert_eq.
    exists (dict_keys r.2). unfold header_row.
    by rewrite (fmap_app _ (r :: rs) [(t, prices)]).
Qed.

Lemma data_rows_not_blank (runs : list (time * dict float)) :
  Forall (λ r : list string, r ≠ []) ((λ r, data_row r.1 r.2) <$> runs).
Proof. apply Forall_fmap, Forall_forall. intros r _. simpl. by unfold data_row. Qed.

(** The table loaded from a log of the program's own after one more
    append has one row per run. *)
Lemma load_own_log_rows (fs : file_system) (path : string) (t : time)
    (prices : dict float) (runs : list (time * dict float)) (df : DataFrame) :
  own_log fs path runs →
  load_history (append_history fs path t prices) path = Returns (Some df) →
  nrows df = S (length runs) ∧ dict_keys df ≠ [] ∧ df_empty df = false.
Proof.
  intros Hown Hload.
  destruct (own_log_after_append fs path t prices runs Hown) as (ks & Hcontent).
  destruct (load_history_Some _ _ _ Hload)
    as (content & df0 & ts & Hc & Hread & Hts & Hsort).
  rewrite Hcontent in Hc. injection Hc as <-.
  destruct (read_csv_shape _ _ Hread)
    as (header & rows & Hfilter & Hkeys & Hh & _).
  rewrite filter_cons, decide_True, (filter_Forall_id _ _ (data_rows_not_blank _))
    in Hfilter by done.
  injection Hfilter as <- <-.
  rewrite length_fmap, length_app, Nat.add_1_r in Hh.
  pose proof Hh as (_ & Hn & _ & _).
  destruct (sort_values_spec _ df0 ts Hn Hts)
    as (df' & ts' & Hsort' & Hkeys' & Hn' & _).
  rewrite Hsort in Hsort'. injection Hsort' as <-.
  assert (Hne : df ≠ []).
  { intros ->. rewrite Hkeys in Hkeys'. done. }
  assert (Hrows : nrows df = S (length runs)) by (by apply nrows_wf).
  split; [done|]. split; [by destruct df|].
  unfold df_empty. rewrite Hrows. by destruct df.
Qed.

(** On a log of the program's own, [load_history] returns a table or
    stops on an input outside the fragment modelled. *)
Lemma load_own_log_outcome (fs : file_system) (path : string) (t : time)
    (prices : dict float) (runs : list (time * dict float)) :
  own_log fs path runs →
  (∃ df, load_history (append_history fs path t prices) path = Returns (Some df))
  ∨ (∃ what, load_history (append_history fs path t prices) path
             = Raises (Unsupported what)).
Proof.
  intros Hown.
  destruct (own_log_after_append fs path t prices runs Hown) as (ks & Hcontent).
  unfold load_history. rewrite Hcontent.
  destruct (read_csv _) as [df0|e] eqn:Hread.
  - left. cbn.
    destruct (read_csv_shape _ _ Hread)
      as (header & rows & _ & _ & (_ & Hn & [ts Hts] & _) & _).
    destruct (sort_values_spec _ df0 ts Hn Hts) as (df & ts' & -> & _). cbn. eauto.
  - right. cbn. revert Hread. unfold read_csv.
    rewrite filter_cons, decide_True, (filter_Forall_id _ _ (data_rows_not_blank _))
      by done.
    destruct (bool_decide (NoDup _ ∧ _)); cbn [negb]; [|intros [= <-]; eauto].
    rewrite bool_decide_true by apply list_elem_of_here. cbn [negb].
    destruct (forallb _ _); cbn [negb]; [|intros [= <-]; eauto].
    destruct (collect _) as [cols|e'] eqn:Hcols; [done|]. cbn. intros [= ->].
    apply collect_Raises in Hcols.
    apply elem_of_lookup_imap in Hcols as (j & name & Hcol & _).
    revert Hcol. unfold parse_column.
    destruct (decide (name = "timestamp")).
    + destruct (mapM parse_time _); [done|]. intros [= ->]. eauto.
    + destruct (mapM parse_num_cell _); [done|]. intros [= ->]. eauto.
Qed.

(** X12: after [append_history] the log exists, so [load_history] never
    returns [None] for it; and on a log of the program's own (a path with
    no file, or what earlier appends to such a path have left) the table
    it returns has exactly one row per run, this one included, and at
    least one column: it is never the empty table the orchestrator guards
    against. *)
Theorem load_history_after_append (fs : file_system) (path : string)
    (t : time) (prices : dict float) (runs : list (time * dict float)) :
  own_log fs path runs →
  load_history (append_history fs path t prices) path ≠ Returns None
  ∧ (∀ df,
       load_history (append_history fs path t prices) path = Returns (Some df) →
       nrows df = S (length runs) ∧ dict_keys df ≠ [] ∧ df_empty df = false).
Proof.
  intros Hown. split; [apply load_after_append_not_None|].
  intros df Hload. by apply (load_own_log_rows fs path t prices runs).
Qed.
End RoundTrip.

Lemma sample_own_log :
  @own_log sample_codec
    (@append_all sample_codec ∅ "data/history.csv" sample_runs)
    "data/history.csv" sample_runs.
Proof. by exists ∅. Qed.

Lemma load_history_after_append_witness :
  @own_log sample_codec
    (@append_all sample_codec ∅ "data/history.csv" sample_runs)
    "data/history.csv" sample_runs
  ∧ ∃ df,
      @load_history sample_codec
        (@append_history sample_codec
           (@append_all sample_codec ∅ "data/history.csv" sample_runs)
           "data/history.csv" 120%Z [("BTC", 50000%float); ("ETH", 50000%float)])
        "data/history.csv"
      = Returns (Some df)
      ∧ nrows df = 3.
Proof.
  split; [apply sample_own_log|].
  eexists. split; [by vm_compute|].
  apply (@load_history_after_append sample_codec
           (@append_all sample_codec ∅ "data/history.csv" sample_runs)
           "data/history.csv" 120%Z [("BTC", 50000%float); ("ETH", 50000%float)]
           sample_runs sample_own_log).
  by vm_compute.
Defined.

Lemma sample_runs_readable :
  Forall (@readable_run sample_codec ["BTC"; "ETH"]) sample_runs.
Proof.
  repeat (constructor || split); by vm_compute.
Qed.

Lemma append_all_load_roundtrip_witness :
  ∃ df ts,
    @load_history sample_codec
      (@append_all sample_codec ∅ "data/history.csv" sample_runs)
      "data/history.csv"
    = Returns (Some df)
    ∧ dict_keys df = ["timestamp"; "BTC"; "ETH"]
    ∧ nrows df = 2
    ∧ frame_rows df ≡ₚ run_row <$> sample_runs
    ∧ dict_get df "timestamp" = Some (TimeCol ts)
    ∧ Sorted Z.le ts.
Proof.
  apply (@append_all_load_roundtrip sample_codec ∅ "data/history.csv"
           ["BTC"; "ETH"] sample_runs).
  - reflexivity.
  - discriminate.
  - by compute_done.
  - by compute_done.
  - by compute_done.
  - exact sample_runs_readable.
Defined.

(** ** The orchestrator *)

Lemma bind_Raises {St A B} (c : M St A) (k : A → M St B) s e s' :
  c s = (Raises e, s') → bind c k s = (Raises e, s').
Proof. intros Hc. unfold bind. by rewrite Hc. Qed.

Lemma fetch_prices_log (assets : list asset) (url vs : string) (net : network) :
  (fetch_prices assets url vs net).2 = logged (price_request assets url vs) net.
Proof.
  rewrite fetch_prices_run.
  destruct (net_answer net (price_request assets url vs)) as [|st body]; [done|].
  destruct (bool_decide (400 ≤ st < 600)%Z); [done|]. by destruct body.
Qed.

Lemma notify_telegram_run (text : string) (cfg : config) (net : network) :
  notify_telegram text cfg net
  = if bool_decide (credential cfg bot_token = "")
       || bool_decide (credential cfg chat_id = "")
    then (Returns false, net)
    else (Returns (answered (net_answer net
                     (telegram_request text (credential cfg bot_token)
                        (credential cfg chat_id)))),
          logged (telegram_request text (credential cfg bot_token)
                    (credential cfg chat_id)) net).
Proof.
  unfold notify_telegram.
  destruct (bool_decide (credential cfg bot_token = "")
            || bool_decide (credential cfg chat_id = "")); [done|].
  unfold try_except, bind, send.
  fold (telegram_request text (credential cfg bot_token) (credential cfg chat_id)).
  by destruct (net_answer net _).
Qed.

Lemma telegram_not_configured (cfg : config) :
  telegram_configured cfg = false → credential cfg bot_token = "".
Proof.
  unfold telegram_configured, credential.
  destruct (cfg_telegram cfg) as [tg|]; [|done].
  intros Hn%bool_decide_eq_false. cbn.
  destruct (bot_token tg); [|done]. exfalso. apply Hn. left. eauto.
Qed.

Lemma sort_values_history (n : nat) (df0 df : DataFrame) :
  history_table n df0 → sort_values df0 "timestamp" = Returns df →
  history_table n df.
Proof.
  intros (Hwf & Hn & [ts Hts] & Hnum) Hsort.
  destruct (sort_values_spec n df0 ts Hn Hts)
    as (df' & ts' & Hs & Hkeys & Hn' & _ & Hts' & _).
  rewrite Hsort in Hs. injection Hs as <-.
  split; [unfold dict_wf; by rewrite Hkeys|]. split; [done|]. split; [eauto|].
  intros name c Hin Hne. unfold sort_values in Hsort. rewrite Hts in Hsort.
  injection Hsort as <-.
  apply list_elem_of_fmap in Hin as ([name0 c0] & Heq & Hin0). cbn in Heq.
  injection Heq as -> ->.
  destruct (Hnum name0 c0 Hin0 Hne) as [xs ->]. cbn. eauto.
Qed.

Lemma for_each_print (f : string → string) (xs : list string) (w : world) :
  for_each xs (λ a, print (f a)) w
  = (Returns tt, set_stdout (w_stdout w ++ (f <$> xs)) w).
Proof.
  revert w. induction xs as [|x xs IH]; intros w; cbn [for_each].
  - destruct w. unfold ret, set_stdout. cbn. by rewrite app_nil_r.
  - unfold bind, print at 1. rewrite IH. unfold set_stdout. cbn.
    by rewrite <- app_assoc.
Qed.

Section MainRuns.
Context `{TextCodec} `{Formats} `{Pandas} `{PlotlyIO}.

Lemma load_history_table (fs : file_system) (path : string) (df : DataFrame) :
  load_history fs path = Returns (Some df) → history_table (nrows df) df.
Proof.
  intros Hload.
  destruct (load_history_Some _ _ _ Hload)
    as (content & df0 & ts & _ & Hread & Hts & Hsort).
  destruct (read_csv_shape _ _ Hread) as (header & rows & _ & _ & Hh & _).
  pose proof (sort_values_history _ _ _ Hh Hsort) as Hdf.
  pose proof Hdf as (_ & Hn & [ts' Hts'] & _).
  rewrite (nrows_wf _ _ Hn); [done|]. by intros ->.
Qed.

Lemma report_run (now : time) (prices : dict float) (alerts : list string)
    (w : world) :
  report now prices alerts w
  = (Returns tt, set_stdout (w_stdout w ++ report_lines now prices alerts) w).
Proof.
  unfold report, report_lines, bind, print at 1.
  destruct (bool_decide (alerts ≠ [])).
  - unfold bind, print at 1. rewrite for_each_print. unfold set_stdout. cbn.
    by rewrite <- !app_assoc.
  - done.
Qed.

Lemma send_alerts_run (rc : run_config) (alerts : list string) (w : world) :
  send_alerts rc alerts w
  = (Returns tt,
     set_net (if alerts_posted rc alerts
              then logged (alert_request rc alerts) (w_net w)
              else w_net w)
       (set_stdout (w_stdout w ++ if alerts_announced rc alerts
                                  then [alert_message alerts] else [])
          w)).
Proof.
  unfold send_alerts, alerts_posted, alerts_announced, alert_request.
  fold (alert_message alerts).
  destruct (alerts_enabled rc && bool_decide (alerts ≠ [])); cbn [andb].
  - unfold bind, print at 1.
    destruct (telegram_configured (run_cfg rc)) eqn:Htg.
    + unfold bind, on_net, ret. rewrite notify_telegram_run. cbn [w_net set_stdout].
      destruct (bool_decide (credential (run_cfg rc) bot_token = ""));
        destruct (bool_decide (credential (run_cfg rc) chat_id = "")); cbn;
        by destruct w.
    + rewrite (telegram_not_configured _ Htg). cbn. by destruct w.
  - destruct w. unfold ret, set_net, set_stdout. cbn. by rewrite app_nil_r.
Qed.

(** A run whose price request fails. *)
Lemma main_run_fetch_raises (rc : run_config) (now : time) (w : world) (e : exn) :
  (fetch_prices (cfg_assets (run_cfg rc)) (source_url rc) (source_vs rc)
     (w_net w)).1 = Raises e →
  main rc now w
  = (Raises e,
     set_net (logged (price_request (cfg_assets (run_cfg rc)) (source_url rc)
                        (source_vs rc)) (w_net w)) w).
Proof.
  intros Hf. unfold main. cbn zeta.
  apply bind_Raises. unfold on_net. by rewrite Hf, fetch_prices_log.
Qed.

(** The state of a run after its first two steps. *)
Lemma main_after_append (rc : run_config) (now : time) (w : world)
    (prices : dict float) :
  (fetch_prices (cfg_assets (run_cfg rc)) (source_url rc) (source_vs rc)
     (w_net w)).1 = Returns prices →
  let w2 :=
    set_files (append_history (w_files w) (history_csv rc) now prices)
      (set_net (logged (price_request (cfg_assets (run_cfg rc)) (source_url rc)
                          (source_vs rc)) (w_net w)) w) in
  main rc now w
  = match load_history (w_files w2) (history_csv rc) with
    | Raises e => (Raises e, w2)
    | Returns None => print "No hay histórico aún; vuelve a ejecutar." w2
    | Returns (Some df) =>
        if df_empty df then print "No hay histórico aún; vuelve a ejecutar." w2
        else
          (df <~ on_heap (alloc df) ;;
           df <~ on_heap (enrich_with_changes df) ;;
           out <~ on_heap (load df) ;;
           ft <~ call_build_dashboard out (run_cfg rc) ;;
           write_dashboard_html ft.1 ft.2 (dashboard_html rc) ;;;
           let alerts := check_alerts_text prices (cfg_assets (run_cfg rc)) in
           send_alerts rc alerts ;;;
           report now prices alerts)%py w2
    end.
Proof.
  intros Hf w2. unfold main. cbn zeta.
  erewrite bind_Returns;
    [|unfold on_net; by rewrite Hf, fetch_prices_log].
  erewrite bind_Returns; [|reflexivity].
  subst w2. unfold bind at 1. cbn [w_files set_files set_net].
  destruct (load_history _ (history_csv rc)) as [[df|]|e]; try done.
  by destruct (df_empty df).
Qed.
End MainRuns.

Section MainTheorems.
Context `{TextCodec} `{Formats} `{Pandas} `{PlotlyIO}.

(** A run that fetches its prices and loads a table with a row reaches
    its end. *)
Lemma main_run_success (rc : run_config) (now : time) (w : world)
    (prices : dict float) (df : DataFrame) :
  (fetch_prices (cfg_assets (run_cfg rc)) (source_url rc) (source_vs rc)
     (w_net w)).1 = Returns prices →
  load_history (append_history (w_files w) (history_csv rc) now prices)
    (history_csv rc) = Returns (Some df) →
  df_empty df = false →
  let alerts := check_alerts_text prices (cfg_assets (run_cfg rc)) in
  let net1 := logged (price_request (cfg_assets (run_cfg rc)) (source_url rc)
                        (source_vs rc)) (w_net w) in
  ∃ out tbl fig h',
    enrich_frame df = Returns out
    ∧ build_dashboard out (run_cfg rc) make_subplots = (Returns tbl, fig)
    ∧ main rc now w
      = (Returns tt,
         {| w_net := if alerts_posted rc alerts
                     then logged (alert_request rc alerts) net1 else net1;
            w_files := append_history (w_files w) (history_csv rc) now prices;
            w_pages := <[dashboard_html rc := page_of fig tbl]> (w_pages w);
            w_heap := h';
            w_stdout := w_stdout w ++ run_lines rc now prices alerts |}).
Proof.
  intros Hf Hl He alerts net1.
  rewrite (main_after_append _ _ _ _ Hf). cbn zeta. cbn [w_files set_files set_net].
  rewrite Hl, He.
  pose proof (load_history_table _ _ _ Hl) as Hh.
  assert (Hn : ∃ n, nrows df = S n).
  { unfold df_empty in He. apply orb_false_elim in He as [_ He].
    destruct (nrows df) as [|n]; [done | eauto]. }
  destruct Hn as [n Hn]. rewrite Hn in Hh.
  destruct (enrich_loop_history (S n) (dict_keys df) df Hh) as (mid & Hloop & Hmid & _);
    [done|].
  pose proof (frame_fillna_history _ _ Hmid) as Hout.
  assert (Hbd : ∃ tbl fig, build_dashboard (frame_fillna 0 mid) (run_cfg rc)
                             make_subplots = (Returns tbl, fig)).
  { destruct (build_dashboard_exact n _ (run_cfg rc) Hout) as (bar & x & _ & Hb & _).
    eauto. }
  destruct Hbd as (tbl & fig & Hb).
  set (l := fresh (dom (w_heap w))).
  destruct (enrich_with_changes_run (<[l := df]> (w_heap w)) l df (lookup_insert_eq _ _ _))
    as (mid' & Hrun).
  cbn zeta in Hrun. rewrite Hloop in Hrun. destruct Hrun as [-> Hrun].
  eexists (frame_fillna 0 mid), tbl, fig, _.
  split; [unfold enrich_frame; by rewrite Hloop|].
  split; [exact Hb|].
  set (w2 := set_files _ _).
  set (h3 := <[l := df]> (w_heap w)) in *.
  set (w3 := set_heap h3 w2).
  rewrite (bind_Returns _ _ w2 l w3) by reflexivity.
  set (h4 := <[fresh (dom (<[fresh (dom h3) := mid]> h3)) := frame_fillna 0 mid]>
               (<[fresh (dom h3) := mid]> h3)) in *.
  set (l' := fresh (dom (<[fresh (dom h3) := mid]> h3))) in *.
  set (w4 := set_heap h4 w3).
  rewrite (bind_Returns _ _ w3 l' w4)
    by (unfold on_heap; change (w_heap w3) with h3; by rewrite Hrun).
  rewrite (bind_Returns _ _ w4 (frame_fillna 0 mid) w4).
  2:{ unfold on_heap, load. change (w_heap w4) with h4. unfold h4.
      rewrite lookup_insert_eq. reflexivity. }
  rewrite (bind_Returns _ _ w4 (fig, tbl) w4)
    by (unfold call_build_dashboard; by rewrite Hb).
  cbn [fst snd].
  set (w5 := set_pages (<[dashboard_html rc := page_of fig tbl]> (w_pages w4)) w4).
  rewrite (bind_Returns _ _ w4 tt w5) by reflexivity.
  erewrite bind_Returns; [|apply send_alerts_run].
  rewrite report_run. f_equal.
  unfold run_lines. fold alerts. rewrite app_assoc. reflexivity.
Qed.
(** No line of a run that reaches its end is the message of the early
    return. *)
Lemma run_lines_no_early_message (rc : run_config) (now : time)
    (prices : dict float) (assets : list asset) :
  "No hay histórico aún; vuelve a ejecutar."
  ∉ run_lines rc now prices (check_alerts_text prices assets).
Proof.
  unfold run_lines, report_lines, check_alerts_text, alert_message, summary_line.
  intros [Hin|Hin]%elem_of_app.
  - destruct (alerts_announced rc _); [|by apply elem_of_nil in Hin].
    apply list_elem_of_singleton in Hin.
    destruct (check_alerts prices assets) as [|al l]; cbn in Hin.
    + discriminate.
    + destruct (render_alert <$> l); cbn in Hin; discriminate.
  - apply elem_of_cons in Hin as [Heq|Hin]; [cbn in Heq; discriminate|].
    destruct (bool_decide _); [|by apply elem_of_nil in Hin].
    apply elem_of_cons in Hin as [Heq|Hin]; [discriminate|].
    apply list_elem_of_fmap in Hin as (a & Heq & _). cbn in Heq. discriminate.
Qed.

(** X15: when the price request fails, [main] raises the error of
    [fetch_prices] and stops there: the log and the pages are as before,
    nothing is printed, and the network has seen the price request and
    nothing else. *)
Theorem main_fetch_failure (rc : run_config) (now : time) (w : world) (e : exn) :
  (fetch_prices (cfg_assets (run_cfg rc)) (source_url rc) (source_vs rc)
     (w_net w)).1 = Raises e →
  (main rc now w).1 = Raises e
  ∧ w_files (main rc now w).2 = w_files w
  ∧ w_pages (main rc now w).2 = w_pages w
  ∧ w_stdout (main rc now w).2 = w_stdout w
  ∧ net_log (w_net (main rc now w).2)
    = net_log (w_net w)
      ++ [price_request (cfg_assets (run_cfg rc)) (source_url rc) (source_vs rc)].
Proof.
  intros Hf. by rewrite (main_run_fetch_raises _ _ _ _ Hf).
Qed.

(** X16: when the prices are fetched and the log cannot be read back, [main]
    raises the error of [load_history] after the row of the run has been
    appended: no page is written, nothing is printed and no alert is
    sent, on a configuration whose page is not its log.  The error is one
    of [load_history] itself, not the mark of an input outside the
    fragment modelled. *)
Theorem main_load_failure (rc : run_config) (now : time) (w : world)
    (prices : dict float) (e : exn) :
  history_csv rc ≠ dashboard_html rc →
  (fetch_prices (cfg_assets (run_cfg rc)) (source_url rc) (source_vs rc)
     (w_net w)).1 = Returns prices →
  load_history (append_history (w_files w) (history_csv rc) now prices)
    (history_csv rc) = Raises e →
  (∀ what, e ≠ Unsupported what) →
  (main rc now w).1 = Raises e
  ∧ w_files (main rc now w).2
    = append_history (w_files w) (history_csv rc) now prices
  ∧ w_pages (main rc now w).2 = w_pages w
  ∧ w_stdout (main rc now w).2 = w_stdout w
  ∧ net_log (w_net (main rc now w).2)
    = net_log (w_net w)
      ++ [price_request (cfg_assets (run_cfg rc)) (source_url rc) (source_vs rc)].
Proof.
  intros _ Hf Hl _. rewrite (main_after_append _ _ _ _ Hf). cbn zeta.
  cbn [w_files set_files set_net]. by rewrite Hl.
Qed.

(** X17: when the prices are fetched and the log reads back as a table with a
    row, [main] returns: the log has gained the row of the run, the page
    of the configuration holds the figure and the table the renderer
    makes of the enriched table, the lines printed are the message of the
    alerts when alerts are enabled and there is one, then the report, and
    the network has seen the price request, followed by the POST of the
    alerts exactly when they are announced and both credentials are
    non-empty; this on a configuration whose page is not its log. *)
Theorem main_success (rc : run_config) (now : time) (w : world)
    (prices : dict float) (df : DataFrame) :
  history_csv rc ≠ dashboard_html rc →
  (fetch_prices (cfg_assets (run_cfg rc)) (source_url rc) (source_vs rc)
     (w_net w)).1 = Returns prices →
  load_history (append_history (w_files w) (history_csv rc) now prices)
    (history_csv rc) = Returns (Some df) →
  df_empty df = false →
  let alerts := check_alerts_text prices (cfg_assets (run_cfg rc)) in
  let rq := price_request (cfg_assets (run_cfg rc)) (source_url rc) (source_vs rc) in
  ∃ out tbl fig,
    enrich_frame df = Returns out
    ∧ build_dashboard out (run_cfg rc) make_subplots = (Returns tbl, fig)
    ∧ (main rc now w).1 = Returns tt
    ∧ w_files (main rc now w).2
      = append_history (w_files w) (history_csv rc) now prices
    ∧ w_pages (main rc now w).2
      = <[dashboard_html rc := page_of fig tbl]> (w_pages w)
    ∧ w_stdout (main rc now w).2 = w_stdout w ++ run_lines rc now prices alerts
    ∧ net_log (w_net (main rc now w).2)
      = net_log (w_net w)
        ++ rq :: (if alerts_posted rc alerts then [alert_request rc alerts] else []).
Proof.
  intros _ Hf Hl He alerts rq.
  destruct (main_run_success rc now w prices df Hf Hl He)
    as (out & tbl & fig & h' & Hout & Hb & ->).
  exists out, tbl, fig. split; [done|]. split; [done|].
  cbn [fst snd w_files w_pages w_stdout w_net]. fold alerts rq.
  repeat (split; [done|]).
  destruct (alerts_posted rc alerts); cbn; [|done].
  by rewrite <- app_assoc.
Qed.

(** X18: whatever the configuration and the world, a run of [main] sends the
    price request first and at most one request more: the POST that
    carries the alerts to Telegram, and that one only in a run that
    reaches its end with alerts enabled, at least one alert, and a token
    and a chat identifier that are not empty. *)
Theorem main_requests (rc : run_config) (now : time) (w : world) :
  let assets := cfg_assets (run_cfg rc) in
  ∃ posts,
    net_log (w_net (main rc now w).2)
    = net_log (w_net w)
      ++ price_request assets (source_url rc) (source_vs rc) :: posts
    ∧ (posts = []
       ∨ ∃ prices,
           (fetch_prices assets (source_url rc) (source_vs rc) (w_net w)).1
           = Returns prices
           ∧ (main rc now w).1 = Returns tt
           ∧ alerts_enabled rc = true
           ∧ check_alerts prices assets ≠ []
           ∧ credential (run_cfg rc) bot_token ≠ ""
           ∧ credential (run_cfg rc) chat_id ≠ ""
           ∧ posts = [alert_request rc (check_alerts_text prices assets)]).
Proof.
  intros assets.
  destruct (fetch_prices assets (source_url rc) (source_vs rc) (w_net w)).1
    as [prices|e] eqn:Hf.
  - pose proof (main_after_append rc now w prices Hf) as Hmain.
    cbn zeta in Hmain. cbn [w_files set_files set_net] in Hmain.
    destruct (load_history _ (history_csv rc)) as [[df|]|e] eqn:Hl;
      [|rewrite Hmain; exists []; split; [done | by left]..].
    destruct (df_empty df) eqn:He;
      [rewrite Hmain; exists []; split; [done | by left]|].
    clear Hmain.
    destruct (main_run_success rc now w prices df Hf Hl He)
      as (out & tbl & fig & h' & _ & _ & ->).
    cbn [fst snd w_net]. fold assets.
    destruct (alerts_posted rc (check_alerts_text prices assets)) eqn:Hp.
    + exists [alert_request rc (check_alerts_text prices assets)].
      split; [cbn; by rewrite <- app_assoc|]. right. exists prices.
      unfold alerts_posted, alerts_announced in Hp.
      apply andb_true_iff in Hp as [[[Hen Hal]%andb_true_iff Ht]%andb_true_iff Hc].
      apply bool_decide_eq_true in Hal.
      apply negb_true_iff, bool_decide_eq_false in Ht, Hc.
      repeat (split; [done|]). split; [|done].
      intros Hnil. apply Hal. unfold check_alerts_text.
      fold assets in Hnil |- *. by rewrite Hnil.
    + exists []. split; [done | by left].
  - rewrite (main_run_fetch_raises _ _ _ _ Hf). exists []. split; [done | by left].
Qed.

(** X19: the log gains the row of the run exactly when the prices are
    fetched, whatever happens afterwards, and no other log is touched;
    this on a configuration whose page is not its log. *)
Theorem main_history (rc : run_config) (now : time) (w : world) :
  history_csv rc ≠ dashboard_html rc →
  w_files (main rc now w).2
  = match (fetch_prices (cfg_assets (run_cfg rc)) (source_url rc) (source_vs rc)
             (w_net w)).1 with
    | Returns prices => append_history (w_files w) (history_csv rc) now prices
    | Raises _ => w_files w
    end
  ∧ ∀ path, path ≠ history_csv rc →
            w_files (main rc now w).2 !! path = w_files w !! path.
Proof.
  intros _.
  assert (Hfiles : w_files (main rc now w).2
    = match (fetch_prices (cfg_assets (run_cfg rc)) (source_url rc) (source_vs rc)
               (w_net w)).1 with
      | Returns prices => append_history (w_files w) (history_csv rc) now prices
      | Raises _ => w_files w
      end).
  { destruct (fetch_prices _ _ _ (w_net w)).1 as [prices|e] eqn:Hf.
    - pose proof (main_after_append rc now w prices Hf) as Hmain.
      cbn zeta in Hmain. cbn [w_files set_files set_net] in Hmain.
      destruct (load_history _ (history_csv rc)) as [[df|]|e] eqn:Hl;
        [|by rewrite Hmain..].
      destruct (df_empty df) eqn:He; [by rewrite Hmain|].
      clear Hmain.
      by destruct (main_run_success rc now w prices df Hf Hl He)
        as (out & tbl & fig & h' & _ & _ & ->).
    - by rewrite (main_run_fetch_raises _ _ _ _ Hf). }
  split; [done|]. intros path Hne. rewrite Hfiles.
  destruct (fetch_prices _ _ _ (w_net w)).1; [|done].
  by apply append_history_other.
Qed.

(** X20: on a log of the program's own (a path with no file, or what
    earlier appends to such a path have left), [main] never stops at its
    message that there is no history: once the prices are fetched, with a
    log inside the fragment modelled and a configuration whose colours
    plotly accepts, the run returns with the page written, and the
    message is not among the lines it prints. *)
Theorem main_no_early_return `{PlotlyColors} (rc : run_config) (now : time)
    (w : world) (prices : dict float) (runs : list (time * dict float)) :
  (fetch_prices (cfg_assets (run_cfg rc)) (source_url rc) (source_vs rc)
     (w_net w)).1 = Returns prices →
  own_log (w_files w) (history_csv rc) runs →
  (∀ what,
     load_history (append_history (w_files w) (history_csv rc) now prices)
       (history_csv rc) ≠ Raises (Unsupported what)) →
  accepted_config (run_cfg rc) →
  (main rc now w).1 = Returns tt
  ∧ is_Some (w_pages (main rc now w).2 !! dashboard_html rc)
  ∧ "No hay histórico aún; vuelve a ejecutar."
    ∉ drop (length (w_stdout w)) (w_stdout (main rc now w).2).
Proof.
  intros Hf Hown Hfragment _.
  destruct (load_own_log_outcome (w_files w) (history_csv rc) now prices runs Hown)
    as [[df Hl]|[what Hl]]; [|by destruct (Hfragment what)].
  destruct (load_own_log_rows _ _ _ _ _ _ Hown Hl) as (_ & _ & He).
  destruct (main_run_success rc now w prices df Hf Hl He)
    as (out & tbl & fig & h' & _ & _ & ->).
  cbn [fst snd w_pages w_stdout]. split; [done|].
  split; [rewrite lookup_insert_eq; eauto|].
  rewrite drop_app_length. apply run_lines_no_early_message.
Qed.
End MainTheorems.

Lemma main_fetch_failure_witness :
  (fetch_prices (cfg_assets (run_cfg sample_run_config))
     (source_url sample_run_config) (source_vs sample_run_config)
     (w_net offline_world)).1 = Raises ConnectionError
  ∧ (@main sample_codec sample_formats pandas2 sample_plotly
       sample_run_config 0%Z offline_world).1 = Raises ConnectionError
  ∧ w_stdout (@main sample_codec sample_formats pandas2 sample_plotly
                sample_run_config 0%Z offline_world).2 = [].
Proof.
  split; [reflexivity|].
  destruct (@main_fetch_failure sample_codec sample_formats pandas2 sample_plotly
              sample_run_config 0%Z offline_world ConnectionError)
    as (Hraise & _ & _ & Hout & _); [reflexivity|].
  split; [exact Hraise | exact Hout].
Defined.

Lemma main_load_failure_witness :
  history_csv sample_run_config ≠ dashboard_html sample_run_config
  ∧ (@main sample_codec sample_formats pandas2 sample_plotly
       sample_run_config 0%Z empty_log_world).1 = Raises ValueError
  ∧ w_pages (@main sample_codec sample_formats pandas2 sample_plotly
               sample_run_config 0%Z empty_log_world).2 = ∅.
Proof.
  split; [discriminate|].
  destruct (@main_load_failure sample_codec sample_formats pandas2 sample_plotly
              sample_run_config 0%Z empty_log_world [("BTC", 61000%float)]
              ValueError)
    as (Hraise & _ & Hpages & _);
    [discriminate | by vm_compute | by vm_compute | discriminate |].
  split; [exact Hraise | exact Hpages].
Defined.

Lemma main_success_witness :
  history_csv sample_run_config ≠ dashboard_html sample_run_config
  ∧ (@main sample_codec sample_formats pandas2 sample_plotly
       sample_run_config 0%Z sample_world).1 = Returns tt
  ∧ length (net_log (w_net (@main sample_codec sample_formats pandas2 sample_plotly
                              sample_run_config 0%Z sample_world).2)) = 2.
Proof.
  split; [discriminate|].
  destruct (@main_success sample_codec sample_formats pandas2 sample_plotly
              sample_run_config 0%Z sample_world [("BTC", 61000%float)]
              [("timestamp", TimeCol [0%Z]); ("BTC", NumCol [nan])])
    as (out & tbl & fig & _ & _ & Hret & _ & _ & _ & Hlog);
    [discriminate | by vm_compute | by vm_compute | reflexivity |].
  split; [exact Hret|]. by rewrite Hlog.
Defined.

Lemma main_history_witness :
  history_csv sample_run_config ≠ dashboard_html sample_run_config
  ∧ w_files (@main sample_codec sample_formats pandas2 sample_plotly
               sample_run_config 0%Z offline_world).2 = ∅.
Proof.
  split; [discriminate|].
  destruct (@main_history sample_codec sample_formats pandas2 sample_plotly
              sample_run_config 0%Z offline_world) as [Hfiles _]; [discriminate|].
  exact Hfiles.
Defined.

Lemma main_no_early_return_witness :
  @own_log sample_codec (w_files sample_world) (history_csv sample_run_config) []
  ∧ @accepted_config sample_colors (run_cfg sample_run_config)
  ∧ (@main sample_codec sample_formats pandas2 sample_plotly
       sample_run_config 0%Z sample_world).1 = Returns tt.
Proof.
  assert (Hown : @own_log sample_codec (w_files sample_world)
                   (history_csv sample_run_config) []) by (by exists ∅).
  split; [exact Hown|]. split; [apply default_cfg_accepted|].
  destruct (@main_no_early_return sample_codec sample_formats pandas2 sample_plotly
              sample_colors sample_run_config 0%Z sample_world
              [("BTC", 61000%float)] [])
    as (Hret & _); [by vm_compute | exact Hown | | apply default_cfg_accepted |].
  - intros what. by vm_compute.
  - exact Hret.
Defined.
